(** * Introspective statements of the SQL layer (pkg/sql/show.go)

    A shallow embedding of the plan builders of [show.go] (SHOW <var>,
    SHOW COLUMNS, SHOW CREATE TABLE, SHOW CREATE VIEW, SHOW GRANTS,
    SHOW INDEX, SHOW CONSTRAINTS, SHOW TABLES, HELP) and of the deferred
    construction callbacks they return, together with the properties the
    specification states about them.

    Conventions.
    - A Go function returning [(T, error)] returns an [outcome T]; a run-time
      panic (index or slice out of range, call of a nil function) is the
      third outcome [Panic].
    - The construction callbacks mutate the planner ([evalCtx.Database],
      [skipSelectPrivilegeChecks]) and the row containers they allocate;
      they live in the state monad [M] over [pstate].
    - Collaborators that are not part of [show.go] (catalog queries,
      descriptor resolution, the parser) are fields of the [planner] record
      or methods of the [Collaborators] class: the theorems hold for every
      behaviour of theirs. *)

From Stdlib Require Import String Ascii List ZArith Lia Bool Arith.
From Stdlib Require Import Sorted Permutation DecimalString.
Import ListNotations.
Open Scope list_scope.
Open Scope string_scope.

Set Implicit Arguments.

(** ** Errors *)

(** The errors [show.go] creates or passes on.  The formatted text of each is
    recalled in the comment; the claims only depend on their kind and on the
    object they name. *)
Inductive error : Type :=
| errUnknownVariable (name : string)
    (* fmt.Errorf("unknown variable: %q", name) *)
| errUndefinedDatabase (name : string)
    (* sqlbase.NewUndefinedDatabaseError(name) *)
| errUndefinedTable (name : string)
    (* sqlbase.NewUndefinedTableError(name) *)
| errNoPrivileges (user table : string)
    (* fmt.Errorf("user %s has no privileges on table %s", user, table) *)
| errViewParse (cause : error) (view : string)
    (* errors.Wrapf(err, "failed to parse underlying query from view %q", tn) *)
| errViewNotSelect (view : string)
    (* errors.Errorf("failed to parse underlying query from view %q as a select", tn) *)
| errGrantsNoTargets
    (* errors.Errorf("TODO(marc): implement SHOW GRANT with no targets") *)
| errNoDatabase
    (* the package-level errNoDatabase *)
| errOther (msg : string).
    (* any error raised by a collaborator *)

(** ** Go run-time notions *)

Module Go.

Inductive outcome (A : Type) : Type :=
| Ok (a : A)
| Err (e : error)
| Panic (msg : string).

Arguments Ok {A} a.
Arguments Err {A} e.
Arguments Panic {A} msg.

Definition obind {A B : Type} (o : outcome A) (k : A -> outcome B) : outcome B :=
  match o with
  | Ok a => k a
  | Err e => Err e
  | Panic msg => Panic msg
  end.

(** [l[i]] on a slice: the index must be below the length. *)
Definition index {A : Type} (l : list A) (i : nat) : outcome A :=
  match nth_error l i with
  | Some a => Ok a
  | None => Panic "index out of range"
  end.

(** A slice whose capacity matters: [elems] are the [len] elements, [spare]
    the elements of the backing array between [len] and [cap].  Only
    re-slicing observes [spare]; ranging and indexing see [elems]. *)
Record slice (A : Type) : Type := mkSlice { elems : list A; spare : list A }.

Definition len {A : Type} (s : slice A) : nat := length (elems s).
Definition cap {A : Type} (s : slice A) : nat := length (elems s) + length (spare s).

(** [s[:n]] for an [int] [n]: in range when [0 <= n <= cap(s)]. *)
Definition slice_to {A : Type} (s : slice A) (n : Z) : outcome (slice A) :=
  if ((0 <=? n)%Z && (n <=? Z.of_nat (cap s))%Z)%bool
  then Ok (mkSlice (firstn (Z.to_nat n) (elems s ++ spare s))
                   (skipn (Z.to_nat n) (elems s ++ spare s)))
  else Panic "slice bounds out of range".

(** A slice with no spare capacity. *)
Definition of_list {A : Type} (l : list A) : slice A := mkSlice l [].

(** The 64-bit signed [int]: the result of an addition wraps around. *)
Definition int_wrap (z : Z) : Z := ((z + 2 ^ 63) mod 2 ^ 64 - 2 ^ 63)%Z.

(** The range of a [uint32]. *)
Definition uint32 (z : Z) : Prop := (0 <= z < 2 ^ 32)%Z.

(** [fmt.Sprintf("%d", n)] for a non-negative counter. *)
Definition itoa (n : nat) : string := NilEmpty.string_of_uint (Nat.to_uint n).

(** [strings.Join]. *)
Definition Join (l : list string) (sep : string) : string := String.concat sep l.

(** Sorting by a boolean order ([sort.Strings], [sort.Sort]): the sorted
    permutation, built by insertion. *)
Section Sorting.
Variable A : Type.
Variable leb : A -> A -> bool.

Fixpoint insert_sorted (x : A) (l : list A) : list A :=
  match l with
  | [] => [x]
  | y :: l' => if leb x y then x :: l else y :: insert_sorted x l'
  end.

Fixpoint sort_by (l : list A) : list A :=
  match l with
  | [] => []
  | x :: l' => insert_sorted x (sort_by l')
  end.

End Sorting.

(** The order relation of a boolean order. *)
Definition le_of {A : Type} (leb : A -> A -> bool) (x y : A) : Prop :=
  leb x y = true.

(** [sort.Strings]: ascending in the byte-wise order of Go strings. *)
Definition sort_Strings (l : list string) : list string := sort_by String.leb l.

End Go.

Export Go.

Notation "x <-? o ;; k" := (Go.obind o (fun x => k))
  (at level 61, o at next level, right associativity).

(** ** Package parser: datums and statement nodes *)

Module parser.

Inductive Datum : Type :=
| DNull
| DBool (b : bool)
| DInt (i : Z)
| DString (s : string).

Definition DTuple : Type := list Datum.

Inductive Type_ : Type := TypeString | TypeBool | TypeInt.

(** A table name as written in the statement, before normalization. *)
Definition NormalizableTableName : Type := string.

(** A table pattern of a grant target ([db.*], [db.t], ...). *)
Definition TablePattern : Type := string.

(** A parsed [SELECT]; its structure is not inspected by [show.go]. *)
Definition Select : Type := string.

Inductive Statement : Type :=
| StmtSelect (sel : Select)
| StmtOther.

Module TableName.
Record t : Type := mk { DatabaseName : string; TableName : string }.
Definition Database (tn : t) : string := DatabaseName tn.
Definition Table (tn : t) : string := TableName tn.
End TableName.

(** A builtin overload, with its signature and category already rendered. *)
Module Builtin.
Record t : Type := mk { Signature : string; Category : string; Info : string }.
End Builtin.

Module TargetList.
(** [None] is the nil slice. *)
Record t : Type := mk {
  Databases : option (list string);
  Tables : option (list TablePattern) }.
End TargetList.

Record Show : Type := mkShow { Show_Name : string }.
Record ShowColumns : Type := mkShowColumns { ShowColumns_Table : NormalizableTableName }.
Record ShowCreateTable : Type := mkShowCreateTable { ShowCreateTable_Table : NormalizableTableName }.
Record ShowCreateView : Type := mkShowCreateView { ShowCreateView_View : NormalizableTableName }.
Record ShowIndex : Type := mkShowIndex { ShowIndex_Table : NormalizableTableName }.
Record ShowConstraints : Type := mkShowConstraints { ShowConstraints_Table : NormalizableTableName }.
Record ShowTables : Type := mkShowTables { ShowTables_Database : string }.
Record Help : Type := mkHelp { Help_Name : string }.
Record ShowGrants : Type := mkShowGrants {
  ShowGrants_Targets : option TargetList.t;
  ShowGrants_Grantees : option (list string) }.

End parser.

Import parser.

(** ** Package sqlbase: descriptors *)

Module sqlbase.

Module ColumnDescriptor.
(** [Type_SQL] is [col.Type.SQLString()]; [ID] is a [uint32]. *)
Record t : Type := mk {
  Name : string;
  ID : Z;
  Type_SQL : string;
  Nullable : bool;
  DefaultExpr : option string;
  Hidden : bool }.
End ColumnDescriptor.

Inductive Direction : Type := ASC | DESC.

(** [IndexDescriptor_Direction.String()]: the name of the enum value. *)
Definition Direction_String (d : Direction) : string :=
  match d with ASC => "ASC" | DESC => "DESC" end.

Module Ancestor.
(** [InterleaveDescriptor_Ancestor]; [TableID] and [SharedPrefixLen] are
    [uint32]. *)
Record t : Type := mk { TableID : Z; SharedPrefixLen : Z }.
End Ancestor.

Module IndexDescriptor.
(** [Ancestors] is [Interleave.Ancestors].  [ColumnNames] is the only slice
    that [show.go] re-slices, so it carries its capacity. *)
Record t : Type := mk {
  Name : string;
  Unique : bool;
  ColumnNames : Go.slice string;
  ColumnDirections : list Direction;
  StoreColumnNames : list string;
  ColumnIDs : list Z;
  Ancestors : list Ancestor.t }.
End IndexDescriptor.

Module ColumnFamilyDescriptor.
Record t : Type := mk {
  Name : string;
  ColumnNames : list string;
  ColumnIDs : list Z }.
End ColumnFamilyDescriptor.

Module CheckConstraint.
Record t : Type := mk { Name : string; Expr : string }.
End CheckConstraint.

Module TableDescriptor.
(** [Columns] of a view descriptor are its recorded output columns. *)
Record t : Type := mk {
  Name : string;
  Columns : list ColumnDescriptor.t;
  PrimaryIndex : IndexDescriptor.t;
  Indexes : list IndexDescriptor.t;
  Families : list ColumnFamilyDescriptor.t;
  Checks : list CheckConstraint.t;
  ViewQuery : string;
  physical : bool }.

(** Modelled from the spec: [IsPhysicalTable] is not in [show.go]; the spec's
    table descriptor carries a flag "is physical table" (vs. view-backed). *)
Definition IsPhysicalTable (desc : t) : bool := physical desc.

(** Modelled from the spec: [VisibleColumns] is not in [show.go]; the spec's
    columns are the user-visible ones, in descriptor order (the hidden
    [rowid] column is descriptor-present but not visible). *)
Definition VisibleColumns (desc : t) : list ColumnDescriptor.t :=
  filter (fun col => negb (ColumnDescriptor.Hidden col)) (Columns desc).

(** Modelled from the spec: [FindActiveColumnByID] is not in [show.go]; it
    finds the column of the descriptor with the given id, or fails. *)
Definition FindActiveColumnByID (desc : t) (id : Z) : option ColumnDescriptor.t :=
  find (fun col => (ColumnDescriptor.ID col =? id)%Z) (Columns desc).
End TableDescriptor.

Module ConstraintDetail.
(** [Columns = None] is the nil slice. *)
Record t : Type := mk {
  Kind : string;
  Columns : option (list string);
  Details : string;
  Unvalidated : bool }.
End ConstraintDetail.

Inductive encoding_Direction : Type := Ascending | Descending.

Module ColumnOrderInfo.
Record t : Type := mk { ColIdx : nat; Direction : encoding_Direction }.
End ColumnOrderInfo.

Definition ColumnOrdering : Type := list ColumnOrderInfo.t.

End sqlbase.

Import sqlbase.

(** ** Collaborators outside show.go *)

(** Functions of package [parser] and of the Go library that [show.go] calls
    and whose code is elsewhere.  Nothing is assumed about them. *)
Class Collaborators : Type := {
  (* parser.AsString of a NameList: the quoted, comma-joined names *)
  AsString : list string -> string;
  (* NormalizableTableName.String() *)
  NormalizableTableName_String : NormalizableTableName -> string;
  (* NormalizableTableName.NormalizeWithDatabaseName(database) *)
  NormalizeWithDatabaseName : NormalizableTableName -> string -> outcome TableName.t;
  (* TableName.String() *)
  TableName_String : TableName.t -> string;
  (* TablePattern.NormalizeTablePattern() *)
  NormalizeTablePattern : TablePattern -> outcome TablePattern;
  (* parser.ParseOneTraditional *)
  ParseOneTraditional : string -> outcome Statement;
  (* parser.Builtins, a map from function name to overloads *)
  Builtins : string -> option (list Builtin.t);
  (* Name.String() *)
  Name_String : string -> string;
  (* strings.ToUpper, strings.ToLower *)
  ToUpper : string -> string;
  ToLower : string -> string }.

Module ResultColumn.
Record t : Type := mk { Name : string; Typ : Type_ }.
End ResultColumn.

Definition ResultColumns : Type := list ResultColumn.t.

(** The session and transaction fields read by the variable accessors; the
    values whose Go type has a [String()] method are kept rendered. *)
Record Session : Type := mkSession {
  Database : string;
  User : string;
  DefaultIsolationLevel : string;
  Syntax : string;
  Location : string;
  SearchPath : list string }.

Record Txn : Type := mkTxn { Isolation : string; UserPriority : string }.

(** The planner: its session, and the catalog operations it offers to
    [show.go].  User-level queries see the current [evalCtx.Database] (their
    first argument); [Select] sees [skipSelectPrivilegeChecks] and answers
    with the columns of the plan it builds.  [addRowErr rows row] is the
    error, if any, of [RowContainer.AddRow] adding [row] after [rows]. *)
Record planner : Type := mkPlanner {
  session : Session;
  txn : Txn;
  queryRowsAsRoot : string -> list string -> outcome (list DTuple);
  queryRows : string -> string -> list string -> outcome (list DTuple);
  QueryRow : string -> string -> list string -> outcome DTuple;
  getVirtualTableDesc : TableName.t -> outcome (option TableDescriptor.t);
  mustGetTableDesc : TableName.t -> outcome TableDescriptor.t;
  mustGetViewDesc : TableName.t -> outcome TableDescriptor.t;
  anyPrivilege : TableDescriptor.t -> option error;
  GetTableDescFromID : Z -> outcome TableDescriptor.t;
  GetConstraintInfo : TableDescriptor.t -> outcome (list (string * ConstraintDetail.t));
  expandTableGlob : TablePattern -> outcome (list TableName.t);
  Select_Columns : bool -> Select -> outcome ResultColumns;
  addRowErr : list DTuple -> DTuple -> option error }.

(** The planner [p] with [f] in place of its planning of SELECT. *)
Definition with_Select_Columns (p : planner)
  (f : bool -> Select -> outcome ResultColumns) : planner :=
  {| session := session p;
     txn := txn p;
     queryRowsAsRoot := queryRowsAsRoot p;
     queryRows := queryRows p;
     QueryRow := QueryRow p;
     getVirtualTableDesc := getVirtualTableDesc p;
     mustGetTableDesc := mustGetTableDesc p;
     mustGetViewDesc := mustGetViewDesc p;
     anyPrivilege := anyPrivilege p;
     GetTableDescFromID := GetTableDescFromID p;
     GetConstraintInfo := GetConstraintInfo p;
     expandTableGlob := expandTableGlob p;
     Select_Columns := f;
     addRowErr := addRowErr p |}.

(** ** Planner state and row containers *)

(** A row container: its rows, and whether [Close] released it. *)
Record RowContainer : Type := mkRowContainer {
  rc_rows : list DTuple;
  rc_closed : bool }.

(** A catalog access made by a construction callback. *)
Inductive event : Type :=
| EvQueryRowsAsRoot (sql : string) (args : list string)
| EvQueryRows (sql : string) (args : list string)
| EvQueryRow (sql : string) (args : list string)
| EvGetVirtualTableDesc (tn : TableName.t)
| EvSelect (sel : Select).

(** What a callback can change: the two planner fields it overrides, the
    row containers allocated so far (a container is named by its position),
    and the catalog accesses made so far, oldest first. *)
Record pstate : Type := mkPstate {
  evalCtx_Database : string;
  skipSelectPrivilegeChecks : bool;
  containers : list RowContainer;
  trace : list event }.

Definition set_evalCtx_Database (db : string) (s : pstate) : pstate :=
  mkPstate db (skipSelectPrivilegeChecks s) (containers s) (trace s).

Definition set_skipSelectPrivilegeChecks (b : bool) (s : pstate) : pstate :=
  mkPstate (evalCtx_Database s) b (containers s) (trace s).

Definition set_containers (cs : list RowContainer) (s : pstate) : pstate :=
  mkPstate (evalCtx_Database s) (skipSelectPrivilegeChecks s) cs (trace s).

Definition log (ev : event) (s : pstate) : pstate :=
  mkPstate (evalCtx_Database s) (skipSelectPrivilegeChecks s) (containers s)
           (trace s ++ [ev]).

(** In-place update of the [i]-th element; out of range it changes nothing. *)
Fixpoint update_nth {A : Type} (i : nat) (f : A -> A) (l : list A) : list A :=
  match l, i with
  | [], _ => []
  | x :: l', O => f x :: l'
  | x :: l', S i' => x :: update_nth i' f l'
  end.

(** The state monad of the construction callbacks. *)
Definition M (A : Type) : Type := pstate -> outcome A * pstate.

Definition ret {A : Type} (a : A) : M A := fun s => (Ok a, s).

Definition bind {A B : Type} (m : M A) (k : A -> M B) : M B :=
  fun s =>
    match m s with
    | (Ok a, s') => k a s'
    | (Err e, s') => (Err e, s')
    | (Panic msg, s') => (Panic msg, s')
    end.

(** [return nil, err]. *)
Definition fail {A : Type} (e : error) : M A := fun s => (Err e, s).

Definition lift {A : Type} (o : outcome A) : M A := fun s => (o, s).

(** [if err != nil { h }]: the handler runs on an error, not on a panic. *)
Definition onErr {A : Type} (m : M A) (h : error -> M A) : M A :=
  fun s =>
    match m s with
    | (Err e, s') => h e s'
    | r => r
    end.

(** [defer func() { cleanup }()] registered before [body], the rest of the
    function: [cleanup] runs when [body] returns, fails or panics. *)
Definition defer {A : Type} (cleanup : pstate -> pstate) (body : M A) : M A :=
  fun s => let (r, s') := body s in (r, cleanup s').

Definition modify (f : pstate -> pstate) : M unit := fun s => (Ok tt, f s).

Definition gets {A : Type} (f : pstate -> A) : M A := fun s => (Ok (f s), s).

Notation "x <- m ;; k" := (bind m (fun x => k))
  (at level 61, m at next level, right associativity).
Notation "m ;;; k" := (bind m (fun _ => k))
  (at level 61, right associativity).

(** [for _, x := range l { body }]. *)
Fixpoint forM_ {A : Type} (l : list A) (body : A -> M unit) : M unit :=
  match l with
  | [] => ret tt
  | x :: l' => body x ;;; forM_ l' body
  end.

(** A values node: its columns and its row container. *)
Record valuesNode : Type := mkValuesNode {
  vn_columns : ResultColumns;
  vn_rows : nat }.

Record sortNode : Type := mkSortNode {
  sn_ordering : ColumnOrdering;
  sn_columns : ResultColumns }.

(** The plans [show.go] returns from a callback: a values node, or a
    [selectTopNode] with a values node as source and a sort stage. *)
Inductive planNode : Type :=
| PlanValues (v : valuesNode)
| PlanSelectTop (source : valuesNode) (sort : sortNode).

(** [p.newContainerValuesNode(columns, 0)]: allocates an open, empty
    container. *)
Definition newContainerValuesNode (columns : ResultColumns) : M valuesNode :=
  fun s =>
    (Ok (mkValuesNode columns (length (containers s))),
     set_containers (containers s ++ [mkRowContainer [] false]) s).

Definition add_row (v : nat) (row : DTuple) (s : pstate) : pstate :=
  set_containers
    (update_nth v (fun rc => mkRowContainer (rc_rows rc ++ [row]) (rc_closed rc))
                (containers s)) s.

(** [v.rows.AddRow(row)]. *)
Definition AddRow (p : planner) (v : valuesNode) (row : DTuple) : M unit :=
  fun s =>
    match nth_error (containers s) (vn_rows v) with
    | None => (Panic "nil row container", s)
    | Some rc =>
        match addRowErr p (rc_rows rc) row with
        | Some e => (Err e, s)
        | None => (Ok tt, add_row (vn_rows v) row s)
        end
    end.

(** [v.rows.Close()], and [v.Close()] which closes the rows of [v]. *)
Definition Close (v : valuesNode) : M unit :=
  modify (fun s =>
    set_containers
      (update_nth (vn_rows v) (fun rc => mkRowContainer (rc_rows rc) true)
                  (containers s)) s).

(** The calls of the collaborators, recorded in the trace. *)
Definition call_queryRowsAsRoot (p : planner) (sql : string) (args : list string)
  : M (list DTuple) :=
  fun s => (queryRowsAsRoot p sql args, log (EvQueryRowsAsRoot sql args) s).

Definition call_queryRows (p : planner) (sql : string) (args : list string)
  : M (list DTuple) :=
  fun s => (queryRows p (evalCtx_Database s) sql args, log (EvQueryRows sql args) s).

Definition call_QueryRow (p : planner) (sql : string) (args : list string)
  : M DTuple :=
  fun s => (QueryRow p (evalCtx_Database s) sql args, log (EvQueryRow sql args) s).

Definition call_getVirtualTableDesc (p : planner) (tn : TableName.t)
  : M (option TableDescriptor.t) :=
  fun s => (getVirtualTableDesc p tn, log (EvGetVirtualTableDesc tn) s).

Definition call_Select (p : planner) (sel : Select) : M ResultColumns :=
  fun s => (Select_Columns p (skipSelectPrivilegeChecks s) sel, log (EvSelect sel) s).

(** A delayed node: the display name, the columns fixed when the plan is
    built, and the construction callback run at execution time. *)
Record delayedNode : Type := mkDelayedNode {
  dn_name : string;
  dn_columns : ResultColumns;
  constructor : planner -> M planNode }.

(** The rows a container holds in a state. *)
Definition rows_of (s : pstate) (v : valuesNode) : list DTuple :=
  match nth_error (containers s) (vn_rows v) with
  | Some rc => rc_rows rc
  | None => []
  end.

(** A container is live in a state when it was allocated and not closed. *)
Definition live (s : pstate) (i : nat) : Prop :=
  exists rc, nth_error (containers s) i = Some rc /\ rc_closed rc = false.

(** ** show.go *)

Definition dq : string := String (ascii_of_nat 34) "".
Definition nl : string := String (ascii_of_nat 10) "".
Definition tab : string := String (ascii_of_nat 9) "".

Fixpoint tabs (n : nat) : string :=
  match n with
  | O => ""
  | S n' => tab ++ tabs n'
  end.

(** A Go map with string keys, as the list of its entries (keys distinct);
    [map_get] is the lookup [m[k]] with its [ok] result. *)
Fixpoint map_get {V : Type} (m : list (string * V)) (k : string) : option V :=
  match m with
  | [] => None
  | (k', v) :: m' => if (k' =? k)%string then Some v else map_get m' k
  end.

(** Calling the function found in a map of functions: a missing key yields
    the nil function, whose call panics. *)
Definition map_call {V : Type} (m : list (string * V)) (k : string) : outcome V :=
  match map_get m k with
  | Some v => Ok v
  | None => Panic "call of nil function"
  end.

Definition varGen : list (string * (planner -> string)) :=
  [ ("DATABASE", fun p => Database (session p));
    ("DEFAULT_TRANSACTION_ISOLATION", fun p => DefaultIsolationLevel (session p));
    ("SYNTAX", fun p => Syntax (session p));
    ("TIME ZONE", fun p => Location (session p));
    ("TRANSACTION ISOLATION LEVEL", fun p => Isolation (txn p));
    ("TRANSACTION PRIORITY", fun p => UserPriority (txn p));
    ("MAX_INDEX_KEYS", fun _ => "32");
    ("SEARCH_PATH", fun p => Join (SearchPath (session p)) ", ") ].

(** The keys of [varGen], sorted.  Go ranges over the map in an unspecified
    order; sorting yields the same list from any order
    ([varNames_any_order]). *)
Definition varNames : list string := sort_Strings (map fst varGen).

Definition checkSchema : string :=
  "SELECT SCHEMA_NAME FROM information_schema.schemata WHERE SCHEMA_NAME=$1 LIMIT 1".

Definition checkTable : string :=
  "SELECT TABLE_SCHEMA FROM information_schema.tables WHERE TABLE_SCHEMA=$1"
  ++ nl ++ tabs 5 ++ "AND TABLE_NAME=$2 LIMIT 1".

Definition checkTablePrivilege : string :=
  "SELECT TABLE_NAME FROM information_schema.table_privileges"
  ++ nl ++ tabs 7 ++ "WHERE TABLE_SCHEMA=$1 AND TABLE_NAME=$2 AND GRANTEE=$3 LIMIT 1".

Definition getColumns : string :=
  "SELECT COLUMN_NAME AS " ++ dq ++ "Field" ++ dq
  ++ ", DATA_TYPE AS " ++ dq ++ "Type" ++ dq
  ++ ", (IS_NULLABLE!='NO') AS " ++ dq ++ "Null" ++ dq ++ ","
  ++ " COLUMN_DEFAULT AS " ++ dq ++ "Default" ++ dq
  ++ " FROM information_schema.columns WHERE TABLE_SCHEMA=$1 AND TABLE_NAME=$2"
  ++ " ORDER BY ORDINAL_POSITION".

Definition getTables : string :=
  "SELECT TABLE_NAME FROM information_schema.tables"
  ++ nl ++ tabs 7 ++ "WHERE tables.TABLE_SCHEMA=$1 ORDER BY tables.TABLE_NAME".

Definition col (name : string) (typ : Type_) : ResultColumn.t :=
  ResultColumn.mk name typ.

(** [if _, err := v.rows.AddRow(row); err != nil { v.rows.Close(); return nil, err }]. *)
Definition AddRow_or_close (p : planner) (v : valuesNode) (row : DTuple) : M unit :=
  onErr (AddRow p v row) (fun err => Close v ;;; fail err).

Section ShowGo.
Context {C : Collaborators}.

(** *** Show *)

Definition Show_columns (name : string) : outcome ResultColumns :=
  if (name =? "ALL")%string
  then Ok [col "Variable" TypeString; col "Value" TypeString]
  else match map_get varGen name with
       | None => Err (errUnknownVariable name)
       | Some _ => Ok [col name TypeString]
       end.

Definition Show_constructor (name : string) (columns : ResultColumns)
  (p : planner) : M planNode :=
  v <- newContainerValuesNode columns ;;
  (if (name =? "ALL")%string
   then
     forM_ varNames (fun vName =>
       gen <- lift (map_call varGen vName) ;;
       let value := gen p in
       AddRow_or_close p v [DString vName; DString value])
   else
     (* The key in varGen is guaranteed to exist thanks to the check
        in Show. *)
     gen <- lift (map_call varGen name) ;;
     let value := gen p in
     AddRow_or_close p v [DString value]) ;;;
  ret (PlanValues v).

Definition Show (p : planner) (n : parser.Show) : outcome delayedNode :=
  let name := ToUpper (Show_Name n) in
  columns <-? Show_columns name ;;
  Ok (mkDelayedNode ("SHOW " ++ name) columns (Show_constructor name columns)).

(** *** ShowColumns *)

Definition ShowColumns_columns : ResultColumns :=
  [ col "Field" TypeString; col "Type" TypeString;
    col "Null" TypeBool; col "Default" TypeString ].

Definition ShowColumns_constructor (tn : TableName.t) (p : planner) : M planNode :=
  let columns := ShowColumns_columns in
  (* Check if the database exists by using the security.RootUser. *)
  values <- call_queryRowsAsRoot p checkSchema [TableName.Database tn] ;;
  (if (length values =? 0)%nat
   then fail (errUndefinedDatabase (TableName.Database tn))
   else ret tt) ;;;
  (* Check if the table exists by using the security.RootUser. *)
  values <- call_queryRowsAsRoot p checkTable
              [TableName.Database tn; TableName.Table tn] ;;
  (if (length values =? 0)%nat
   then fail (errUndefinedTable (TableName_String tn))
   else ret tt) ;;;
  (* Check if the user has been granted.
     Skip the checking if the table is a virtual table. *)
  virDesc <- call_getVirtualTableDesc p tn ;;
  match virDesc with
  | None =>
      values <- call_QueryRow p checkTablePrivilege
                  [TableName.Database tn; TableName.Table tn; User (session p)] ;;
      if (length values =? 0)%nat
      then fail (errNoPrivileges (User (session p)) (TableName_String tn))
      else ret tt
  | Some _ => ret tt
  end ;;;
  (* Temporarily set the current database to get visibility into
     information_schema if the current user isn't root. *)
  origDatabase <- gets evalCtx_Database ;;
  modify (set_evalCtx_Database (TableName.Database tn)) ;;;
  defer (set_evalCtx_Database origDatabase)
    ((* Get columns of table from information_schema.columns. *)
     rows <- call_queryRows p getColumns
               [TableName.Database tn; TableName.Table tn] ;;
     v <- newContainerValuesNode columns ;;
     forM_ rows (fun r => AddRow_or_close p v r) ;;;
     ret (PlanValues v)).

Definition ShowColumns (p : planner) (n : parser.ShowColumns) : outcome delayedNode :=
  tn <-? NormalizeWithDatabaseName (ShowColumns_Table n) (Database (session p)) ;;
  Ok (mkDelayedNode ("SHOW COLUMNS FROM " ++ TableName_String tn)
                    ShowColumns_columns (ShowColumns_constructor tn)).

(** *** ShowTables *)

Definition ShowTables_constructor (name : string) (columns : ResultColumns)
  (p : planner) : M planNode :=
  (* Check if the database exists by using the security.RootUser. *)
  values <- call_queryRowsAsRoot p checkSchema [name] ;;
  (if (length values =? 0)%nat
   then fail (errUndefinedDatabase name)
   else ret tt) ;;;
  origDatabase <- gets evalCtx_Database ;;
  modify (set_evalCtx_Database name) ;;;
  defer (set_evalCtx_Database origDatabase)
    ((* Get the tables of database from information_schema.tables. *)
     rows <- call_queryRows p getTables [name] ;;
     v <- newContainerValuesNode columns ;;
     forM_ rows (fun r => AddRow_or_close p v r) ;;;
     ret (PlanValues v)).

Definition ShowTables (p : planner) (n : parser.ShowTables) : outcome delayedNode :=
  let name :=
    if (ShowTables_Database n =? "")%string
    then Database (session p) else ShowTables_Database n in
  if (name =? "")%string then Err errNoDatabase
  else
    let columns := [col "Table" TypeString] in
    Ok (mkDelayedNode ("SHOW TABLES FROM " ++ name) columns
                      (ShowTables_constructor name columns)).

(** *** showCreateInterleave, ShowCreateTable *)

(** quoteNames quotes based on Traditional syntax and adds commas between
    names. *)
Definition quoteNames (names : list string) : string := AsString names.

(** [var isUnique = map[bool]string{true: "UNIQUE "}]. *)
Definition isUnique (b : bool) : string := if b then "UNIQUE " else "".

(** The loop [for _, ancestor := range intl.Ancestors] summing into the
    [int] variable [sharedPrefixLen]. *)
Definition sharedPrefixLen_of (ancestors : list Ancestor.t) : Z :=
  fold_left (fun acc ancestor => int_wrap (acc + Ancestor.SharedPrefixLen ancestor)%Z)
            ancestors 0%Z.

(** showCreateInterleave returns an INTERLEAVE IN PARENT clause for the
    specified index, if applicable. *)
Definition showCreateInterleave (p : planner) (idx : IndexDescriptor.t)
  : outcome string :=
  if (length (IndexDescriptor.Ancestors idx) =? 0)%nat then Ok ""
  else
    let intl := IndexDescriptor.Ancestors idx in
    last_ancestor <-? Go.index intl (length intl - 1) ;;
    parentTable <-? GetTableDescFromID p (Ancestor.TableID last_ancestor) ;;
    let sharedPrefixLen := sharedPrefixLen_of intl in
    prefix <-? slice_to (IndexDescriptor.ColumnNames idx) sharedPrefixLen ;;
    let interleavedColumnNames := quoteNames (elems prefix) in
    Ok (" INTERLEAVE IN PARENT " ++ TableDescriptor.Name parentTable
        ++ " (" ++ interleavedColumnNames ++ ")").

(** [for i, x := range l { body }] over a pure accumulator; [i] is the
    index of the first element of [l]. *)
Fixpoint range_fold {A St : Type} (body : nat -> A -> St -> outcome St)
  (i : nat) (l : list A) (acc : St) : outcome St :=
  match l with
  | [] => Ok acc
  | x :: l' => acc' <-? body i x acc ;; range_fold body (S i) l' acc'
  end.

(** The text of the PRIMARY KEY clause. *)
Definition primary_clause (desc : TableDescriptor.t) : string :=
  "," ++ nl ++ tab ++ "CONSTRAINT "
  ++ quoteNames [IndexDescriptor.Name (TableDescriptor.PrimaryIndex desc)]
  ++ " PRIMARY KEY ("
  ++ quoteNames (elems (IndexDescriptor.ColumnNames (TableDescriptor.PrimaryIndex desc)))
  ++ ")".

(** The body of [for i, col := range desc.VisibleColumns()], on the buffer
    and the variable [primary]. *)
Definition ShowCreateTable_column (desc : TableDescriptor.t) (i : nat)
  (c : ColumnDescriptor.t) (acc : string * string) : outcome (string * string) :=
  let '(buf, primary) := acc in
  let buf := if (i =? 0)%nat then buf else buf ++ "," in
  let buf := buf ++ nl ++ tab in
  let buf := buf ++ quoteNames [ColumnDescriptor.Name c] ++ " "
                 ++ ColumnDescriptor.Type_SQL c in
  let buf := if ColumnDescriptor.Nullable c then buf ++ " NULL"
             else buf ++ " NOT NULL" in
  let buf := match ColumnDescriptor.DefaultExpr c with
             | Some e => buf ++ " DEFAULT " ++ e
             | None => buf
             end in
  if TableDescriptor.IsPhysicalTable desc
  then
    id0 <-? Go.index (IndexDescriptor.ColumnIDs (TableDescriptor.PrimaryIndex desc)) 0 ;;
    if (id0 =? ColumnDescriptor.ID c)%Z
    then
      (* Only set primary if the primary key is on a visible column
         (not rowid). *)
      Ok (buf, primary_clause desc)
    else Ok (buf, primary)
  else Ok (buf, primary).

(** The body of [for _, idx := range desc.Indexes]. *)
Definition ShowCreateTable_index (p : planner) (i : nat)
  (idx : IndexDescriptor.t) (buf : string) : outcome string :=
  let storing :=
    if (0 <? length (IndexDescriptor.StoreColumnNames idx))%nat
    then " STORING (" ++ quoteNames (IndexDescriptor.StoreColumnNames idx) ++ ")"
    else "" in
  interleave <-? showCreateInterleave p idx ;;
  Ok (buf ++ "," ++ nl ++ tab
      ++ isUnique (IndexDescriptor.Unique idx) ++ "INDEX "
      ++ quoteNames [IndexDescriptor.Name idx]
      ++ " (" ++ quoteNames (elems (IndexDescriptor.ColumnNames idx)) ++ ")"
      ++ storing ++ interleave).

(** The inner loop [for i, colID := range fam.ColumnIDs]. *)
Definition ShowCreateTable_family_column (desc : TableDescriptor.t)
  (fam : ColumnFamilyDescriptor.t) (i : nat) (colID : Z)
  (activeColumnNames : list string) : outcome (list string) :=
  match TableDescriptor.FindActiveColumnByID desc colID with
  | Some _ =>
      name <-? Go.index (ColumnFamilyDescriptor.ColumnNames fam) i ;;
      Ok (activeColumnNames ++ [name])%list
  | None => Ok activeColumnNames
  end.

(** The body of [for _, fam := range desc.Families]. *)
Definition ShowCreateTable_family (desc : TableDescriptor.t) (i : nat)
  (fam : ColumnFamilyDescriptor.t) (buf : string) : outcome string :=
  activeColumnNames <-?
    range_fold (ShowCreateTable_family_column desc fam) 0
               (ColumnFamilyDescriptor.ColumnIDs fam) [] ;;
  Ok (buf ++ "," ++ nl ++ tab ++ "FAMILY "
      ++ quoteNames [ColumnFamilyDescriptor.Name fam]
      ++ " (" ++ quoteNames activeColumnNames ++ ")").

(** The body of [for _, e := range desc.Checks]. *)
Definition ShowCreateTable_check (i : nat) (e : CheckConstraint.t) (buf : string)
  : outcome string :=
  let buf := buf ++ "," ++ nl ++ tab in
  let buf := if (0 <? String.length (CheckConstraint.Name e))%nat
             then buf ++ "CONSTRAINT " ++ quoteNames [CheckConstraint.Name e] ++ " "
             else buf in
  Ok (buf ++ "CHECK (" ++ CheckConstraint.Expr e ++ ")").

Definition ShowCreateTable_columns : ResultColumns :=
  [col "Table" TypeString; col "CreateTable" TypeString].

Definition ShowCreateTable_constructor (n : parser.ShowCreateTable)
  (desc : TableDescriptor.t) (p : planner) : M planNode :=
  v <- newContainerValuesNode ShowCreateTable_columns ;;
  let buf := "CREATE TABLE "
             ++ quoteNames [NormalizableTableName_String (ShowCreateTable_Table n)]
             ++ " (" in
  acc <- lift (range_fold (ShowCreateTable_column desc) 0
                          (TableDescriptor.VisibleColumns desc) (buf, "")) ;;
  let '(buf, primary) := acc in
  let buf := buf ++ primary in
  buf <- onErr (lift (range_fold (ShowCreateTable_index p) 0
                                 (TableDescriptor.Indexes desc) buf))
               (fun err => Close v ;;; fail err) ;;
  buf <- lift (range_fold (ShowCreateTable_family desc) 0
                          (TableDescriptor.Families desc) buf) ;;
  buf <- lift (range_fold ShowCreateTable_check 0
                          (TableDescriptor.Checks desc) buf) ;;
  let buf := buf ++ nl ++ ")" in
  interleave <- onErr (lift (showCreateInterleave p (TableDescriptor.PrimaryIndex desc)))
                      (fun err => Close v ;;; fail err) ;;
  let buf := buf ++ interleave in
  AddRow_or_close p v
    [ DString (NormalizableTableName_String (ShowCreateTable_Table n));
      DString buf ] ;;;
  ret (PlanValues v).

(** ShowCreateTable returns a CREATE TABLE statement for the specified table
    in Traditional syntax.  Privileges: Any privilege on table. *)
Definition ShowCreateTable (p : planner) (n : parser.ShowCreateTable)
  : outcome delayedNode :=
  tn <-? NormalizeWithDatabaseName (ShowCreateTable_Table n) (Database (session p)) ;;
  desc <-? mustGetTableDesc p tn ;;
  match anyPrivilege p desc with
  | Some err => Err err
  | None =>
      Ok (mkDelayedNode ("SHOW CREATE TABLE " ++ TableName_String tn)
                        ShowCreateTable_columns
                        (ShowCreateTable_constructor n desc))
  end.

(** *** ShowCreateView *)

(** The loop [for i, col := range sourcePlan.Columns()] deciding
    [customColNames]; it stops at the first differing name. *)
Fixpoint customColNames_loop (i : nat) (planCols : ResultColumns)
  (descCols : list ColumnDescriptor.t) : outcome bool :=
  match planCols with
  | [] => Ok false
  | c :: rest =>
      dcol <-? Go.index descCols i ;;
      if negb (ResultColumn.Name c =? ColumnDescriptor.Name dcol)%string
      then Ok true
      else customColNames_loop (S i) rest descCols
  end.

Definition ShowCreateView_columns : ResultColumns :=
  [col "View" TypeString; col "CreateView" TypeString].

Definition ShowCreateView_constructor (n : parser.ShowCreateView)
  (tn : TableName.t) (desc : TableDescriptor.t) (p : planner) : M planNode :=
  v <- newContainerValuesNode ShowCreateView_columns ;;
  let buf := "CREATE VIEW "
             ++ quoteNames [NormalizableTableName_String (ShowCreateView_View n)]
             ++ " " in
  (* Determine whether custom column names were specified when the view
     was created, and include them if so. *)
  stmt <- onErr (lift (ParseOneTraditional (TableDescriptor.ViewQuery desc)))
                (fun err => fail (errViewParse err (TableName_String tn))) ;;
  sel <- match stmt with
         | StmtSelect sel => ret sel
         | StmtOther => fail (errViewNotSelect (TableName_String tn))
         end ;;
  (* When constructing the Select plan, make sure we don't require any
     privileges on the underlying tables. *)
  modify (set_skipSelectPrivilegeChecks true) ;;;
  defer (set_skipSelectPrivilegeChecks false)
    (sourcePlan <- call_Select p sel ;;
     customColNames <- lift (customColNames_loop 0 sourcePlan
                               (TableDescriptor.Columns desc)) ;;
     let buf :=
       if (customColNames : bool)
       then buf ++ "("
            ++ Join (map ColumnDescriptor.Name (TableDescriptor.Columns desc)) ", "
            ++ ") "
       else buf in
     let buf := buf ++ "AS " ++ TableDescriptor.ViewQuery desc in
     AddRow_or_close p v
       [ DString (NormalizableTableName_String (ShowCreateView_View n));
         DString buf ] ;;;
     ret (PlanValues v)).

(** ShowCreateView returns a CREATE VIEW statement for the specified view in
    Traditional syntax.  Privileges: Any privilege on view. *)
Definition ShowCreateView (p : planner) (n : parser.ShowCreateView)
  : outcome delayedNode :=
  tn <-? NormalizeWithDatabaseName (ShowCreateView_View n) (Database (session p)) ;;
  desc <-? mustGetViewDesc p tn ;;
  match anyPrivilege p desc with
  | Some err => Err err
  | None =>
      Ok (mkDelayedNode ("SHOW CREATE VIEW " ++ TableName_String tn)
                        ShowCreateView_columns
                        (ShowCreateView_constructor n tn desc))
  end.

(** *** ShowGrants *)

(** [for _, x := range l { body }] over an accumulator, in the monad. *)
Fixpoint foldM {A St : Type} (body : St -> A -> M St) (l : list A) (acc : St)
  : M St :=
  match l with
  | [] => ret acc
  | x :: l' => acc' <- body acc x ;; foldM body l' acc'
  end.

(** The closure [checkFn]: check if the target exists. *)
Definition checkFn (p : planner) (sql : string) (args : list string) : M bool :=
  values <- call_queryRowsAsRoot p sql args ;;
  ret (0 <? length values)%nat.

(** The closure [queryFn]: it adds the rows of the query to [v]. *)
Definition queryFn (p : planner) (v : valuesNode) (sql : string)
  (args : list string) : M unit :=
  rows <- call_queryRows p sql args ;;
  forM_ rows (fun r => AddRow p v r).

(** The variables [params], [paramHolders] and [paramSeq] of a source.
    [paramSeq] counts parameters and is bounded by their number. *)
Definition paramState : Type := (list string * list string * nat)%type.

(** The loop over [n.Grantees.ToStrings()], after [paramHolders[:0]]; it
    returns the extended query. *)
Definition grantee_filter (grantees : option (list string)) (query : string)
  (st : paramState) : string * paramState :=
  match grantees with
  | None => (query, st)
  | Some gs =>
      let '(params, _, paramSeq) := st in
      let st' :=
        fold_left (fun (acc : paramState) grantee =>
                     let '(params, paramHolders, paramSeq) := acc in
                     ((params ++ [grantee])%list,
                      (paramHolders ++ [("$" ++ itoa paramSeq)%string])%list,
                      S paramSeq))
                  gs (params, [], paramSeq) in
      let '(_, paramHolders, _) := st' in
      (query ++ " AND GRANTEE IN(" ++ Join paramHolders "," ++ ")", st')
  end.

Definition schemaGrants_query (paramHolders : list string) : string :=
  "SELECT TABLE_SCHEMA AS " ++ dq ++ "Database" ++ dq
  ++ ", GRANTEE AS " ++ dq ++ "User" ++ dq ++ ","
  ++ nl ++ tabs 9 ++ "PRIVILEGE_TYPE AS " ++ dq ++ "Privileges" ++ dq
  ++ " FROM information_schema.schema_privileges"
  ++ nl ++ tabs 9 ++ "WHERE TABLE_SCHEMA IN (" ++ Join paramHolders "," ++ ")".

Definition tableGrants_query (paramHolders : list string) : string :=
  "SELECT TABLE_NAME, GRANTEE, PRIVILEGE_TYPE FROM information_schema.table_privileges"
  ++ nl ++ tabs 9 ++ "WHERE (TABLE_SCHEMA, TABLE_NAME) IN ("
  ++ Join paramHolders "," ++ ")".

(** The body of [for _, db := range n.Targets.Databases.ToStrings()]. *)
Definition ShowGrants_database (p : planner) (v : valuesNode)
  (st : paramState) (db : string) : M paramState :=
  let '(params, paramHolders, paramSeq) := st in
  exists_ <- onErr (checkFn p checkSchema [db]) (fun err => Close v ;;; fail err) ;;
  if negb exists_
  then Close v ;;; fail (errUndefinedDatabase db)
  else ret ((params ++ [db])%list,
            (paramHolders ++ [("$" ++ itoa paramSeq)%string])%list,
            S paramSeq).

(** The body of [for i := range tables]. *)
Definition ShowGrants_table (p : planner) (v : valuesNode)
  (st : paramState) (t : TableName.t) : M paramState :=
  let '(params, paramHolders, paramSeq) := st in
  exists_ <- onErr (checkFn p checkTable [TableName.Database t; TableName.Table t])
                   (fun err => Close v ;;; fail err) ;;
  if negb exists_
  then Close v ;;; fail (errUndefinedTable (TableName_String t))
  else ret ((params ++ [TableName.Database t; TableName.Table t])%list,
            (paramHolders
               ++ [("($" ++ itoa paramSeq ++ ",$" ++ itoa (paramSeq + 1) ++ ")")%string])%list,
            paramSeq + 2).

(** The body of [for _, tableTarget := range n.Targets.Tables]. *)
Definition ShowGrants_tableTarget (p : planner) (v : valuesNode)
  (st : paramState) (tableTarget : TablePattern) : M paramState :=
  tableGlob <- onErr (lift (NormalizeTablePattern tableTarget))
                     (fun err => Close v ;;; fail err) ;;
  tables <- onErr (lift (expandTableGlob p tableGlob))
                  (fun err => Close v ;;; fail err) ;;
  foldM (ShowGrants_table p v) tables st.

Definition asc (i : nat) : ColumnOrderInfo.t := ColumnOrderInfo.mk i Ascending.

Definition ShowGrants_constructor (n : parser.ShowGrants)
  (targets : TargetList.t) (columns : ResultColumns) (p : planner) : M planNode :=
  v <- newContainerValuesNode columns ;;
  (* Get grants of database from information_schema.schema_privileges
     if the type of target is database. *)
  match TargetList.Databases targets with
  | Some dbs =>
      st <- foldM (ShowGrants_database p v) dbs ([], [], 1) ;;
      let '(_, paramHolders, _) := st in
      let '(schemaGrants, st) :=
        grantee_filter (ShowGrants_Grantees n) (schemaGrants_query paramHolders) st in
      let '(params, _, _) := st in
      onErr (queryFn p v schemaGrants params) (fun err => Close v ;;; fail err)
  | None => ret tt
  end ;;;
  (* Get grants of table from information_schema.table_privileges
     if the type of target is table. *)
  match TargetList.Tables targets with
  | Some tableTargets =>
      st <- foldM (ShowGrants_tableTarget p v) tableTargets ([], [], 1) ;;
      let '(_, paramHolders, _) := st in
      let '(tableGrants, st) :=
        grantee_filter (ShowGrants_Grantees n) (tableGrants_query paramHolders) st in
      let '(params, _, _) := st in
      onErr (queryFn p v tableGrants params) (fun err => Close v ;;; fail err)
  | None => ret tt
  end ;;;
  (* Sort the result by target name, user name and privileges. *)
  let sort := mkSortNode [asc 0; asc 1; asc 2] (vn_columns v) in
  ret (PlanSelectTop v sort).

(** ShowGrants returns grant details for the specified objects and users. *)
Definition ShowGrants (p : planner) (n : parser.ShowGrants) : outcome delayedNode :=
  match ShowGrants_Targets n with
  | None => Err errGrantsNoTargets
  | Some targets =>
      let objectType :=
        match TargetList.Tables targets with
        | Some _ => "Table"
        | None => "Database"
        end in
      let columns :=
        [col objectType TypeString; col "User" TypeString;
         col "Privileges" TypeString] in
      Ok (mkDelayedNode "SHOW GRANTS" columns
                        (ShowGrants_constructor n targets columns))
  end.

(** *** ShowIndex *)

(** [for i, x := range l { body }] threading a counter, in the monad. *)
Fixpoint range_foldM {A St : Type} (body : nat -> A -> St -> M St)
  (i : nat) (l : list A) (acc : St) : M St :=
  match l with
  | [] => ret acc
  | x :: l' => acc' <- body i x acc ;; range_foldM body (S i) l' acc'
  end.

Definition ShowIndex_columns : ResultColumns :=
  [ col "Table" TypeString; col "Name" TypeString; col "Unique" TypeBool;
    col "Seq" TypeInt; col "Column" TypeString; col "Direction" TypeString;
    col "Storing" TypeBool ].

(** The row built by the closure [appendRow]. *)
Definition ShowIndex_row (tn : TableName.t) (index : IndexDescriptor.t)
  (colName : string) (sequence : Z) (direction : string) (isStored : bool) : DTuple :=
  [ DString (TableName.Table tn);
    DString (IndexDescriptor.Name index);
    DBool (IndexDescriptor.Unique index);
    DInt sequence;
    DString colName;
    DString direction;
    DBool isStored ].

Definition appendRow (p : planner) (v : valuesNode) (tn : TableName.t)
  (index : IndexDescriptor.t) (colName : string) (sequence : Z)
  (direction : string) (isStored : bool) : M unit :=
  AddRow p v (ShowIndex_row tn index colName sequence direction isStored).

(** The body of [for _, index := range append(PrimaryIndex, Indexes...)].
    [sequence] counts the columns of one index and is bounded by their
    number. *)
Definition ShowIndex_index (p : planner) (v : valuesNode) (tn : TableName.t)
  (index : IndexDescriptor.t) : M unit :=
  let sequence := 1%Z in
  sequence <-
    range_foldM (fun i c (sequence : Z) =>
        direction <- lift (Go.index (IndexDescriptor.ColumnDirections index) i) ;;
        onErr (appendRow p v tn index c sequence (Direction_String direction) false)
              (fun err => Close v ;;; fail err) ;;;
        ret (sequence + 1)%Z)
      0 (elems (IndexDescriptor.ColumnNames index)) sequence ;;
  sequence <-
    foldM (fun (sequence : Z) c =>
        onErr (appendRow p v tn index c sequence "N/A" true)
              (fun err => Close v ;;; fail err) ;;;
        ret (sequence + 1)%Z)
      (IndexDescriptor.StoreColumnNames index) sequence ;;
  ret tt.

Definition ShowIndex_constructor (tn : TableName.t) (desc : TableDescriptor.t)
  (p : planner) : M planNode :=
  v <- newContainerValuesNode ShowIndex_columns ;;
  forM_ (TableDescriptor.PrimaryIndex desc :: TableDescriptor.Indexes desc)
        (ShowIndex_index p v tn) ;;;
  ret (PlanValues v).

(** ShowIndex returns all the indexes for a table.
    Privileges: Any privilege on table. *)
Definition ShowIndex (p : planner) (n : parser.ShowIndex) : outcome delayedNode :=
  tn <-? NormalizeWithDatabaseName (ShowIndex_Table n) (Database (session p)) ;;
  desc <-? mustGetTableDesc p tn ;;
  match anyPrivilege p desc with
  | Some err => Err err
  | None =>
      Ok (mkDelayedNode ("SHOW INDEX FROM " ++ TableName_String tn)
                        ShowIndex_columns (ShowIndex_constructor tn desc))
  end.

(** *** ShowConstraints *)

Definition ShowConstraints_columns : ResultColumns :=
  [ col "Table" TypeString; col "Name" TypeString; col "Type" TypeString;
    col "Column(s)" TypeString; col "Details" TypeString ].

(** The row of one constraint. *)
Definition ShowConstraints_row (tn : TableName.t) (name : string)
  (c : ConstraintDetail.t) : DTuple :=
  let detailsDatum :=
    if (ConstraintDetail.Details c =? "")%string then DNull
    else DString (ConstraintDetail.Details c) in
  let columnsDatum :=
    match ConstraintDetail.Columns c with
    | Some cols => DString (Join cols ", ")
    | None => DNull
    end in
  let kind :=
    if ConstraintDetail.Unvalidated c
    then ConstraintDetail.Kind c ++ " (UNVALIDATED)"
    else ConstraintDetail.Kind c in
  [ DString (TableName.Table tn); DString name; DString kind;
    columnsDatum; detailsDatum ].

(** [info] is a Go map: it is ranged over in the order the collaborator's
    list gives. *)
Definition ShowConstraints_constructor (tn : TableName.t)
  (desc : TableDescriptor.t) (p : planner) : M planNode :=
  v <- newContainerValuesNode ShowConstraints_columns ;;
  info <- lift (GetConstraintInfo p desc) ;;
  forM_ info (fun entry =>
    let '(name, c) := entry in
    AddRow_or_close p v (ShowConstraints_row tn name c)) ;;;
  (* Sort the results by constraint name. *)
  let sort := mkSortNode [asc 0; asc 1] (vn_columns v) in
  ret (PlanSelectTop v sort).

(** ShowConstraints returns all the constraints for a table.
    Privileges: Any privilege on table. *)
Definition ShowConstraints (p : planner) (n : parser.ShowConstraints)
  : outcome delayedNode :=
  tn <-? NormalizeWithDatabaseName (ShowConstraints_Table n) (Database (session p)) ;;
  desc <-? mustGetTableDesc p tn ;;
  match anyPrivilege p desc with
  | Some err => Err err
  | None =>
      Ok (mkDelayedNode ("SHOW CONSTRAINTS FROM " ++ TableName_String tn)
                        ShowConstraints_columns
                        (ShowConstraints_constructor tn desc))
  end.

(** *** Help *)

Definition Help_columns : ResultColumns :=
  [ col "Function" TypeString; col "Signature" TypeString;
    col "Category" TypeString; col "Details" TypeString ].

Definition Help_constructor (name : string) (p : planner) : M planNode :=
  v <- newContainerValuesNode Help_columns ;;
  match Builtins name with
  | None => ret (PlanValues v)
  | Some matches =>
      forM_ matches (fun f =>
        AddRow_or_close p v
          [ DString name; DString (Builtin.Signature f);
            DString (Builtin.Category f); DString (Builtin.Info f) ]) ;;;
      ret (PlanValues v)
  end.

(** Help returns usage information for the builtin functions. *)
Definition Help (p : planner) (n : parser.Help) : outcome delayedNode :=
  let name := ToLower (Name_String (Help_Name n)) in
  Ok (mkDelayedNode ("HELP " ++ name) Help_columns (Help_constructor name)).

End ShowGo.

(** ** The sort stage *)

(** Modelled from the spec: the executor of [sortNode] is not in [show.go].
    The spec's Sort Stage imposes "a deterministic multi-column ascending
    ordering over an already-materialized row set": rows are compared
    column by column in the order of [ordering]; strings compare byte-wise,
    NULL sorts first. *)
Definition Datum_rank (d : Datum) : nat :=
  match d with DNull => 0 | DBool _ => 1 | DInt _ => 2 | DString _ => 3 end.

Definition Datum_compare (a b : Datum) : comparison :=
  match a, b with
  | DBool x, DBool y => Bool.compare x y
  | DInt x, DInt y => Z.compare x y
  | DString x, DString y => String.compare x y
  | _, _ => Nat.compare (Datum_rank a) (Datum_rank b)
  end.

Fixpoint row_compare (ordering : ColumnOrdering) (a b : DTuple) : comparison :=
  match ordering with
  | [] => Eq
  | o :: rest =>
      let c := Datum_compare (nth (ColumnOrderInfo.ColIdx o) a DNull)
                             (nth (ColumnOrderInfo.ColIdx o) b DNull) in
      let c := match ColumnOrderInfo.Direction o with
               | Ascending => c
               | Descending => CompOpp c
               end in
      match c with
      | Eq => row_compare rest a b
      | _ => c
      end
  end.

Definition row_leb (ordering : ColumnOrdering) (a b : DTuple) : bool :=
  match row_compare ordering a b with
  | Gt => false
  | _ => true
  end.

Definition sortRows (ordering : ColumnOrdering) (rows : list DTuple) : list DTuple :=
  sort_by (row_leb ordering) rows.

(** The rows a plan returned by a callback produces when it is run in the
    state the callback left. *)
Definition planRows (s : pstate) (node : planNode) : list DTuple :=
  match node with
  | PlanValues v => rows_of s v
  | PlanSelectTop source sort => sortRows (sn_ordering sort) (rows_of s source)
  end.

(** ** A small catalog to run the callbacks on *)

(** The collaborators of [show.go] are parameters of the development.  This
    module gives one concrete set of them, over a catalog held in lists, on
    which the builders and the callbacks compute. *)
Module Fixture.

(** Case conversion of the ASCII letters only, where [strings.ToUpper] and
    [strings.ToLower] map every Unicode letter: the two agree on the example
    names, which are ASCII, and the properties are stated for any
    [ToUpper] and [ToLower]. *)
Definition upper_ascii (c : ascii) : ascii :=
  let n := nat_of_ascii c in
  if ((97 <=? n) && (n <=? 122))%nat then ascii_of_nat (n - 32) else c.

Definition lower_ascii (c : ascii) : ascii :=
  let n := nat_of_ascii c in
  if ((65 <=? n) && (n <=? 90))%nat then ascii_of_nat (n + 32) else c.

Fixpoint map_string (f : ascii -> ascii) (s : string) : string :=
  match s with
  | EmptyString => EmptyString
  | String c s' => String (f c) (map_string f s')
  end.

(** Splits [db.table] at the first dot; [None] when there is none. *)
Fixpoint split_dot (s : string) : option (string * string) :=
  match s with
  | EmptyString => None
  | String c s' =>
      if (c =? ".")%char then Some (EmptyString, s')
      else match split_dot s' with
           | Some (a, b) => Some (String c a, b)
           | None => None
           end
  end.

(** Modelled from the spec: name normalization is not in [show.go]; a
    qualified name is "normalized against the session's default database
    when the database part is omitted". *)
Definition normalize (name : NormalizableTableName) (database : string)
  : outcome TableName.t :=
  match split_dot name with
  | Some (db, t) => Ok (TableName.mk db t)
  | None =>
      if (database =? "")%string then Err errNoDatabase
      else Ok (TableName.mk database name)
  end.

Definition tn_string (tn : TableName.t) : string :=
  TableName.Database tn ++ "." ++ TableName.Table tn.

(** A stand-in for the parser: a text starting with SELECT is a select, one
    starting with INSERT another statement, anything else a syntax error. *)
Definition parse (sql : string) : outcome Statement :=
  if String.prefix "SELECT " sql then Ok (StmtSelect sql)
  else if String.prefix "INSERT " sql then Ok StmtOther
  else Err (errOther "syntax error").

Definition builtins (name : string) : option (list Builtin.t) :=
  if (name =? "length")%string
  then Some [ Builtin.mk "(string) -> int" "String" "length of a string";
              Builtin.mk "(bytes) -> int" "String" "length of a byte array" ]
  else None.

(** Names are rendered comma-joined and unquoted: no example name needs
    quotes. *)
#[local] Instance collaborators : Collaborators := {
  AsString := fun names => Join names ", ";
  NormalizableTableName_String := fun n => n;
  NormalizeWithDatabaseName := normalize;
  TableName_String := tn_string;
  NormalizeTablePattern := fun pat => Ok pat;
  ParseOneTraditional := parse;
  Builtins := builtins;
  Name_String := fun n => n;
  ToUpper := map_string upper_ascii;
  ToLower := map_string lower_ascii }.

(** A catalog: databases, table and view descriptors by id and qualified
    name, table-level and database-level grants, and the output columns of
    the plan of each stored view query. *)
Record Catalog : Type := mkCatalog {
  cat_databases : list string;
  cat_tables : list (Z * (string * string) * TableDescriptor.t);
  cat_virtual : list (string * string);
  cat_table_grants : list (string * string * string * string);
  cat_database_grants : list (string * string * string);
  cat_constraints : list (string * ConstraintDetail.t);
  cat_plans : list (string * list string) }.

Definition same_table (db t : string) (entry : Z * (string * string) * TableDescriptor.t)
  : bool :=
  let '(_, (db', t'), _) := entry in ((db' =? db) && (t' =? t))%string.

Definition find_table (cat : Catalog) (db t : string) : option TableDescriptor.t :=
  match find (same_table db t) (cat_tables cat) with
  | Some (_, _, desc) => Some desc
  | None => None
  end.

Definition arg (args : list string) (i : nat) : string := nth i args "".

Definition column_row (c : ColumnDescriptor.t) : DTuple :=
  [ DString (ColumnDescriptor.Name c);
    DString (ColumnDescriptor.Type_SQL c);
    DBool (ColumnDescriptor.Nullable c);
    match ColumnDescriptor.DefaultExpr c with
    | Some e => DString e
    | None => DNull
    end ].

(** The information_schema queries of [show.go], answered from the catalog
    as the read templates of the spec describe them.  Existence checks
    answer with one row or none. *)
Definition root_query (cat : Catalog) (sql : string) (args : list string)
  : outcome (list DTuple) :=
  if (sql =? checkSchema)%string then
    Ok (if existsb (String.eqb (arg args 0)) (cat_databases cat)
        then [[DString (arg args 0)]] else [])
  else if (sql =? checkTable)%string then
    Ok (match find_table cat (arg args 0) (arg args 1) with
        | Some _ => [[DString (arg args 0)]]
        | None => []
        end)
  else Err (errOther "unsupported query").

Definition grants_on (cat : Catalog) (args : list string) : list DTuple :=
  map (fun g => let '(_, t, user, priv) := g in [DString t; DString user; DString priv])
      (filter (fun g => let '(db, t, _, _) := g in
                        (existsb (String.eqb db) args && existsb (String.eqb t) args)%bool)
              (cat_table_grants cat)).

Definition database_grants_on (cat : Catalog) (args : list string) : list DTuple :=
  map (fun g => let '(db, user, priv) := g in [DString db; DString user; DString priv])
      (filter (fun g => let '(db, _, _) := g in existsb (String.eqb db) args)
              (cat_database_grants cat)).

Definition user_query (cat : Catalog) (database sql : string) (args : list string)
  : outcome (list DTuple) :=
  if (sql =? getColumns)%string then
    Ok (match find_table cat (arg args 0) (arg args 1) with
        | Some desc => map column_row (TableDescriptor.VisibleColumns desc)
        | None => []
        end)
  else if (sql =? getTables)%string then
    Ok (map (fun e => let '(_, (_, t), _) := e in [DString t])
            (filter (fun e => let '(_, (db, _), _) := e in (db =? arg args 0)%string)
                    (cat_tables cat)))
  else if String.prefix "SELECT TABLE_NAME, GRANTEE" sql then Ok (grants_on cat args)
  else if String.prefix "SELECT TABLE_SCHEMA AS " sql then Ok (database_grants_on cat args)
  else Err (errOther "unsupported query").

Definition has_grant (cat : Catalog) (db t user : string) : bool :=
  existsb (fun g => let '(db', t', user', _) := g in
                    ((db' =? db) && (t' =? t) && (user' =? user))%string)
          (cat_table_grants cat).

Definition privilege_query (cat : Catalog) (database sql : string) (args : list string)
  : outcome DTuple :=
  if (sql =? checkTablePrivilege)%string then
    Ok (if has_grant cat (arg args 0) (arg args 1) (arg args 2)
        then [DString (arg args 1)] else [])
  else Err (errOther "unsupported query").

(** Modelled from the spec: [mustGetTableDesc] is not in [show.go]; the
    spec's Descriptor Accessor resolves a qualified name to its descriptor,
    and a table that does not exist is an undefined-table error naming the
    qualified name. *)
Definition must_get (cat : Catalog) (tn : TableName.t) : outcome TableDescriptor.t :=
  match find_table cat (TableName.Database tn) (TableName.Table tn) with
  | Some desc => Ok desc
  | None => Err (errUndefinedTable (tn_string tn))
  end.

(** Modelled from the spec: [anyPrivilege] is not in [show.go]; the spec's
    Privilege Gate passes the "any privilege" check when the principal holds
    a privilege on the object and denies it otherwise. *)
Definition any_privilege (cat : Catalog) (user : string) (desc : TableDescriptor.t)
  : option error :=
  if existsb (fun g => let '(_, t, user', _) := g in
                       ((t =? TableDescriptor.Name desc) && (user' =? user))%string)
             (cat_table_grants cat)
  then None
  else Some (errOther ("user " ++ user ++ " has no privileges on table "
                       ++ TableDescriptor.Name desc)).

Definition by_id (cat : Catalog) (id : Z) : outcome TableDescriptor.t :=
  match find (fun e => let '(id', _, _) := e in (id' =? id)%Z) (cat_tables cat) with
  | Some (_, _, desc) => Ok desc
  | None => Err (errOther "descriptor not found")
  end.

Definition plan_columns (cat : Catalog) (skip : bool) (sel : Select)
  : outcome ResultColumns :=
  match map_get (cat_plans cat) sel with
  | Some names => Ok (map (fun name => col name TypeString) names)
  | None => Err (errOther "cannot plan query")
  end.

(** The planner of a session on a catalog; a container holds at most
    [budget] rows, any number when there is no budget. *)
Definition mk_planner (cat : Catalog) (sess : Session) (budget : option nat)
  : planner :=
  {| session := sess;
     txn := mkTxn "SERIALIZABLE" "NORMAL";
     queryRowsAsRoot := root_query cat;
     queryRows := user_query cat;
     QueryRow := privilege_query cat;
     getVirtualTableDesc := fun tn =>
       Ok (if existsb (fun v => ((fst v =? TableName.Database tn)
                                 && (snd v =? TableName.Table tn))%string)
                      (cat_virtual cat)
           then find_table cat (TableName.Database tn) (TableName.Table tn)
           else None);
     mustGetTableDesc := must_get cat;
     mustGetViewDesc := must_get cat;
     anyPrivilege := any_privilege cat (User sess);
     GetTableDescFromID := by_id cat;
     GetConstraintInfo := fun _ => Ok (cat_constraints cat);
     expandTableGlob := fun pat =>
       match split_dot pat with
       | Some (db, t) => Ok [TableName.mk db t]
       | None => Err (errOther "invalid table pattern")
       end;
     Select_Columns := plan_columns cat;
     addRowErr := fun rows _ =>
       match budget with
       | None => None
       | Some b =>
           if (length rows <? b)%nat then None
           else Some (errOther "memory budget exceeded")
       end |}.

Definition s0 : pstate := mkPstate "" false [] [].

(** *** Example descriptors *)

Definition colA : ColumnDescriptor.t := ColumnDescriptor.mk "a" 1 "INT" false None false.
Definition colB : ColumnDescriptor.t := ColumnDescriptor.mk "b" 2 "INT" true (Some "5") false.
Definition colC : ColumnDescriptor.t := ColumnDescriptor.mk "c" 3 "STRING" true None false.
Definition colRowid : ColumnDescriptor.t :=
  ColumnDescriptor.mk "rowid" 4 "INT" false (Some "unique_rowid()") true.

(** [parent (a INT PRIMARY KEY)]. *)
Definition parent_pk : IndexDescriptor.t :=
  IndexDescriptor.mk "primary" true (Go.of_list ["a"]) [ASC] [] [1%Z] [].

Definition parent_desc : TableDescriptor.t :=
  TableDescriptor.mk "parent" [colA] parent_pk [] [] [] "" true.

(** [t (a INT NOT NULL, b INT DEFAULT 5, c STRING, PRIMARY KEY (a),
    UNIQUE INDEX t_b_c_idx (b, c DESC) STORING (a))]. *)
Definition t_pk : IndexDescriptor.t :=
  IndexDescriptor.mk "primary" true (Go.of_list ["a"]) [ASC] [] [1%Z] [].

Definition t_b_c_idx : IndexDescriptor.t :=
  IndexDescriptor.mk "t_b_c_idx" true (Go.of_list ["b"; "c"]) [ASC; DESC] ["a"]
                     [2%Z; 3%Z] [].

Definition t_desc : TableDescriptor.t :=
  TableDescriptor.mk "t" [colA; colB; colC] t_pk [t_b_c_idx]
    [ColumnFamilyDescriptor.mk "primary" ["a"; "b"; "c"] [1%Z; 2%Z; 3%Z]]
    [CheckConstraint.mk "ck" "a > 0"] "" true.

(** [kv (b INT, c STRING)], whose primary key is the hidden [rowid]. *)
Definition kv_pk : IndexDescriptor.t :=
  IndexDescriptor.mk "primary" true (Go.of_list ["rowid"]) [ASC] [] [4%Z] [].

Definition kv_desc : TableDescriptor.t :=
  TableDescriptor.mk "kv" [colB; colC; colRowid] kv_pk [] [] [] "" true.

(** Three views: one whose stored query does not parse, one whose stored
    query parses but cannot be planned (the catalog has no plan for it, as
    when the read of an underlying descriptor fails), and a sound one. *)
Definition broken_view : TableDescriptor.t :=
  TableDescriptor.mk "broken" [colA] t_pk [] [] [] "SELEC a FROM test.t" false.

Definition unplannable_view : TableDescriptor.t :=
  TableDescriptor.mk "unplannable" [colA] t_pk [] [] []
                     "SELECT a FROM test.gone" false.

Definition good_view : TableDescriptor.t :=
  TableDescriptor.mk "v" [colA] t_pk [] [] [] "SELECT a FROM test.t" false.

(** The virtual table [information_schema.tables]. *)
Definition virtual_tables : TableDescriptor.t :=
  TableDescriptor.mk "tables"
    [ColumnDescriptor.mk "TABLE_NAME" 1 "STRING" false None false]
    (IndexDescriptor.mk "primary" true (Go.of_list []) [] [] [] [])
    [] [] [] "" false.

(** An interleaved index as protobuf decoding leaves it: three key columns
    appended one by one to a slice that grew to capacity 4, the fourth
    element of the backing array being the zero string.  Each of its two
    ancestors shares two columns, within the three key columns. *)
Definition idx_spare : IndexDescriptor.t :=
  IndexDescriptor.mk "primary" true (Go.mkSlice ["a"; "b"; "c"] [""])
                     [ASC; ASC; ASC] [] [1%Z; 2%Z; 3%Z]
                     [Ancestor.mk 49 2; Ancestor.mk 50 2].

(** An index interleaved in [parent] on its first key column. *)
Definition idx_child : IndexDescriptor.t :=
  IndexDescriptor.mk "primary" true (Go.of_list ["a"; "b"])
                     [ASC; ASC] [] [1%Z; 2%Z]
                     [Ancestor.mk 50 1].

(** An index with two interleave ancestors sharing one column each; the
    last one is [parent], the first one a table the catalog does not hold. *)
Definition idx_grandchild : IndexDescriptor.t :=
  IndexDescriptor.mk "primary" true (Go.of_list ["a"; "b"; "c"])
                     [ASC; ASC; ASC] [] [1%Z; 2%Z; 3%Z]
                     [Ancestor.mk 49 1; Ancestor.mk 50 1].

Definition example_catalog : Catalog :=
  mkCatalog
    ["test"; "information_schema"]
    [ (50%Z, ("test", "parent"), parent_desc);
      (51%Z, ("test", "t"), t_desc);
      (52%Z, ("test", "kv"), kv_desc);
      (53%Z, ("test", "broken"), broken_view);
      (54%Z, ("test", "v"), good_view);
      (55%Z, ("test", "unplannable"), unplannable_view);
      (4294967295%Z, ("information_schema", "tables"), virtual_tables) ]
    [ ("information_schema", "tables") ]
    [ ("test", "t", "alice", "SELECT");
      ("test", "t", "bob", "SELECT");
      ("test", "t", "alice", "INSERT");
      ("test", "kv", "alice", "SELECT");
      ("test", "broken", "alice", "SELECT");
      ("test", "unplannable", "alice", "SELECT");
      ("test", "v", "alice", "SELECT") ]
    [ ("test", "alice", "ALL") ]
    [ ("primary", ConstraintDetail.mk "PRIMARY KEY" (Some ["a"]) "" false);
      ("ck", ConstraintDetail.mk "CHECK" None "a > 0" true) ]
    [ ("SELECT a FROM test.t", ["a"]) ].

Definition alice : Session :=
  mkSession "test" "alice" "SERIALIZABLE" "Traditional" "UTC" ["pg_catalog"].

(** alice's planner on the example catalog, without a row budget. *)
Definition planner0 : planner := mk_planner example_catalog alice None.

(** The same planner with containers limited to [b] rows. *)
Definition planner_budget (b : nat) : planner :=
  mk_planner example_catalog alice (Some b).

(** A planner whose read of the constraints fails with [e], as when the
    transaction layer reports an error; everything else is as in [p]. *)
Definition with_failing_constraints (p : planner) (e : error) : planner :=
  {| session := session p;
     txn := txn p;
     queryRowsAsRoot := queryRowsAsRoot p;
     queryRows := queryRows p;
     QueryRow := QueryRow p;
     getVirtualTableDesc := getVirtualTableDesc p;
     mustGetTableDesc := mustGetTableDesc p;
     mustGetViewDesc := mustGetViewDesc p;
     anyPrivilege := anyPrivilege p;
     GetTableDescFromID := GetTableDescFromID p;
     GetConstraintInfo := fun _ => Err e;
     expandTableGlob := expandTableGlob p;
     Select_Columns := Select_Columns p;
     addRowErr := addRowErr p |}.

(** bob holds a privilege on [t] only. *)
Definition bob : Session :=
  mkSession "test" "bob" "SERIALIZABLE" "Traditional" "UTC" ["pg_catalog"].

(** *** More example descriptors *)

(** A view created with a column list: its column is recorded as [b] while
    its stored query yields [a]. *)
Definition renamed_view : TableDescriptor.t :=
  TableDescriptor.mk "w" [colB] t_pk [] [] [] "SELECT a FROM test.t" false.

(** A view whose descriptor records no column, while its query yields one. *)
Definition stale_view : TableDescriptor.t :=
  TableDescriptor.mk "stale" [] t_pk [] [] [] "SELECT a FROM test.t" false.

(** An index with two key columns and one direction, and a table with it. *)
Definition idx_short : IndexDescriptor.t :=
  IndexDescriptor.mk "short_idx" false (Go.of_list ["a"; "b"]) [ASC] [] [1%Z; 2%Z] [].

Definition short_desc : TableDescriptor.t :=
  TableDescriptor.mk "short" [colA; colB] t_pk [idx_short] [] [] "" true.

(** A family of [t] with two column ids and one name, and one with a column
    id, 9, that is not a column of [t]. *)
Definition fam_short : ColumnFamilyDescriptor.t :=
  ColumnFamilyDescriptor.mk "f" ["a"] [1%Z; 2%Z].

Definition fam_dropped : ColumnFamilyDescriptor.t :=
  ColumnFamilyDescriptor.mk "g" ["a"; "gone"; "c"] [1%Z; 9%Z; 3%Z].

(** An index interleaved in a table, 99, that the catalog does not have, and
    a table with it as a secondary index. *)
Definition idx_orphan : IndexDescriptor.t :=
  IndexDescriptor.mk "orphan_idx" false (Go.of_list ["a"]) [ASC] [] [1%Z]
                     [Ancestor.mk 99 7].

Definition orphan_desc : TableDescriptor.t :=
  TableDescriptor.mk "o" [colA] t_pk [t_b_c_idx; idx_orphan] [] [] "" true.

(** The expansion of a table pattern by the example planners. *)
Definition expand_one (pat : TablePattern) : list TableName.t :=
  match split_dot pat with
  | Some (db, t) => [TableName.mk db t]
  | None => []
  end.

(** The example planner with a planning of SELECT that checks privileges
    unless it is told to skip the check, and finds that the user has none. *)
Definition planner_checked : planner :=
  with_Select_Columns planner0
    (fun skip sel =>
       if skip then Select_Columns planner0 true sel
       else Err (errOther "user alice does not have SELECT privilege")).

(** The interleave clause of the example indexes that have one. *)
Definition example_interleave (idx : IndexDescriptor.t) : string :=
  match IndexDescriptor.Ancestors idx with
  | [] => ""
  | _ :: _ => " INTERLEAVE IN PARENT parent (a)"
  end.

(** A session with another current database than alice's. *)
Definition carol : Session :=
  mkSession "information_schema" "carol" "SNAPSHOT" "Traditional" "UTC" [].

End Fixture.

(** ** Notions used by the statements *)

(** [RowContainer.AddRow] never fails for this planner. *)
Definition never_fails (p : planner) : Prop :=
  forall rows row, addRowErr p rows row = None.

(** The state after adding [rows] to the container at position [v]. *)
Definition add_rows (v : nat) (rows : list DTuple) (s : pstate) : pstate :=
  fold_left (fun s r => add_row v r s) rows s.

(** The value of a registered session variable. *)
Definition var_value (p : planner) (vName : string) : string :=
  match map_get varGen vName with
  | Some gen => gen p
  | None => ""
  end.

(** What the spec asks of SHOW ALL: one (name, value) row per registered
    variable, in ascending order of the names. *)
Definition ShowAll_rows (p : planner) : list DTuple :=
  map (fun vName => [DString vName; DString (var_value p vName)]) varNames.

(** What the spec asks of SHOW INDEX for one index: a first pass with one
    cell per key column, in order, carrying the direction of the column
    ("ASC" or "DESC"); a second pass with one cell per storing column, with
    the direction "N/A"; the rows of both passes are numbered by one counter
    ascending from 1.  A row is (Table, Name, Unique, Seq, Column, Direction,
    Storing). *)
Definition direction_text (d : Direction) : string :=
  match d with ASC => "ASC" | DESC => "DESC" end.

Definition index_cells (index : IndexDescriptor.t) : list (string * string * bool) :=
  (map (fun cd => (fst cd, direction_text (snd cd), false))
       (combine (elems (IndexDescriptor.ColumnNames index))
                (IndexDescriptor.ColumnDirections index))
   ++ map (fun c => (c, "N/A", true)) (IndexDescriptor.StoreColumnNames index))%list.

Definition numbered_rows (tn : TableName.t) (index : IndexDescriptor.t)
  (start : nat) (cells : list (string * string * bool)) : list DTuple :=
  map (fun nc =>
         let '(n, (c, direction, isStored)) := nc in
         [ DString (TableName.Table tn);
           DString (IndexDescriptor.Name index);
           DBool (IndexDescriptor.Unique index);
           DInt (Z.of_nat n);
           DString c;
           DString direction;
           DBool isStored ])
      (combine (seq start (length cells)) cells).

Definition spec_index_rows (tn : TableName.t) (index : IndexDescriptor.t)
  : list DTuple :=
  numbered_rows tn index 1 (index_cells index).

(** Primary index first, then the secondary indexes in descriptor order. *)
Definition spec_ShowIndex_rows (tn : TableName.t) (desc : TableDescriptor.t)
  : list DTuple :=
  flat_map (spec_index_rows tn)
           (TableDescriptor.PrimaryIndex desc :: TableDescriptor.Indexes desc).

(** Every key column of the index has a direction. *)
Definition directions_cover (index : IndexDescriptor.t) : Prop :=
  len (IndexDescriptor.ColumnNames index)
  <= length (IndexDescriptor.ColumnDirections index).

(** The sum of the shared-prefix lengths of the ancestors, as a number. *)
Definition sum_SharedPrefixLen (ancestors : list Ancestor.t) : Z :=
  fold_right (fun a acc => (Ancestor.SharedPrefixLen a + acc)%Z) 0%Z ancestors.

(** The ancestors a descriptor can hold: every [SharedPrefixLen] is a
    [uint32], and there are fewer than [2^31] of them, so that their sum
    fits an [int]. *)
Definition wf_ancestors (ancestors : list Ancestor.t) : Prop :=
  Forall (fun a => uint32 (Ancestor.SharedPrefixLen a)) ancestors
  /\ (Z.of_nat (length ancestors) < 2 ^ 31)%Z.

(** The clause the spec describes for a parent table and the columns it
    lists: [ INTERLEAVE IN PARENT <parent> (<names>)], the names rendered by
    [parser.AsString]. *)
Definition spec_interleave_clause {C : Collaborators} (parent : string)
  (names : list string) : string :=
  " INTERLEAVE IN PARENT " ++ parent ++ " (" ++ AsString names ++ ")".

(** The invariant the spec states for interleaved indexes: no ancestor's
    shared-prefix length exceeds the number of key columns. *)
Definition per_ancestor_invariant (idx : IndexDescriptor.t) : Prop :=
  Forall (fun a => (Ancestor.SharedPrefixLen a
                    <= Z.of_nat (len (IndexDescriptor.ColumnNames idx)))%Z)
         (IndexDescriptor.Ancestors idx).

(** The pieces of the text of SHOW CREATE TABLE: the header, the line of a
    visible column, and what follows the PRIMARY KEY clause (index, family
    and check clauses, the closing parenthesis and the interleave clause of
    the primary index). *)
Definition ShowCreateTable_header {C : Collaborators} (n : parser.ShowCreateTable)
  : string :=
  "CREATE TABLE "
  ++ quoteNames [NormalizableTableName_String (ShowCreateTable_Table n)] ++ " (".

Definition column_text {C : Collaborators} (i : nat) (c : ColumnDescriptor.t)
  : string :=
  (if (i =? 0)%nat then "" else ",") ++ nl ++ tab
  ++ quoteNames [ColumnDescriptor.Name c] ++ " " ++ ColumnDescriptor.Type_SQL c
  ++ (if ColumnDescriptor.Nullable c then " NULL" else " NOT NULL")
  ++ match ColumnDescriptor.DefaultExpr c with
     | Some e => " DEFAULT " ++ e
     | None => ""
     end.

Fixpoint columns_text {C : Collaborators} (i : nat) (cols : list ColumnDescriptor.t)
  : string :=
  match cols with
  | [] => ""
  | c :: cols' => column_text i c ++ columns_text (S i) cols'
  end.

Definition ShowCreateTable_tail {C : Collaborators} (p : planner)
  (desc : TableDescriptor.t) : outcome string :=
  indexes <-? range_fold (ShowCreateTable_index p) 0 (TableDescriptor.Indexes desc) "" ;;
  families <-? range_fold (ShowCreateTable_family desc) 0
                          (TableDescriptor.Families desc) "" ;;
  checks <-? range_fold ShowCreateTable_check 0 (TableDescriptor.Checks desc) "" ;;
  interleave <-? showCreateInterleave p (TableDescriptor.PrimaryIndex desc) ;;
  Ok (indexes ++ families ++ checks ++ nl ++ ")" ++ interleave).

(** The first key column of the primary index is one of [cols]. *)
Definition primary_on (desc : TableDescriptor.t) (cols : list ColumnDescriptor.t)
  : bool :=
  match IndexDescriptor.ColumnIDs (TableDescriptor.PrimaryIndex desc) with
  | id0 :: _ => existsb (fun c => (id0 =? ColumnDescriptor.ID c)%Z) cols
  | [] => false
  end.

(** What the spec asks of the PRIMARY KEY clause: it is there if and only if
    the table is physical and the first key column of its primary index is a
    visible column. *)
Definition primary_key_text {C : Collaborators} (desc : TableDescriptor.t) : string :=
  if (TableDescriptor.IsPhysicalTable desc
      && primary_on desc (TableDescriptor.VisibleColumns desc))%bool
  then primary_clause desc
  else "".

(** The ordering of the sort stage of SHOW GRANTS: ascending by the object
    name, then the grantee, then the privilege. *)
Definition grants_ordering : ColumnOrdering := [asc 0; asc 1; asc 2].

(** Running a plan builder and then its callback: the callback of the
    delayed node, and the rows its plan produces. *)
Definition constructor_of (d : outcome delayedNode) (p : planner) : M planNode :=
  match d with
  | Ok d => constructor d p
  | Err e => fail e
  | Panic msg => lift (Panic msg)
  end.

Definition run_plan (d : outcome delayedNode) (p : planner) (s : pstate)
  : outcome (list DTuple) :=
  let (r, s') := constructor_of d p s in
  match r with
  | Ok node => Ok (planRows s' node)
  | Err e => Err e
  | Panic msg => Panic msg
  end.

(** A container was allocated and closed. *)
Definition closed_in (s : pstate) (i : nat) : Prop :=
  exists rc, nth_error (containers s) i = Some rc /\ rc_closed rc = true.

(** Every container allocated between [s] and [s'] is closed in [s']. *)
Definition released_since (s s' : pstate) : Prop :=
  forall i, length (containers s) <= i -> i < length (containers s') ->
            closed_in s' i.

(** A computation that, when it returns an error, has released every
    container it allocated. *)
Definition tidy {A : Type} (m : M A) : Prop :=
  forall s e s', m s = (Err e, s') -> released_since s s'.

(** A computation that allocates no container. *)
Definition steady {A : Type} (m : M A) : Prop :=
  forall s r s', m s = (r, s') -> length (containers s') = length (containers s).

(** A computation that allocates no container and, when it returns an
    error, has closed the container of [v]. *)
Definition releasing (v : valuesNode) {A : Type} (m : M A) : Prop :=
  steady m
  /\ forall s e s', vn_rows v < length (containers s) -> m s = (Err e, s') ->
                    closed_in s' (vn_rows v).

(** A computation that leaves the observation [f] of the state as it found
    it, whatever its outcome: a result, an error or a panic. *)
Definition preserves {X A : Type} (f : pstate -> X) (m : M A) : Prop :=
  forall s, f (snd (m s)) = f s.

(** Between [s] and [s'] no container was allocated, the containers other
    than [v] were left alone, and [v] was neither released nor reopened:
    rows may have been added to it. *)
Definition kept (v : nat) (s s' : pstate) : Prop :=
  length (containers s') = length (containers s)
  /\ forall i rc, nth_error (containers s) i = Some rc ->
       exists rc', nth_error (containers s') i = Some rc'
                   /\ rc_closed rc' = rc_closed rc
                   /\ (i <> v -> rc' = rc).

(** A step that, when it succeeds, has kept the containers. *)
Definition keeps (v : valuesNode) {A : Type} (m : M A) : Prop :=
  forall s a s', m s = (Ok a, s') -> kept (vn_rows v) s s'.

(** The values node a plan reads its rows from. *)
Definition source_of (node : planNode) : valuesNode :=
  match node with
  | PlanValues v => v
  | PlanSelectTop source _ => source
  end.

(** The rest of a callback after the allocation of [v]: when it succeeds,
    the plan reads from [v] and the containers were kept. *)
Definition finishes (v : valuesNode) (m : M planNode) : Prop :=
  forall s node s', m s = (Ok node, s') ->
    source_of node = v /\ kept (vn_rows v) s s'.

(** A callback that, when it succeeds, hands over a plan reading from
    exactly one new container, which is open, and has left the containers
    that existed before as they were. *)
Definition hands_over (m : M planNode) : Prop :=
  forall s node s', m s = (Ok node, s') ->
    vn_rows (source_of node) = length (containers s)
    /\ length (containers s') = S (length (containers s))
    /\ live s' (length (containers s))
    /\ forall i, i < length (containers s) ->
         nth_error (containers s') i = nth_error (containers s) i.

(** The order of two entries of the constraint map: by constraint name. *)
Definition entry_leb (a b : string * ConstraintDetail.t) : bool :=
  String.leb (fst a) (fst b).

(** Some column of the plan of a view's query is named differently from the
    column the descriptor records at the same position. *)
Definition renamed (planCols : ResultColumns) (descCols : list ColumnDescriptor.t)
  : bool :=
  existsb (fun cd => negb (ResultColumn.Name (fst cd)
                           =? ColumnDescriptor.Name (snd cd))%string)
          (combine planCols descCols).

(** The placeholders [$start], [$start+1], ..., [n] of them. *)
Definition placeholders (start n : nat) : list string :=
  map (fun i => "$" ++ itoa i) (seq start n).

(** The placeholder pairs [($start,$start+1)], [($start+2,$start+3)], ...,
    [n] of them. *)
Fixpoint pair_placeholders (start n : nat) : list string :=
  match n with
  | O => []
  | S n' => ("($" ++ itoa start ++ ",$" ++ itoa (start + 1) ++ ")")
            :: pair_placeholders (start + 2) n'
  end.

(** The filter on grantees that ends a grants query whose targets took the
    parameters below [start], and the arguments it adds. *)
Definition grantee_clause (grantees : option (list string)) (start : nat) : string :=
  match grantees with
  | None => ""
  | Some gs => " AND GRANTEE IN(" ++ Join (placeholders start (length gs)) "," ++ ")"
  end.

Definition grantee_args (grantees : option (list string)) : list string :=
  match grantees with
  | None => []
  | Some gs => gs
  end.

(** The state after the catalog accesses [evs]. *)
Definition logs (evs : list event) (s : pstate) : pstate :=
  fold_left (fun s ev => log ev s) evs s.

(** The existence probes of SHOW GRANTS. *)
Definition database_probe (db : string) : event :=
  EvQueryRowsAsRoot checkSchema [db].

Definition table_probe (t : TableName.t) : event :=
  EvQueryRowsAsRoot checkTable [TableName.Database t; TableName.Table t].

(** The arguments a list of tables contributes to the table-level query. *)
Definition table_args (tables : list TableName.t) : list string :=
  flat_map (fun t => [TableName.Database t; TableName.Table t]) tables.

(** The column with this id is an active column of the table. *)
Definition is_active (desc : TableDescriptor.t) (colID : Z) : bool :=
  match TableDescriptor.FindActiveColumnByID desc colID with
  | Some _ => true
  | None => false
  end.

(** The names of a column family paired with an active column id. *)
Definition active_family_names (desc : TableDescriptor.t)
  (fam : ColumnFamilyDescriptor.t) : list string :=
  map fst (filter (fun nc => is_active desc (snd nc))
                  (combine (ColumnFamilyDescriptor.ColumnNames fam)
                           (ColumnFamilyDescriptor.ColumnIDs fam))).

(** The clauses of CREATE TABLE after the PRIMARY KEY clause: that of a
    secondary index, given its interleave clause, of a column family and of
    a check constraint. *)
Definition index_clause {C : Collaborators} (idx : IndexDescriptor.t)
  (interleave : string) : string :=
  "," ++ nl ++ tab ++ isUnique (IndexDescriptor.Unique idx) ++ "INDEX "
  ++ quoteNames [IndexDescriptor.Name idx]
  ++ " (" ++ quoteNames (elems (IndexDescriptor.ColumnNames idx)) ++ ")"
  ++ match IndexDescriptor.StoreColumnNames idx with
     | [] => ""
     | _ :: _ => " STORING (" ++ quoteNames (IndexDescriptor.StoreColumnNames idx) ++ ")"
     end
  ++ interleave.

Definition family_clause {C : Collaborators} (desc : TableDescriptor.t)
  (fam : ColumnFamilyDescriptor.t) : string :=
  "," ++ nl ++ tab ++ "FAMILY " ++ quoteNames [ColumnFamilyDescriptor.Name fam]
  ++ " (" ++ quoteNames (active_family_names desc fam) ++ ")".

Definition check_clause {C : Collaborators} (e : CheckConstraint.t) : string :=
  "," ++ nl ++ tab
  ++ (if (CheckConstraint.Name e =? "")%string then ""
      else "CONSTRAINT " ++ quoteNames [CheckConstraint.Name e] ++ " ")
  ++ "CHECK (" ++ CheckConstraint.Expr e ++ ")".

(** One clause per element, in the order of the list. *)
Fixpoint clauses {A : Type} (f : A -> string) (l : list A) : string :=
  match l with
  | [] => ""
  | x :: l' => f x ++ clauses f l'
  end.

(** A callback that, when it succeeds, returns a plan whose values node has
    the columns [columns]. *)
Definition yields (columns : ResultColumns) (m : M planNode) : Prop :=
  forall s node s', m s = (Ok node, s') ->
    vn_columns (source_of node) = columns.

(** What the spec asks of the PRIMARY KEY clause, in its words: "a named
    CONSTRAINT <name> PRIMARY KEY (<quoted key columns>) clause", here after
    a comma and on a line of its own, the names rendered by
    [parser.AsString]; and when it asks for it: the table is physical and
    the first key column of its primary index is a currently visible
    column. *)
Definition spec_primary_key_clause {C : Collaborators} (desc : TableDescriptor.t)
  : string :=
  "," ++ nl ++ tab ++ "CONSTRAINT "
  ++ AsString [IndexDescriptor.Name (TableDescriptor.PrimaryIndex desc)]
  ++ " PRIMARY KEY ("
  ++ AsString (elems (IndexDescriptor.ColumnNames (TableDescriptor.PrimaryIndex desc)))
  ++ ")".

Definition spec_primary_key_condition (desc : TableDescriptor.t) : Prop :=
  TableDescriptor.IsPhysicalTable desc = true
  /\ exists id0 ids c,
       IndexDescriptor.ColumnIDs (TableDescriptor.PrimaryIndex desc) = id0 :: ids
       /\ In c (TableDescriptor.VisibleColumns desc)
       /\ ColumnDescriptor.ID c = id0.

(** The two privilege sources of SHOW GRANTS with their arguments: the
    query on the schema privileges for the databases of the statement, and
    the query on the table privileges for its tables, each filtered by the
    grantees of the statement. *)
Definition schema_source (n : parser.ShowGrants) (dbs : list string)
  : string * list string :=
  (schemaGrants_query (placeholders 1 (length dbs))
   ++ grantee_clause (ShowGrants_Grantees n) (1 + length dbs),
   (dbs ++ grantee_args (ShowGrants_Grantees n))%list).

Definition table_source (n : parser.ShowGrants) (tables : list TableName.t)
  : string * list string :=
  (tableGrants_query (pair_placeholders 1 (length tables))
   ++ grantee_clause (ShowGrants_Grantees n) (1 + 2 * length tables),
   (table_args tables ++ grantee_args (ShowGrants_Grantees n))%list).

(** The rows a source contributes: none when the statement has no target of
    its kind, otherwise the answer to its query. *)
Definition source_rows (p : planner) (s : pstate)
  (source : option (string * list string)) (rows : list DTuple) : Prop :=
  match source with
  | None => rows = []
  | Some (sql, args) => queryRows p (evalCtx_Database s) sql args = Ok rows
  end.

(** * Properties *)

Unset Implicit Arguments.

(** ** Sorting *)

Section SortFacts.
Variable A : Type.
Variable leb : A -> A -> bool.

Lemma insert_sorted_perm (x : A) (l : list A) :
  Permutation (insert_sorted leb x l) (x :: l).
Proof.
  induction l as [|y l IH]; simpl.
  - apply Permutation_refl.
  - destruct (leb x y).
    + apply Permutation_refl.
    + apply Permutation_trans with (y :: x :: l).
      * apply perm_skip, IH.
      * apply perm_swap.
Qed.

Lemma sort_by_perm (l : list A) : Permutation (sort_by leb l) l.
Proof.
  induction l as [|x l IH]; simpl.
  - apply perm_nil.
  - apply Permutation_trans with (x :: sort_by leb l).
    + apply insert_sorted_perm.
    + apply perm_skip, IH.
Qed.

Lemma sort_by_length (l : list A) : length (sort_by leb l) = length l.
Proof. apply Permutation_length, sort_by_perm. Qed.

Hypothesis leb_total : forall x y, leb x y = true \/ leb y x = true.

Lemma insert_sorted_HdRel (a x : A) (l : list A) :
  HdRel (le_of leb) a l -> le_of leb a x -> HdRel (le_of leb) a (insert_sorted leb x l).
Proof.
  intros Hl Hx. destruct l as [|y l]; simpl.
  - constructor. exact Hx.
  - destruct (leb x y).
    + constructor. exact Hx.
    + constructor. inversion Hl; assumption.
Qed.

Lemma insert_sorted_Sorted (x : A) (l : list A) :
  Sorted (le_of leb) l -> Sorted (le_of leb) (insert_sorted leb x l).
Proof.
  induction l as [|y l IH]; intros Hs; simpl.
  - repeat constructor.
  - destruct (leb x y) eqn:E.
    + constructor; [exact Hs | constructor; exact E].
    + inversion Hs as [|? ? Hs' Hhd]; subst.
      constructor.
      * apply IH, Hs'.
      * apply insert_sorted_HdRel; [exact Hhd|].
        destruct (leb_total x y) as [H|H]; [congruence | exact H].
Qed.

Lemma sort_by_Sorted (l : list A) : Sorted (le_of leb) (sort_by leb l).
Proof.
  induction l as [|x l IH]; simpl.
  - constructor.
  - apply insert_sorted_Sorted, IH.
Qed.

End SortFacts.

(** Under a total order the sorted permutation of a list is unique: the
    result of sorting does not depend on the order of the input. *)
Section SortUnique.
Variable A : Type.
Variable leb : A -> A -> bool.
Hypothesis leb_total : forall x y, leb x y = true \/ leb y x = true.
Hypothesis leb_antisym : forall x y, leb x y = true -> leb y x = true -> x = y.
Hypothesis leb_trans :
  forall x y z, leb x y = true -> leb y z = true -> leb x z = true.

Lemma StronglySorted_perm_unique (l1 : list A) :
  forall l2,
    StronglySorted (le_of leb) l1 -> StronglySorted (le_of leb) l2 ->
    Permutation l1 l2 -> l1 = l2.
Proof.
  induction l1 as [|x l1 IH]; intros l2 H1 H2 Hperm.
  - apply Permutation_nil in Hperm. now subst.
  - destruct l2 as [|y l2].
    + apply Permutation_sym, Permutation_nil in Hperm. discriminate.
    + inversion H1 as [|? ? Hs1 Hall1]; subst.
      inversion H2 as [|? ? Hs2 Hall2]; subst.
      assert (Hxy : x = y).
      { assert (Hx : In x (y :: l2))
          by (eapply Permutation_in; [exact Hperm | now left]).
        assert (Hy : In y (x :: l1))
          by (eapply Permutation_in; [apply Permutation_sym; exact Hperm | now left]).
        destruct Hx as [<-|Hx]; [reflexivity|].
        destruct Hy as [->|Hy]; [reflexivity|].
        rewrite Forall_forall in Hall1, Hall2.
        apply leb_antisym; [apply Hall1, Hy | apply Hall2, Hx]. }
      subst y. f_equal. apply IH; try assumption.
      eapply Permutation_cons_inv; exact Hperm.
Qed.

Lemma sort_by_any_order (l1 l2 : list A) :
  Permutation l1 l2 -> sort_by leb l1 = sort_by leb l2.
Proof.
  intros Hperm.
  assert (Htrans : Relations_1.Transitive (le_of leb))
    by (intros x y z; apply leb_trans).
  apply StronglySorted_perm_unique.
  - apply Sorted_StronglySorted; [exact Htrans | now apply sort_by_Sorted].
  - apply Sorted_StronglySorted; [exact Htrans | now apply sort_by_Sorted].
  - eapply Permutation_trans; [apply sort_by_perm|].
    eapply Permutation_trans; [exact Hperm|].
    apply Permutation_sym, sort_by_perm.
Qed.

End SortUnique.

Lemma string_leb_trans (a b c : string) :
  String.leb a b = true -> String.leb b c = true -> String.leb a c = true.
Proof.
  revert b c; induction a as [|x a IH]; intros [|y b] [|z c];
    unfold String.leb; simpl; try (intros; reflexivity || discriminate).
  unfold Ascii.compare.
  destruct (N.compare_spec (N_of_ascii x) (N_of_ascii y)) as [Exy|Exy|Exy],
           (N.compare_spec (N_of_ascii y) (N_of_ascii z)) as [Eyz|Eyz|Eyz],
           (N.compare_spec (N_of_ascii x) (N_of_ascii z)) as [Exz|Exz|Exz];
    try (intros; reflexivity || discriminate); try lia.
  apply IH.
Qed.

(** [sort.Strings] of the keys of a map does not depend on the order in which
    the map is ranged over. *)
Lemma sort_Strings_any_order (l1 l2 : list string) :
  Permutation l1 l2 -> sort_Strings l1 = sort_Strings l2.
Proof.
  apply sort_by_any_order.
  - apply String.leb_total.
  - apply String.leb_antisym.
  - apply string_leb_trans.
Qed.

Lemma varNames_any_order (keys : list string) :
  Permutation keys (map fst varGen) -> sort_Strings keys = varNames.
Proof. apply sort_Strings_any_order. Qed.

(** The order of the sort stage is total. *)
Lemma Datum_compare_antisym (a b : Datum) :
  Datum_compare b a = CompOpp (Datum_compare a b).
Proof.
  destruct a as [|x|x|x], b as [|y|y|y]; simpl; try reflexivity.
  - destruct x, y; reflexivity.
  - apply Z.compare_antisym.
  - apply String.compare_antisym.
Qed.

Lemma row_compare_antisym (ordering : ColumnOrdering) (a b : DTuple) :
  row_compare ordering b a = CompOpp (row_compare ordering a b).
Proof.
  induction ordering as [|o rest IH]; simpl; [reflexivity|].
  rewrite (Datum_compare_antisym (nth (ColumnOrderInfo.ColIdx o) a DNull)
                                 (nth (ColumnOrderInfo.ColIdx o) b DNull)).
  destruct (ColumnOrderInfo.Direction o);
    destruct (Datum_compare _ _); simpl; auto.
Qed.

Lemma row_leb_total (ordering : ColumnOrdering) (a b : DTuple) :
  row_leb ordering a b = true \/ row_leb ordering b a = true.
Proof.
  unfold row_leb. rewrite (row_compare_antisym ordering a b).
  destruct (row_compare ordering a b); simpl; auto.
Qed.

Lemma sortRows_Sorted (ordering : ColumnOrdering) (rows : list DTuple) :
  Sorted (le_of (row_leb ordering)) (sortRows ordering rows).
Proof. apply sort_by_Sorted, row_leb_total. Qed.

Lemma sortRows_perm (ordering : ColumnOrdering) (rows : list DTuple) :
  Permutation (sortRows ordering rows) rows.
Proof. apply sort_by_perm. Qed.

Lemma sort_Strings_Sorted (l : list string) :
  Sorted (le_of String.leb) (sort_Strings l).
Proof. apply sort_by_Sorted, String.leb_total. Qed.

(** ** Row containers and the monad *)

Lemma update_nth_length {A : Type} (i : nat) (f : A -> A) (l : list A) :
  length (update_nth i f l) = length l.
Proof.
  revert i; induction l as [|x l IH]; intros [|i]; simpl; auto.
Qed.

Lemma nth_error_update_nth_eq {A : Type} (i : nat) (f : A -> A) (l : list A) :
  nth_error (update_nth i f l) i = option_map f (nth_error l i).
Proof.
  revert i; induction l as [|x l IH]; intros [|i]; simpl; auto.
Qed.

Lemma nth_error_update_nth_ne {A : Type} (i j : nat) (f : A -> A) (l : list A) :
  i <> j -> nth_error (update_nth i f l) j = nth_error l j.
Proof.
  revert i j; induction l as [|x l IH]; intros [|i] [|j] Hij; simpl; auto;
    try congruence.
Qed.

Lemma add_row_length (v : nat) (row : DTuple) (s : pstate) :
  length (containers (add_row v row s)) = length (containers s).
Proof. unfold add_row; simpl. apply update_nth_length. Qed.

Lemma add_rows_length (v : nat) (rows : list DTuple) (s : pstate) :
  length (containers (add_rows v rows s)) = length (containers s).
Proof.
  unfold add_rows. revert s; induction rows as [|r rows IH]; intros s; simpl; auto.
  rewrite IH. apply add_row_length.
Qed.

Lemma add_rows_app (v : nat) (r1 r2 : list DTuple) (s : pstate) :
  add_rows v (r1 ++ r2) s = add_rows v r2 (add_rows v r1 s).
Proof. unfold add_rows. apply fold_left_app. Qed.

Lemma rows_of_add_row (v : valuesNode) (row : DTuple) (s : pstate) :
  vn_rows v < length (containers s) ->
  rows_of (add_row (vn_rows v) row s) v = (rows_of s v ++ [row])%list.
Proof.
  intros Hlt. unfold rows_of, add_row; simpl.
  rewrite nth_error_update_nth_eq.
  destruct (nth_error (containers s) (vn_rows v)) eqn:E; simpl; auto.
  apply nth_error_None in E. lia.
Qed.

Lemma rows_of_add_rows (v : valuesNode) (rows : list DTuple) (s : pstate) :
  vn_rows v < length (containers s) ->
  rows_of (add_rows (vn_rows v) rows s) v = (rows_of s v ++ rows)%list.
Proof.
  revert s; induction rows as [|r rows IH]; intros s Hlt.
  - simpl. now rewrite app_nil_r.
  - change (add_rows (vn_rows v) (r :: rows) s)
      with (add_rows (vn_rows v) rows (add_row (vn_rows v) r s)).
    rewrite IH by (rewrite add_row_length; exact Hlt).
    rewrite rows_of_add_row by exact Hlt.
    now rewrite <- app_assoc.
Qed.

Lemma newContainerValuesNode_run (columns : ResultColumns) (s : pstate) :
  exists s',
    newContainerValuesNode columns s
    = (Ok (mkValuesNode columns (length (containers s))), s')
    /\ containers s' = (containers s ++ [mkRowContainer [] false])%list
    /\ evalCtx_Database s' = evalCtx_Database s
    /\ skipSelectPrivilegeChecks s' = skipSelectPrivilegeChecks s
    /\ trace s' = trace s.
Proof. eexists; repeat split. Qed.

Lemma rows_of_fresh (columns : ResultColumns) (s s' : pstate) :
  containers s' = (containers s ++ [mkRowContainer [] false])%list ->
  rows_of s' (mkValuesNode columns (length (containers s))) = []
  /\ length (containers s) < length (containers s').
Proof.
  intros E. unfold rows_of; simpl. rewrite E. split.
  - rewrite nth_error_app2 by lia. now rewrite Nat.sub_diag.
  - rewrite length_app; simpl; lia.
Qed.

Lemma AddRow_ok (p : planner) (v : valuesNode) (row : DTuple) (s : pstate) :
  never_fails p -> vn_rows v < length (containers s) ->
  AddRow p v row s = (Ok tt, add_row (vn_rows v) row s).
Proof.
  intros Hnf Hlt. unfold AddRow.
  destruct (nth_error (containers s) (vn_rows v)) eqn:E.
  - now rewrite Hnf.
  - apply nth_error_None in E. lia.
Qed.

Lemma AddRow_or_close_ok (p : planner) (v : valuesNode) (row : DTuple) (s : pstate) :
  never_fails p -> vn_rows v < length (containers s) ->
  AddRow_or_close p v row s = (Ok tt, add_row (vn_rows v) row s).
Proof.
  intros Hnf Hlt. unfold AddRow_or_close, onErr. now rewrite AddRow_ok.
Qed.

(** A loop whose body adds one row per element adds them all, in order. *)
Lemma forM_add_rows {A : Type} (p : planner) (v : valuesNode) (l : list A)
  (body : A -> M unit) (f : A -> DTuple) (s : pstate) :
  never_fails p -> vn_rows v < length (containers s) ->
  (forall x s1, In x l -> body x s1 = AddRow_or_close p v (f x) s1) ->
  forM_ l body s = (Ok tt, add_rows (vn_rows v) (map f l) s).
Proof.
  intros Hnf. revert s; induction l as [|x l IH]; intros s Hlt Hbody.
  - reflexivity.
  - simpl. unfold bind. rewrite Hbody by (left; reflexivity).
    rewrite AddRow_or_close_ok by assumption.
    rewrite IH.
    + reflexivity.
    + rewrite add_row_length. exact Hlt.
    + intros y s1 Hy. apply Hbody. right; exact Hy.
Qed.

(** ** The claims *)

Section Claims.
Context {C : Collaborators}.

(** *** SHOW ALL and SHOW <name> *)

Lemma varNames_eq :
  varNames
  = [ "DATABASE"; "DEFAULT_TRANSACTION_ISOLATION"; "MAX_INDEX_KEYS";
      "SEARCH_PATH"; "SYNTAX"; "TIME ZONE"; "TRANSACTION ISOLATION LEVEL";
      "TRANSACTION PRIORITY" ].
Proof. reflexivity. Qed.

Lemma varNames_registered (k : string) :
  In k varNames <-> In k (map fst varGen).
Proof.
  split; apply Permutation_in.
  - apply sort_by_perm.
  - apply Permutation_sym, sort_by_perm.
Qed.

Lemma map_get_In {V : Type} (m : list (string * V)) (k : string) (v : V) :
  map_get m k = Some v -> In k (map fst m).
Proof.
  induction m as [|[k' v'] m IH]; simpl; [discriminate|].
  destruct (String.eqb_spec k' k) as [->|Hne]; intros H.
  - now left.
  - right. now apply IH.
Qed.

Lemma In_map_get {V : Type} (m : list (string * V)) (k : string) :
  In k (map fst m) -> exists v, map_get m k = Some v.
Proof.
  induction m as [|[k' v'] m IH]; simpl; [tauto|].
  intros [->|Hin].
  - rewrite String.eqb_refl. now eexists.
  - destruct (k' =? k)%string; [now eexists | now apply IH].
Qed.

Lemma Show_all_body (p : planner) (v : valuesNode) (vName : string) (s : pstate) :
  In vName varNames ->
  (gen <- lift (map_call varGen vName) ;;
   AddRow_or_close p v [DString vName; DString (gen p)]) s
  = AddRow_or_close p v [DString vName; DString (var_value p vName)] s.
Proof.
  intros Hin. apply varNames_registered, In_map_get in Hin as [gen Hgen].
  unfold bind, lift, map_call, var_value. now rewrite Hgen.
Qed.

Lemma Show_constructor_ALL (p : planner) (columns : ResultColumns) (s : pstate) :
  never_fails p ->
  exists s',
    Show_constructor "ALL" columns p s
    = (Ok (PlanValues (mkValuesNode columns (length (containers s)))), s')
    /\ rows_of s' (mkValuesNode columns (length (containers s))) = ShowAll_rows p.
Proof.
  intros Hnf.
  destruct (newContainerValuesNode_run columns s) as (s1 & Hnew & Hcs & _).
  destruct (rows_of_fresh columns s s1 Hcs) as [Hrows Hlt].
  unfold Show_constructor.
  change ("ALL" =? "ALL")%string with true. cbv iota.
  unfold bind at 1. rewrite Hnew.
  unfold bind at 1.
  rewrite (forM_add_rows p (mkValuesNode columns (length (containers s)))
             varNames _
             (fun vName => [DString vName; DString (var_value p vName)]) s1 Hnf Hlt)
    by (intros x s2 Hx; apply Show_all_body; exact Hx).
  eexists. split; [reflexivity|].
  rewrite rows_of_add_rows by exact Hlt. rewrite Hrows. reflexivity.
Qed.

Lemma Show_constructor_single (p : planner) (name : string)
  (gen : planner -> string) (columns : ResultColumns) (s : pstate) :
  never_fails p -> map_get varGen name = Some gen ->
  exists s',
    Show_constructor name columns p s
    = (Ok (PlanValues (mkValuesNode columns (length (containers s)))), s')
    /\ rows_of s' (mkValuesNode columns (length (containers s))) = [[DString (gen p)]].
Proof.
  intros Hnf Hgen.
  assert (Hne : (name =? "ALL")%string = false).
  { destruct (String.eqb_spec name "ALL") as [->|]; [discriminate Hgen | reflexivity]. }
  destruct (newContainerValuesNode_run columns s) as (s1 & Hnew & Hcs & _).
  destruct (rows_of_fresh columns s s1 Hcs) as [Hrows Hlt].
  unfold Show_constructor. rewrite Hne.
  unfold bind at 1. rewrite Hnew.
  unfold bind at 1. unfold bind at 1. unfold lift, map_call. rewrite Hgen.
  rewrite AddRow_or_close_ok by assumption.
  eexists. split; [reflexivity|].
  rewrite rows_of_add_row by exact Hlt. rewrite Hrows. reflexivity.
Qed.

(** C8.  SHOW ALL has the two columns (Variable, Value) and returns one row
    per registered session variable, in strictly ascending order of the
    variable names; SHOW <name> of a registered variable has one column
    named after the variable and returns exactly one row, whose value is the
    one SHOW ALL shows for that variable. *)
Theorem Show_all_and_single (p : planner) (s : pstate) :
  never_fails p ->
  (forall n, ToUpper (Show_Name n) = "ALL" ->
     exists d node s',
       Show p n = Ok d
       /\ dn_columns d = [col "Variable" TypeString; col "Value" TypeString]
       /\ constructor d p s = (Ok node, s')
       /\ planRows s' node = ShowAll_rows p)
  /\ length (ShowAll_rows p) = length varGen
  /\ (forall k, In k varNames <-> In k (map fst varGen))
  /\ NoDup varNames
  /\ Sorted (fun a b => String.ltb a b = true) varNames
  /\ (forall n vName gen,
        ToUpper (Show_Name n) = vName -> map_get varGen vName = Some gen ->
        exists d node s' value,
          Show p n = Ok d
          /\ dn_columns d = [col vName TypeString]
          /\ constructor d p s = (Ok node, s')
          /\ planRows s' node = [[DString value]]
          /\ In [DString vName; DString value] (ShowAll_rows p)).
Proof.
  intros Hnf.
  split; [|split; [|split; [|split; [|split]]]].
  - intros n Hn.
    destruct (Show_constructor_ALL p
                [col "Variable" TypeString; col "Value" TypeString] s Hnf)
      as (s' & Hrun & Hrows).
    unfold Show. rewrite Hn.
    eexists _, _, s'. split; [reflexivity|]. split; [reflexivity|].
    split; [exact Hrun | exact Hrows].
  - unfold ShowAll_rows. rewrite length_map. unfold varNames, sort_Strings.
    rewrite sort_by_length. apply length_map.
  - apply varNames_registered.
  - rewrite varNames_eq. repeat constructor; simpl; intuition congruence.
  - rewrite varNames_eq. repeat constructor.
  - intros n vName gen Hn Hgen.
    assert (Hne : (vName =? "ALL")%string = false).
    { destruct (String.eqb_spec vName "ALL") as [->|]; [discriminate Hgen | reflexivity]. }
    destruct (Show_constructor_single p vName gen [col vName TypeString] s Hnf Hgen)
      as (s' & Hrun & Hrows).
    unfold Show. rewrite Hn. unfold Show_columns. rewrite Hne, Hgen.
    eexists _, _, s', (gen p). split; [reflexivity|]. split; [reflexivity|].
    split; [exact Hrun|]. split; [exact Hrows|].
    unfold ShowAll_rows.
    apply in_map_iff. exists vName. split.
    + unfold var_value. now rewrite Hgen.
    + apply varNames_registered. eapply map_get_In; eassumption.
Qed.

(** *** SHOW COLUMNS *)

Ltac mstep := unfold bind at 1; cbv beta iota.

Lemma trace_AddRow_or_close (p : planner) (v : valuesNode) (row : DTuple) (s : pstate) :
  trace (snd (AddRow_or_close p v row s)) = trace s.
Proof.
  unfold AddRow_or_close, onErr, AddRow.
  destruct (nth_error (containers s) (vn_rows v)); [|reflexivity].
  destruct (addRowErr p (rc_rows r) row); reflexivity.
Qed.

Lemma trace_forM_AddRow_or_close (p : planner) (v : valuesNode)
  (rows : list DTuple) (s : pstate) :
  trace (snd (forM_ rows (fun r => AddRow_or_close p v r) s)) = trace s.
Proof.
  revert s; induction rows as [|r rows IH]; intros s; [reflexivity|].
  simpl. unfold bind.
  pose proof (trace_AddRow_or_close p v r s) as Ht.
  destruct (AddRow_or_close p v r s) as [[[]|e|msg] s1]; simpl in *.
  - rewrite IH. exact Ht.
  - exact Ht.
  - exact Ht.
Qed.

(** C7.  The callback of SHOW COLUMNS first probes the database as root and
    reports a missing database as an undefined-database error naming it,
    without any further catalog access; then it probes the table as root and
    reports a missing table as an undefined-table error naming the qualified
    name; then, unless the name resolves to a virtual table, it requires a
    privilege of the user on the table; for a virtual table no privilege
    query is issued at all. *)
Theorem ShowColumns_checks (p : planner) (n : parser.ShowColumns)
  (tn : TableName.t) (s : pstate) :
  NormalizeWithDatabaseName (ShowColumns_Table n) (Database (session p)) = Ok tn ->
  exists d,
    ShowColumns p n = Ok d
    /\ (queryRowsAsRoot p checkSchema [TableName.Database tn] = Ok [] ->
        constructor d p s
        = (Err (errUndefinedDatabase (TableName.Database tn)),
           log (EvQueryRowsAsRoot checkSchema [TableName.Database tn]) s))
    /\ (forall r rs,
        queryRowsAsRoot p checkSchema [TableName.Database tn] = Ok (r :: rs) ->
        queryRowsAsRoot p checkTable [TableName.Database tn; TableName.Table tn]
        = Ok [] ->
        constructor d p s
        = (Err (errUndefinedTable (TableName_String tn)),
           log (EvQueryRowsAsRoot checkTable
                  [TableName.Database tn; TableName.Table tn])
               (log (EvQueryRowsAsRoot checkSchema [TableName.Database tn]) s)))
    /\ (forall r rs r' rs',
        queryRowsAsRoot p checkSchema [TableName.Database tn] = Ok (r :: rs) ->
        queryRowsAsRoot p checkTable [TableName.Database tn; TableName.Table tn]
        = Ok (r' :: rs') ->
        getVirtualTableDesc p tn = Ok None ->
        QueryRow p (evalCtx_Database s) checkTablePrivilege
          [TableName.Database tn; TableName.Table tn; User (session p)] = Ok [] ->
        fst (constructor d p s)
        = Err (errNoPrivileges (User (session p)) (TableName_String tn)))
    /\ (forall r rs r' rs' virDesc,
        queryRowsAsRoot p checkSchema [TableName.Database tn] = Ok (r :: rs) ->
        queryRowsAsRoot p checkTable [TableName.Database tn; TableName.Table tn]
        = Ok (r' :: rs') ->
        getVirtualTableDesc p tn = Ok (Some virDesc) ->
        trace (snd (constructor d p s))
        = (trace s
           ++ [ EvQueryRowsAsRoot checkSchema [TableName.Database tn];
                EvQueryRowsAsRoot checkTable
                  [TableName.Database tn; TableName.Table tn];
                EvGetVirtualTableDesc tn;
                EvQueryRows getColumns
                  [TableName.Database tn; TableName.Table tn] ])%list).
Proof.
  intros Hn. unfold ShowColumns. rewrite Hn.
  eexists. split; [reflexivity|].
  cbv beta iota delta [obind constructor].
  unfold ShowColumns_constructor.
  split; [|split; [|split]].
  - intros H1. mstep. unfold call_queryRowsAsRoot at 1. rewrite H1. reflexivity.
  - intros r rs H1 H2. mstep. unfold call_queryRowsAsRoot at 1. rewrite H1.
    cbv beta iota. mstep. change (length (r :: rs) =? 0)%nat with false.
    cbv beta iota delta [ret]. mstep. unfold call_queryRowsAsRoot at 1.
    rewrite H2. reflexivity.
  - intros r rs r' rs' H1 H2 H3 H4. mstep. unfold call_queryRowsAsRoot at 1.
    rewrite H1. cbv beta iota. mstep. change (length (r :: rs) =? 0)%nat with false.
    cbv beta iota delta [ret]. mstep. unfold call_queryRowsAsRoot at 1.
    rewrite H2. cbv beta iota. mstep. change (length (r' :: rs') =? 0)%nat with false.
    cbv beta iota delta [ret]. mstep. unfold call_getVirtualTableDesc at 1.
    rewrite H3. cbv beta iota. mstep. mstep. unfold call_QueryRow at 1.
    change (evalCtx_Database (log _ (log _ (log _ s)))) with (evalCtx_Database s).
    rewrite H4. reflexivity.
  - intros r rs r' rs' virDesc H1 H2 H3. mstep. unfold call_queryRowsAsRoot at 1.
    rewrite H1. cbv beta iota. mstep. change (length (r :: rs) =? 0)%nat with false.
    cbv beta iota delta [ret]. mstep. unfold call_queryRowsAsRoot at 1.
    rewrite H2. cbv beta iota. mstep. change (length (r' :: rs') =? 0)%nat with false.
    cbv beta iota delta [ret]. mstep. unfold call_getVirtualTableDesc at 1.
    rewrite H3. cbv beta iota. mstep. mstep.
    cbv beta iota delta [gets modify]. mstep.
    unfold defer. mstep. unfold call_queryRows at 1.
    match goal with |- context [queryRows p ?d ?q ?a] =>
      destruct (queryRows p d q a) as [rows|e|msg] end; cbv beta iota.
    + mstep. unfold newContainerValuesNode at 1. cbv beta iota. mstep.
      match goal with |- context [forM_ rows ?b ?st] =>
        pose proof (trace_forM_AddRow_or_close p
                      (mkValuesNode ShowColumns_columns
                         (length (containers
                            (log (EvQueryRows getColumns
                                    [TableName.Database tn; TableName.Table tn])
                               (set_evalCtx_Database (TableName.Database tn)
                                  (log (EvGetVirtualTableDesc tn)
                                     (log (EvQueryRowsAsRoot checkTable
                                             [TableName.Database tn; TableName.Table tn])
                                        (log (EvQueryRowsAsRoot checkSchema
                                                [TableName.Database tn]) s))))))))
                      rows st) as Ht;
        destruct (forM_ rows b st) as [[[]|e|msg] s1] end;
        simpl in Ht |- *; rewrite Ht; repeat rewrite <- app_assoc; reflexivity.
    + simpl. repeat rewrite <- app_assoc; reflexivity.
    + simpl. repeat rewrite <- app_assoc; reflexivity.
Qed.

(** *** SHOW INDEX *)

Lemma numbered_rows_app (tn : TableName.t) (index : IndexDescriptor.t)
  (start : nat) (a b : list (string * string * bool)) :
  numbered_rows tn index start (a ++ b)
  = (numbered_rows tn index start a
     ++ numbered_rows tn index (start + length a) b)%list.
Proof.
  unfold numbered_rows. revert start; induction a as [|x a IH]; intros start.
  - simpl. now rewrite Nat.add_0_r.
  - simpl. f_equal. rewrite IH. now rewrite Nat.add_succ_r.
Qed.

Lemma add_rows_cons (v : nat) (r : DTuple) (rows : list DTuple) (s : pstate) :
  add_rows v (r :: rows) s = add_rows v rows (add_row v r s).
Proof. reflexivity. Qed.

(** The first pass: the key columns from position [i] on. *)
Lemma ShowIndex_key_pass (p : planner) (v : valuesNode) (tn : TableName.t)
  (index : IndexDescriptor.t) (keys : list string) :
  never_fails p ->
  forall (i : nat) (s : pstate),
    vn_rows v < length (containers s) ->
    length keys <= length (skipn i (IndexDescriptor.ColumnDirections index)) ->
    range_foldM (fun i c (sequence : Z) =>
        direction <- lift (Go.index (IndexDescriptor.ColumnDirections index) i) ;;
        onErr (appendRow p v tn index c sequence (Direction_String direction) false)
              (fun err => Close v ;;; fail err) ;;;
        ret (sequence + 1)%Z)
      i keys (Z.of_nat (S i)) s
    = (Ok (Z.of_nat (S (i + length keys))),
       add_rows (vn_rows v)
         (numbered_rows tn index (S i)
            (map (fun cd => (fst cd, direction_text (snd cd), false))
                 (combine keys (skipn i (IndexDescriptor.ColumnDirections index)))))
         s).
Proof.
  intros Hnf. induction keys as [|c keys IH]; intros i s Hlt Hlen.
  - simpl. now rewrite Nat.add_0_r.
  - destruct (skipn i (IndexDescriptor.ColumnDirections index)) as [|d ds] eqn:Hskip;
      [simpl in Hlen; lia|].
    assert (Hnth : nth_error (IndexDescriptor.ColumnDirections index) i = Some d).
    { rewrite <- (Nat.add_0_r i), <- nth_error_skipn, Hskip. reflexivity. }
    assert (Hskip' : skipn (S i) (IndexDescriptor.ColumnDirections index) = ds).
    { change (S i) with (1 + i). rewrite <- skipn_skipn, Hskip. reflexivity. }
    cbn [range_foldM]. mstep. mstep. unfold lift, Go.index. rewrite Hnth.
    cbv beta iota. mstep. unfold onErr, appendRow.
    rewrite AddRow_ok by assumption. cbv beta iota delta [ret].
    replace (Z.of_nat (S i) + 1)%Z with (Z.of_nat (S (S i))) by lia.
    rewrite IH.
    + rewrite Hskip'. cbn [length]. rewrite Nat.add_succ_r.
      f_equal.
    + rewrite add_row_length. exact Hlt.
    + rewrite Hskip'. simpl in Hlen. lia.
Qed.

(** The second pass: the storing columns, numbered from [start]. *)
Lemma ShowIndex_store_pass (p : planner) (v : valuesNode) (tn : TableName.t)
  (index : IndexDescriptor.t) (stores : list string) :
  never_fails p ->
  forall (start : nat) (s : pstate),
    vn_rows v < length (containers s) ->
    foldM (fun (sequence : Z) c =>
        onErr (appendRow p v tn index c sequence "N/A" true)
              (fun err => Close v ;;; fail err) ;;;
        ret (sequence + 1)%Z)
      stores (Z.of_nat start) s
    = (Ok (Z.of_nat (start + length stores)),
       add_rows (vn_rows v)
         (numbered_rows tn index start (map (fun c => (c, "N/A", true)) stores))
         s).
Proof.
  intros Hnf. induction stores as [|c stores IH]; intros start s Hlt.
  - simpl. now rewrite Nat.add_0_r.
  - cbn [foldM]. mstep. mstep. unfold onErr, appendRow.
    rewrite AddRow_ok by assumption. cbv beta iota delta [ret].
    replace (Z.of_nat start + 1)%Z with (Z.of_nat (S start)) by lia.
    rewrite IH.
    + cbn [length]. rewrite Nat.add_succ_r. f_equal.
    + rewrite add_row_length. exact Hlt.
Qed.

Lemma ShowIndex_index_run (p : planner) (v : valuesNode) (tn : TableName.t)
  (index : IndexDescriptor.t) (s : pstate) :
  never_fails p ->
  vn_rows v < length (containers s) ->
  directions_cover index ->
  ShowIndex_index p v tn index s
  = (Ok tt, add_rows (vn_rows v) (spec_index_rows tn index) s).
Proof.
  intros Hnf Hlt Hcov. unfold ShowIndex_index. cbv zeta. mstep.
  rewrite (ShowIndex_key_pass p v tn index _ Hnf 0 s Hlt)
    by (exact Hcov).
  cbv beta iota. mstep.
  rewrite (ShowIndex_store_pass p v tn index _ Hnf)
    by (rewrite add_rows_length; exact Hlt).
  cbv beta iota delta [ret].
  unfold spec_index_rows, index_cells.
  rewrite numbered_rows_app, add_rows_app.
  rewrite length_map, length_combine.
  unfold directions_cover, len in Hcov.
  rewrite Nat.min_l by exact Hcov.
  reflexivity.
Qed.

Lemma ShowIndex_indexes_run (p : planner) (v : valuesNode) (tn : TableName.t)
  (indexes : list IndexDescriptor.t) :
  never_fails p ->
  Forall directions_cover indexes ->
  forall s,
    vn_rows v < length (containers s) ->
    forM_ indexes (ShowIndex_index p v tn) s
    = (Ok tt, add_rows (vn_rows v) (flat_map (spec_index_rows tn) indexes) s).
Proof.
  intros Hnf Hall. induction Hall as [|index indexes Hcov Hall IH]; intros s Hlt.
  - reflexivity.
  - cbn [forM_ flat_map]. mstep.
    rewrite ShowIndex_index_run by assumption. cbv beta iota.
    rewrite IH by (rewrite add_rows_length; exact Hlt).
    now rewrite add_rows_app.
Qed.

(** C5.  The callback of SHOW INDEX emits, for the primary index and then
    for each secondary index in descriptor order, one row per key column
    with the direction of the column ("ASC" or "DESC"), then one row per
    storing column with the direction "N/A"; the rows of an index are
    numbered 1, 2, ... across both passes.  For an index with two key
    columns storing one column the loop body appends three rows numbered
    1, 2, 3, the last one with direction "N/A" and marked as storing. *)
Theorem ShowIndex_two_passes (p : planner) (n : parser.ShowIndex)
  (tn : TableName.t) (desc : TableDescriptor.t) (s : pstate) :
  NormalizeWithDatabaseName (ShowIndex_Table n) (Database (session p)) = Ok tn ->
  mustGetTableDesc p tn = Ok desc ->
  anyPrivilege p desc = None ->
  never_fails p ->
  Forall directions_cover
         (TableDescriptor.PrimaryIndex desc :: TableDescriptor.Indexes desc) ->
  (exists d node s',
     ShowIndex p n = Ok d
     /\ constructor d p s = (Ok node, s')
     /\ planRows s' node = spec_ShowIndex_rows tn desc)
  /\ (forall index c1 c2 d1 d2 ds c3 v st,
        IndexDescriptor.ColumnNames index = Go.of_list [c1; c2] ->
        IndexDescriptor.ColumnDirections index = d1 :: d2 :: ds ->
        IndexDescriptor.StoreColumnNames index = [c3] ->
        vn_rows v < length (containers st) ->
        ShowIndex_index p v tn index st
        = (Ok tt,
           add_rows (vn_rows v)
             [ [ DString (TableName.Table tn); DString (IndexDescriptor.Name index);
                 DBool (IndexDescriptor.Unique index); DInt 1;
                 DString c1; DString (direction_text d1); DBool false ];
               [ DString (TableName.Table tn); DString (IndexDescriptor.Name index);
                 DBool (IndexDescriptor.Unique index); DInt 2;
                 DString c2; DString (direction_text d2); DBool false ];
               [ DString (TableName.Table tn); DString (IndexDescriptor.Name index);
                 DBool (IndexDescriptor.Unique index); DInt 3;
                 DString c3; DString "N/A"; DBool true ] ]
             st)).
Proof.
  intros Hn Hdesc Hpriv Hnf Hcov. split.
  - unfold ShowIndex. rewrite Hn. cbn [obind]. rewrite Hdesc. cbn [obind].
    rewrite Hpriv.
    destruct (newContainerValuesNode_run ShowIndex_columns s)
      as (s1 & Hnew & Hcs & _).
    destruct (rows_of_fresh ShowIndex_columns s s1 Hcs) as [Hrows Hlt].
    eexists _, _, _. split; [reflexivity|].
    cbn [constructor]. unfold ShowIndex_constructor.
    mstep. rewrite Hnew. cbv beta iota. mstep.
    rewrite (ShowIndex_indexes_run p _ tn _ Hnf Hcov s1) by exact Hlt.
    cbv beta iota delta [ret]. split; [reflexivity|].
    cbn [planRows]. rewrite rows_of_add_rows by exact Hlt.
    rewrite Hrows. reflexivity.
  - intros index c1 c2 d1 d2 ds c3 v st Hk Hd Hs Hlt.
    rewrite (ShowIndex_index_run p v tn index st Hnf Hlt)
      by (unfold directions_cover, len; rewrite Hk, Hd; simpl; lia).
    unfold spec_index_rows, index_cells. rewrite Hk, Hd, Hs. reflexivity.
Qed.

(** *** showCreateInterleave *)

Lemma int_wrap_small (z : Z) :
  (- 2 ^ 63 <= z < 2 ^ 63)%Z -> int_wrap z = z.
Proof.
  intros Hz. unfold int_wrap. rewrite Z.mod_small; lia.
Qed.

Lemma sum_SharedPrefixLen_bounds (ancestors : list Ancestor.t) :
  Forall (fun a => uint32 (Ancestor.SharedPrefixLen a)) ancestors ->
  (0 <= sum_SharedPrefixLen ancestors
   <= Z.of_nat (length ancestors) * (2 ^ 32 - 1))%Z.
Proof.
  induction 1 as [|a l Ha Hl IH]; simpl sum_SharedPrefixLen; simpl length.
  - lia.
  - unfold uint32 in Ha. lia.
Qed.

Lemma fold_int_wrap_sum (ancestors : list Ancestor.t) :
  Forall (fun a => uint32 (Ancestor.SharedPrefixLen a)) ancestors ->
  forall acc : Z,
    (0 <= acc)%Z ->
    (acc + Z.of_nat (length ancestors) * (2 ^ 32 - 1) < 2 ^ 63)%Z ->
    fold_left (fun acc ancestor => int_wrap (acc + Ancestor.SharedPrefixLen ancestor)%Z)
              ancestors acc
    = (acc + sum_SharedPrefixLen ancestors)%Z.
Proof.
  induction 1 as [|a l Ha Hl IH]; intros acc Hacc Hbound.
  - simpl. lia.
  - simpl fold_left. simpl sum_SharedPrefixLen. simpl length in Hbound.
    unfold uint32 in Ha.
    rewrite int_wrap_small by lia.
    rewrite IH by lia. lia.
Qed.

(** Without overflow the [int] variable holds the sum. *)
Lemma sharedPrefixLen_of_sum (ancestors : list Ancestor.t) :
  wf_ancestors ancestors ->
  sharedPrefixLen_of ancestors = sum_SharedPrefixLen ancestors.
Proof.
  intros [Hall Hlen]. unfold sharedPrefixLen_of.
  rewrite fold_int_wrap_sum; [reflexivity | exact Hall | lia | nia].
Qed.

Lemma index_last {A : Type} (l : list A) (x : A) :
  Go.index (l ++ [x]) (length (l ++ [x]) - 1) = Ok x.
Proof.
  unfold Go.index. rewrite length_app. simpl.
  replace (length l + 1 - 1) with (length l) by lia.
  rewrite nth_error_app2 by lia. now rewrite Nat.sub_diag.
Qed.

Lemma firstn_elems_spare {A : Type} (s : slice A) (n : nat) :
  n <= len s -> firstn n (elems s ++ spare s) = firstn n (elems s).
Proof.
  intros Hn. rewrite firstn_app.
  replace (n - length (elems s)) with 0 by (unfold len in Hn; lia).
  simpl. apply app_nil_r.
Qed.

(** C4, as amended.  [showCreateInterleave] renders nothing for an index
    without interleave ancestors.  Otherwise it looks up the table of the
    last ancestor of the list only, and returns the error of that lookup if
    it fails; with N the sum of the shared-prefix lengths of all the
    ancestors, it renders [ INTERLEAVE IN PARENT <parent> (<names>)] where
    the names, rendered by [parser.AsString], are exactly the first N key
    columns of the index when N is at most their number; when N exceeds
    their number but not the capacity of the slice that holds them, the
    names are all the key columns followed by the N - len entries of the
    backing array behind them; when N exceeds the capacity the function
    panics. *)
Theorem showCreateInterleave_clause (p : planner) (idx : IndexDescriptor.t) :
  (IndexDescriptor.Ancestors idx = [] -> showCreateInterleave p idx = Ok "")
  /\ (forall ancestors last,
        IndexDescriptor.Ancestors idx = (ancestors ++ [last])%list ->
        wf_ancestors (IndexDescriptor.Ancestors idx) ->
        (forall e,
           GetTableDescFromID p (Ancestor.TableID last) = Err e ->
           showCreateInterleave p idx = Err e)
        /\ (forall parent,
              GetTableDescFromID p (Ancestor.TableID last) = Ok parent ->
              ((sum_SharedPrefixLen (IndexDescriptor.Ancestors idx)
                <= Z.of_nat (len (IndexDescriptor.ColumnNames idx)))%Z ->
               showCreateInterleave p idx
               = Ok (spec_interleave_clause (TableDescriptor.Name parent)
                       (firstn (Z.to_nat (sum_SharedPrefixLen
                                            (IndexDescriptor.Ancestors idx)))
                               (elems (IndexDescriptor.ColumnNames idx)))))
              /\ ((Z.of_nat (len (IndexDescriptor.ColumnNames idx))
                   < sum_SharedPrefixLen (IndexDescriptor.Ancestors idx)
                   <= Z.of_nat (cap (IndexDescriptor.ColumnNames idx)))%Z ->
                  showCreateInterleave p idx
                  = Ok (spec_interleave_clause (TableDescriptor.Name parent)
                          (elems (IndexDescriptor.ColumnNames idx)
                           ++ firstn (Z.to_nat (sum_SharedPrefixLen
                                                  (IndexDescriptor.Ancestors idx))
                                      - len (IndexDescriptor.ColumnNames idx))
                                     (spare (IndexDescriptor.ColumnNames idx)))))
              /\ ((Z.of_nat (cap (IndexDescriptor.ColumnNames idx))
                   < sum_SharedPrefixLen (IndexDescriptor.Ancestors idx))%Z ->
                  exists msg, showCreateInterleave p idx = Panic msg))).
Proof.
  split.
  - intros H. unfold showCreateInterleave. now rewrite H.
  - intros ancestors last Hanc Hwf.
    pose proof (sum_SharedPrefixLen_bounds _ (proj1 Hwf)) as [Hpos _].
    assert (Hhead :
              showCreateInterleave p idx
              = obind (GetTableDescFromID p (Ancestor.TableID last))
                  (fun parentTable =>
                     obind (slice_to (IndexDescriptor.ColumnNames idx)
                              (sum_SharedPrefixLen (IndexDescriptor.Ancestors idx)))
                       (fun prefix =>
                          Ok (" INTERLEAVE IN PARENT "
                              ++ TableDescriptor.Name parentTable
                              ++ " (" ++ quoteNames (elems prefix) ++ ")")))).
    { unfold showCreateInterleave.
      rewrite sharedPrefixLen_of_sum by exact Hwf.
      rewrite Hanc.
      replace (length (ancestors ++ [last]) =? 0)%nat with false
        by (rewrite length_app; simpl; symmetry; apply Nat.eqb_neq; lia).
      cbv zeta. rewrite index_last. reflexivity. }
    split.
    + intros e He. rewrite Hhead, He. reflexivity.
    + intros parent Hparent. rewrite Hhead, Hparent. cbn [obind].
      unfold slice_to.
      replace (0 <=? sum_SharedPrefixLen (IndexDescriptor.Ancestors idx))%Z with true
        by (symmetry; apply Z.leb_le; lia).
      cbn [andb]. split; [|split].
      * intros Hsum.
        replace (sum_SharedPrefixLen (IndexDescriptor.Ancestors idx)
                 <=? Z.of_nat (cap (IndexDescriptor.ColumnNames idx)))%Z with true
          by (symmetry; apply Z.leb_le; unfold cap, len in *; lia).
        cbn [obind elems]. rewrite firstn_elems_spare by lia.
        reflexivity.
      * intros [Hlo Hhi].
        replace (sum_SharedPrefixLen (IndexDescriptor.Ancestors idx)
                 <=? Z.of_nat (cap (IndexDescriptor.ColumnNames idx)))%Z with true
          by (symmetry; apply Z.leb_le; lia).
        cbn [obind elems]. rewrite firstn_app.
        rewrite firstn_all2 by (unfold len in Hlo; lia).
        reflexivity.
      * intros Hhi.
        replace (sum_SharedPrefixLen (IndexDescriptor.Ancestors idx)
                 <=? Z.of_nat (cap (IndexDescriptor.ColumnNames idx)))%Z with false
          by (symmetry; apply Z.leb_gt; lia).
        cbn [obind]. eexists. reflexivity.
Qed.

Lemma slice_to_no_panic {A : Type} (s : slice A) (n : Z) :
  (0 <= n)%Z ->
  ((exists r, slice_to s n = Ok r) <-> (n <= Z.of_nat (cap s))%Z)
  /\ ((exists msg, slice_to s n = Panic msg) <-> (Z.of_nat (cap s) < n)%Z).
Proof.
  intros Hn. unfold slice_to.
  replace (0 <=? n)%Z with true by (symmetry; apply Z.leb_le; exact Hn).
  cbn [andb].
  destruct (Z.leb_spec n (Z.of_nat (cap s))) as [Hle|Hgt].
  - split; split; intros H; try lia.
    + now eexists.
    + destruct H as [msg H]; discriminate.
  - split; split; intros H; try lia.
    + destruct H as [r H]; discriminate.
    + now eexists.
Qed.

Lemma sum_bounds_each (ancestors : list Ancestor.t) (bound : Z) :
  Forall (fun a => uint32 (Ancestor.SharedPrefixLen a)) ancestors ->
  (sum_SharedPrefixLen ancestors <= bound)%Z ->
  Forall (fun a => (Ancestor.SharedPrefixLen a <= bound)%Z) ancestors.
Proof.
  induction 1 as [|a l Ha Hl IH]; intros Hsum; constructor.
  - simpl in Hsum.
    pose proof (sum_SharedPrefixLen_bounds _ Hl) as [Hp _]. lia.
  - apply IH. simpl in Hsum. unfold uint32 in Ha. lia.
Qed.

(** C10, as amended.  For an index with at least one interleave ancestor
    whose last ancestor's table is found, [showCreateInterleave] slices the
    key-column names at N, the sum of the shared-prefix lengths of all the
    ancestors, without a bounds check: it returns a clause exactly when N is
    at most the capacity of the key-column slice and panics exactly when N
    exceeds it.  N at most the number of key columns is therefore sufficient,
    and it implies the per-ancestor invariant; the per-ancestor invariant
    alone does not prevent the panic. *)
Theorem showCreateInterleave_slice_bounds (p : planner) (idx : IndexDescriptor.t)
  (ancestors : list Ancestor.t) (last : Ancestor.t) (parent : TableDescriptor.t) :
  IndexDescriptor.Ancestors idx = (ancestors ++ [last])%list ->
  wf_ancestors (IndexDescriptor.Ancestors idx) ->
  GetTableDescFromID p (Ancestor.TableID last) = Ok parent ->
  ((exists text, showCreateInterleave p idx = Ok text)
   <-> (sum_SharedPrefixLen (IndexDescriptor.Ancestors idx)
        <= Z.of_nat (cap (IndexDescriptor.ColumnNames idx)))%Z)
  /\ ((exists msg, showCreateInterleave p idx = Panic msg)
      <-> (Z.of_nat (cap (IndexDescriptor.ColumnNames idx))
           < sum_SharedPrefixLen (IndexDescriptor.Ancestors idx))%Z)
  /\ ((sum_SharedPrefixLen (IndexDescriptor.Ancestors idx)
       <= Z.of_nat (len (IndexDescriptor.ColumnNames idx)))%Z ->
      (exists text, showCreateInterleave p idx = Ok text)
      /\ per_ancestor_invariant idx)
  /\ (exists idx',
        per_ancestor_invariant idx'
        /\ wf_ancestors (IndexDescriptor.Ancestors idx')
        /\ exists msg, showCreateInterleave p idx' = Panic msg).
Proof.
  intros Hanc Hwf Hparent.
  pose proof (sum_SharedPrefixLen_bounds _ (proj1 Hwf)) as [Hpos _].
  destruct (slice_to_no_panic (IndexDescriptor.ColumnNames idx) _ Hpos)
    as [Hok Hpanic].
  assert (Hrun : showCreateInterleave p idx
                 = (prefix <-? slice_to (IndexDescriptor.ColumnNames idx)
                                 (sum_SharedPrefixLen (IndexDescriptor.Ancestors idx)) ;;
                    Ok (" INTERLEAVE IN PARENT " ++ TableDescriptor.Name parent
                        ++ " (" ++ quoteNames (elems prefix) ++ ")"))).
  { unfold showCreateInterleave.
    rewrite sharedPrefixLen_of_sum by exact Hwf.
    rewrite Hanc.
    replace (length (ancestors ++ [last]) =? 0)%nat with false
      by (rewrite length_app; simpl; symmetry; apply Nat.eqb_neq; lia).
    cbv zeta. rewrite index_last. cbn [obind]. rewrite Hparent. reflexivity. }
  assert (Hok' : (exists text, showCreateInterleave p idx = Ok text)
                 <-> (sum_SharedPrefixLen (IndexDescriptor.Ancestors idx)
                      <= Z.of_nat (cap (IndexDescriptor.ColumnNames idx)))%Z).
  { rewrite <- Hok, Hrun. split.
    - intros [text H].
      destruct (slice_to _ _) as [r| |]; [now eexists | discriminate | discriminate].
    - intros [r H]. rewrite H. now eexists. }
  split; [exact Hok'|]. split; [|split].
  - rewrite <- Hpanic, Hrun. split.
    + intros [msg H].
      destruct (slice_to _ _) as [r| |]; [discriminate | discriminate | now eexists].
    + intros [msg H]. rewrite H. now eexists.
  - intros Hsum. split.
    + apply Hok'. unfold cap, len in *. lia.
    + apply sum_bounds_each; [exact (proj1 Hwf) | exact Hsum].
  - (* one key column, two ancestors sharing that column *)
    exists (IndexDescriptor.mk "primary" true (Go.of_list ["k"]) [ASC] [] [1%Z]
              [ Ancestor.mk (Ancestor.TableID last) 1;
                Ancestor.mk (Ancestor.TableID last) 1 ]).
    split; [|split].
    + repeat constructor; simpl; lia.
    + split; [repeat constructor; simpl; unfold uint32; lia | simpl; lia].
    + unfold showCreateInterleave. cbn [IndexDescriptor.Ancestors length Nat.eqb].
      cbv zeta. cbn [Nat.sub Go.index nth_error obind Ancestor.TableID].
      rewrite Hparent. cbn [obind]. now eexists.
Qed.

(** *** SHOW CREATE TABLE: the PRIMARY KEY clause *)

Lemma append_assoc (a b c : string) : ((a ++ b) ++ c = a ++ (b ++ c))%string.
Proof. induction a as [|x a IH]; simpl; [reflexivity | now rewrite IH]. Qed.

Lemma append_nil_r (a : string) : (a ++ "" = a)%string.
Proof. induction a as [|x a IH]; simpl; [reflexivity | now rewrite IH]. Qed.

(** The loop over the visible columns appends one line per column and leaves
    in [primary] the clause, if some column is the first key column. *)
Lemma ShowCreateTable_columns_loop (desc : TableDescriptor.t)
  (cols : list ColumnDescriptor.t) :
  forall (i : nat) (buf primary buf' primary' : string),
    range_fold (ShowCreateTable_column desc) i cols (buf, primary)
    = Ok (buf', primary') ->
    buf' = buf ++ columns_text i cols
    /\ primary' = if (TableDescriptor.IsPhysicalTable desc && primary_on desc cols)%bool
                  then primary_clause desc else primary.
Proof.
  induction cols as [|c cols IH]; intros i buf primary buf' primary' Hrun.
  - simpl in Hrun. injection Hrun as <- <-. split.
    + simpl. now rewrite append_nil_r.
    + unfold primary_on.
      destruct (IndexDescriptor.ColumnIDs _); simpl;
        now rewrite ?andb_false_r.
  - cbn [range_fold] in Hrun.
    assert (Hbuf : forall t : string,
      (let buf0 := if (i =? 0)%nat then buf else buf ++ "," in
       let buf1 := buf0 ++ nl ++ tab in
       let buf2 := buf1 ++ quoteNames [ColumnDescriptor.Name c] ++ " "
                        ++ ColumnDescriptor.Type_SQL c in
       let buf3 := if ColumnDescriptor.Nullable c then buf2 ++ " NULL"
                   else buf2 ++ " NOT NULL" in
       match ColumnDescriptor.DefaultExpr c with
       | Some e => buf3 ++ " DEFAULT " ++ e
       | None => buf3
       end) ++ t = buf ++ column_text i c ++ t).
    { intros t. unfold column_text. cbv zeta.
      destruct (i =? 0)%nat, (ColumnDescriptor.Nullable c),
               (ColumnDescriptor.DefaultExpr c);
        repeat rewrite append_assoc; simpl; reflexivity. }
    unfold ShowCreateTable_column at 1 in Hrun. cbv zeta in Hrun.
    unfold primary_on.
    destruct (TableDescriptor.IsPhysicalTable desc) eqn:Hphys.
    + destruct (IndexDescriptor.ColumnIDs (TableDescriptor.PrimaryIndex desc))
        as [|id0 ids] eqn:Hids.
      * simpl in Hrun. discriminate.
      * cbn [Go.index nth_error obind] in Hrun.
        destruct (id0 =? ColumnDescriptor.ID c)%Z eqn:Hid;
          cbn [obind] in Hrun; apply IH in Hrun as [-> ->];
          (split; [cbn [columns_text]; apply Hbuf|]);
          unfold primary_on; rewrite Hids; cbn [existsb andb]; rewrite Hid;
          cbn [orb].
        -- now destruct (existsb _ cols).
        -- reflexivity.
    + cbn [obind] in Hrun. apply IH in Hrun as [-> ->].
      split; [cbn [columns_text]; apply Hbuf | reflexivity].
Qed.

(** A loop whose body only appends to the buffer appends what it produces
    from the empty buffer. *)
Lemma range_fold_appender {A : Type} (body : nat -> A -> string -> outcome string)
  (g : nat -> A -> outcome string) :
  (forall i x buf, body i x buf = (t <-? g i x ;; Ok (buf ++ t))) ->
  forall (l : list A) (i : nat) (buf : string),
    range_fold body i l buf = (t <-? range_fold body i l "" ;; Ok (buf ++ t)).
Proof.
  intros Hbody. induction l as [|x l IH]; intros i buf.
  - simpl. now rewrite append_nil_r.
  - cbn [range_fold]. rewrite (Hbody i x buf), (Hbody i x "").
    destruct (g i x) as [t|e|msg]; cbn [obind]; [|reflexivity|reflexivity].
    rewrite (IH (S i) (buf ++ t)), (IH (S i) ("" ++ t)).
    destruct (range_fold body (S i) l "") as [t'|e|msg]; cbn [obind];
      [|reflexivity|reflexivity].
    simpl. now rewrite append_assoc.
Qed.

Lemma ShowCreateTable_index_appender (p : planner) (l : list IndexDescriptor.t)
  (i : nat) (buf : string) :
  range_fold (ShowCreateTable_index p) i l buf
  = (t <-? range_fold (ShowCreateTable_index p) i l "" ;; Ok (buf ++ t)).
Proof.
  apply (range_fold_appender (ShowCreateTable_index p)
           (fun i idx => t <-? ShowCreateTable_index p i idx "" ;; Ok t)).
  intros j idx b. unfold ShowCreateTable_index.
  destruct (showCreateInterleave p idx); reflexivity.
Qed.

Lemma ShowCreateTable_family_appender (desc : TableDescriptor.t)
  (l : list ColumnFamilyDescriptor.t) (i : nat) (buf : string) :
  range_fold (ShowCreateTable_family desc) i l buf
  = (t <-? range_fold (ShowCreateTable_family desc) i l "" ;; Ok (buf ++ t)).
Proof.
  apply (range_fold_appender (ShowCreateTable_family desc)
           (fun i fam => t <-? ShowCreateTable_family desc i fam "" ;; Ok t)).
  intros j fam b. unfold ShowCreateTable_family.
  destruct (range_fold _ 0 _ []); reflexivity.
Qed.

Lemma ShowCreateTable_check_appender (l : list CheckConstraint.t)
  (i : nat) (buf : string) :
  range_fold ShowCreateTable_check i l buf
  = (t <-? range_fold ShowCreateTable_check i l "" ;; Ok (buf ++ t)).
Proof.
  apply (range_fold_appender ShowCreateTable_check
           (fun i e => t <-? ShowCreateTable_check i e "" ;; Ok t)).
  intros j e b. unfold ShowCreateTable_check. cbv zeta.
  destruct (0 <? String.length (CheckConstraint.Name e))%nat; cbn [obind];
    repeat rewrite append_assoc; reflexivity.
Qed.

Lemma AddRow_or_close_inv (p : planner) (v : valuesNode) (row : DTuple)
  (s s' : pstate) :
  AddRow_or_close p v row s = (Ok tt, s') ->
  s' = add_row (vn_rows v) row s /\ vn_rows v < length (containers s).
Proof.
  unfold AddRow_or_close, onErr, AddRow.
  destruct (nth_error (containers s) (vn_rows v)) eqn:E.
  - destruct (addRowErr p (rc_rows r) row).
    + cbv [bind Close modify fail]. discriminate.
    + intros H. injection H as <-. split; [reflexivity|].
      apply nth_error_Some. congruence.
  - discriminate.
Qed.

(** The text the callback of SHOW CREATE TABLE returns, in its pieces. *)
Lemma ShowCreateTable_text (p : planner) (n : parser.ShowCreateTable)
  (desc : TableDescriptor.t) (s s' : pstate) (node : planNode) :
  ShowCreateTable_constructor n desc p s = (Ok node, s') ->
  exists tail,
    ShowCreateTable_tail p desc = Ok tail
    /\ planRows s' node
       = [[ DString (NormalizableTableName_String (ShowCreateTable_Table n));
            DString (ShowCreateTable_header n
                     ++ columns_text 0 (TableDescriptor.VisibleColumns desc)
                     ++ primary_key_text desc ++ tail) ]].
Proof.
  intros Hrun.
  destruct (newContainerValuesNode_run ShowCreateTable_columns s)
    as (s1 & Hnew & Hcs & _).
  destruct (rows_of_fresh ShowCreateTable_columns s s1 Hcs) as [Hrows Hlt].
  unfold ShowCreateTable_constructor in Hrun.
  unfold bind at 1 in Hrun. rewrite Hnew in Hrun. cbv beta iota zeta in Hrun.
  unfold bind at 1 in Hrun. unfold lift at 1 in Hrun.
  destruct (range_fold (ShowCreateTable_column desc) 0 _ _)
    as [[buf primary]|e|msg] eqn:Hcols; [|discriminate|discriminate].
  apply ShowCreateTable_columns_loop in Hcols as [-> ->].
  cbv beta iota in Hrun.
  unfold bind at 1 in Hrun. unfold onErr at 1, lift at 1 in Hrun.
  rewrite ShowCreateTable_index_appender in Hrun.
  unfold ShowCreateTable_tail.
  destruct (range_fold (ShowCreateTable_index p) 0 _ "") as [indexes|e|msg];
    cbn [obind] in Hrun |- *;
    [|cbv [bind Close modify fail] in Hrun; discriminate|discriminate].
  unfold bind at 1 in Hrun. unfold lift at 1 in Hrun.
  rewrite ShowCreateTable_family_appender in Hrun.
  destruct (range_fold (ShowCreateTable_family desc) 0 _ "") as [families|e|msg];
    cbn [obind] in Hrun |- *; [|discriminate|discriminate].
  unfold bind at 1 in Hrun. unfold lift at 1 in Hrun.
  rewrite ShowCreateTable_check_appender in Hrun.
  destruct (range_fold ShowCreateTable_check 0 _ "") as [checks|e|msg];
    cbn [obind] in Hrun |- *; [|discriminate|discriminate].
  unfold bind at 1 in Hrun. unfold onErr at 1, lift at 1 in Hrun.
  destruct (showCreateInterleave p (TableDescriptor.PrimaryIndex desc))
    as [interleave|e|msg]; cbn [obind] in Hrun |- *;
    [|cbv [bind Close modify fail] in Hrun; discriminate|discriminate].
  unfold bind at 1 in Hrun.
  match type of Hrun with
  | context [AddRow_or_close p ?v ?row s1] =>
      destruct (AddRow_or_close p v row s1) as [[[]|e|msg] s2] eqn:Hadd;
        [|discriminate|discriminate]
  end.
  apply AddRow_or_close_inv in Hadd as [-> _].
  cbv [ret] in Hrun. injection Hrun as <- <-.
  eexists. split; [reflexivity|].
  cbn [planRows].
  rewrite (rows_of_add_row
             (mkValuesNode ShowCreateTable_columns (length (containers s))))
    by exact Hlt.
  rewrite Hrows. cbn [app]. unfold primary_key_text, ShowCreateTable_header.
  repeat rewrite append_assoc. reflexivity.
Qed.

Lemma NoDup_map_injective {A B : Type} (f : A -> B) (l : list A) (a b : A) :
  NoDup (map f l) -> In a l -> In b l -> f a = f b -> a = b.
Proof.
  induction l as [|x l IH]; simpl; [tauto|].
  intros Hnd Ha Hb Hf. inversion Hnd as [|? ? Hnotin Hnd']; subst.
  destruct Ha as [->|Ha], Hb as [->|Hb]; auto.
  - exfalso. apply Hnotin. rewrite Hf. now apply in_map.
  - exfalso. apply Hnotin. rewrite <- Hf. now apply in_map.
Qed.

Lemma primary_on_spec (desc : TableDescriptor.t) (cols : list ColumnDescriptor.t) :
  primary_on desc cols = true
  <-> exists id0 ids c,
        IndexDescriptor.ColumnIDs (TableDescriptor.PrimaryIndex desc) = id0 :: ids
        /\ In c cols /\ ColumnDescriptor.ID c = id0.
Proof.
  unfold primary_on.
  destruct (IndexDescriptor.ColumnIDs (TableDescriptor.PrimaryIndex desc))
    as [|id0 ids].
  - split; [discriminate|]. intros (? & ? & ? & H & _). discriminate.
  - rewrite existsb_exists. split.
    + intros (c & Hin & Heq). apply Z.eqb_eq in Heq.
      exists id0, ids, c. auto.
    + intros (id1 & ids1 & c & Hids & Hin & Hid).
      injection Hids as <- <-. exists c. split; [exact Hin|].
      apply Z.eqb_eq. congruence.
Qed.

Lemma ShowCreateTable_columns_loop_total (desc : TableDescriptor.t)
  (cols : list ColumnDescriptor.t) :
  (TableDescriptor.IsPhysicalTable desc = false
   \/ IndexDescriptor.ColumnIDs (TableDescriptor.PrimaryIndex desc) <> []) ->
  forall (i : nat) (acc : string * string),
    exists r, range_fold (ShowCreateTable_column desc) i cols acc = Ok r.
Proof.
  intros Hok. induction cols as [|c cols IH]; intros i [buf primary].
  - now eexists.
  - cbn [range_fold]. unfold ShowCreateTable_column at 1. cbv zeta.
    destruct (TableDescriptor.IsPhysicalTable desc).
    + destruct (IndexDescriptor.ColumnIDs (TableDescriptor.PrimaryIndex desc))
        as [|id0 ids]; [destruct Hok as [Hok|Hok]; [discriminate | now elim Hok]|].
      cbn [Go.index nth_error obind].
      destruct (id0 =? ColumnDescriptor.ID c)%Z; cbn [obind]; apply IH.
    + cbn [obind]. apply IH.
Qed.

Lemma ShowCreateTable_columns_loop_panic (desc : TableDescriptor.t)
  (c : ColumnDescriptor.t) (cols : list ColumnDescriptor.t)
  (i : nat) (acc : string * string) :
  TableDescriptor.IsPhysicalTable desc = true ->
  IndexDescriptor.ColumnIDs (TableDescriptor.PrimaryIndex desc) = [] ->
  range_fold (ShowCreateTable_column desc) i (c :: cols) acc
  = Panic "index out of range".
Proof.
  intros Hphys Hids. destruct acc as [buf primary].
  cbn [range_fold]. unfold ShowCreateTable_column at 1. cbv zeta.
  rewrite Hphys, Hids. reflexivity.
Qed.

(** C9.  For a physical table with at least one visible column, rendering
    CREATE TABLE reads [PrimaryIndex.ColumnIDs[0]] unguarded: with no key
    column in the primary index the column loop, and with it the callback,
    panics on the index; with at least one key column the column loop runs
    to its end.  So the callback avoids the panic only if the primary index
    has a key column. *)
Theorem ShowCreateTable_first_key_column (p : planner) (n : parser.ShowCreateTable)
  (desc : TableDescriptor.t) (s : pstate) :
  TableDescriptor.IsPhysicalTable desc = true ->
  TableDescriptor.VisibleColumns desc <> [] ->
  (IndexDescriptor.ColumnIDs (TableDescriptor.PrimaryIndex desc) = [] ->
   (forall acc,
      range_fold (ShowCreateTable_column desc) 0
                 (TableDescriptor.VisibleColumns desc) acc
      = Panic "index out of range")
   /\ fst (ShowCreateTable_constructor n desc p s) = Panic "index out of range")
  /\ (IndexDescriptor.ColumnIDs (TableDescriptor.PrimaryIndex desc) <> [] ->
      forall acc,
        exists r,
          range_fold (ShowCreateTable_column desc) 0
                     (TableDescriptor.VisibleColumns desc) acc
          = Ok r)
  /\ ((forall msg, fst (ShowCreateTable_constructor n desc p s) <> Panic msg) ->
      IndexDescriptor.ColumnIDs (TableDescriptor.PrimaryIndex desc) <> []).
Proof.
  intros Hphys Hvis.
  assert (Hpanic :
    IndexDescriptor.ColumnIDs (TableDescriptor.PrimaryIndex desc) = [] ->
    (forall acc,
       range_fold (ShowCreateTable_column desc) 0
                  (TableDescriptor.VisibleColumns desc) acc
       = Panic "index out of range")
    /\ fst (ShowCreateTable_constructor n desc p s) = Panic "index out of range").
  { intros Hids.
    destruct (TableDescriptor.VisibleColumns desc) as [|c cols] eqn:Hcols;
      [now elim Hvis|].
    split.
    - intros acc. now apply ShowCreateTable_columns_loop_panic.
    - unfold ShowCreateTable_constructor.
      unfold bind at 1. unfold newContainerValuesNode at 1. cbv beta iota zeta.
      unfold bind at 1. unfold lift at 1.
      rewrite Hcols, ShowCreateTable_columns_loop_panic by assumption.
      reflexivity. }
  split; [exact Hpanic|]. split.
  - intros Hids acc. apply ShowCreateTable_columns_loop_total. now right.
  - intros Hno Hids. apply Hpanic in Hids as [_ Hids]. now apply Hno in Hids.
Qed.

(** *** SHOW GRANTS *)

Lemma add_rows_evalCtx (v : nat) (rows : list DTuple) (s : pstate) :
  evalCtx_Database (add_rows v rows s) = evalCtx_Database s.
Proof.
  unfold add_rows. revert s; induction rows as [|r rows IH]; intros s; simpl; auto.
  now rewrite IH.
Qed.

(** *** Release of the row container on failure *)

Lemma live_not_closed (s : pstate) (i : nat) : live s i -> ~ closed_in s i.
Proof. intros (rc & H1 & H2) (rc' & H3 & H4). congruence. Qed.

Lemma Close_closes (v : valuesNode) (s : pstate) :
  vn_rows v < length (containers s) ->
  closed_in (snd (Close v s)) (vn_rows v).
Proof.
  intros Hlt. unfold Close, modify, closed_in. cbn [snd set_containers containers].
  rewrite nth_error_update_nth_eq.
  destruct (nth_error (containers s) (vn_rows v)) eqn:E.
  - eexists. split; reflexivity.
  - apply nth_error_None in E. lia.
Qed.

Lemma close_and_fail {A : Type} (v : valuesNode) (err : error) (s : pstate) :
  (Close v ;;; fail err) s = (@Err A err, snd (Close v s)).
Proof. reflexivity. Qed.

(** The callback of SHOW CREATE VIEW returns its early errors without
    closing the container it allocated. *)
Lemma ShowCreateView_constructor_leaks (p : planner) (n : parser.ShowCreateView)
  (tn : TableName.t) (desc : TableDescriptor.t) (s : pstate) :
  (forall e,
     ParseOneTraditional (TableDescriptor.ViewQuery desc) = Err e ->
     fst (ShowCreateView_constructor n tn desc p s)
     = Err (errViewParse e (TableName_String tn))
     /\ live (snd (ShowCreateView_constructor n tn desc p s)) (length (containers s)))
  /\ (ParseOneTraditional (TableDescriptor.ViewQuery desc) = Ok StmtOther ->
      fst (ShowCreateView_constructor n tn desc p s)
      = Err (errViewNotSelect (TableName_String tn))
      /\ live (snd (ShowCreateView_constructor n tn desc p s)) (length (containers s)))
  /\ (forall sel e,
        ParseOneTraditional (TableDescriptor.ViewQuery desc) = Ok (StmtSelect sel) ->
        Select_Columns p true sel = Err e ->
        fst (ShowCreateView_constructor n tn desc p s) = Err e
        /\ live (snd (ShowCreateView_constructor n tn desc p s)) (length (containers s))).
Proof.
  assert (Hlive : forall s1, containers s1
                             = (containers s ++ [mkRowContainer [] false])%list ->
                             live s1 (length (containers s))).
  { intros s1 H. exists (mkRowContainer [] false). split; [|reflexivity].
    rewrite H, nth_error_app2 by lia. now rewrite Nat.sub_diag. }
  unfold ShowCreateView_constructor, bind, newContainerValuesNode, onErr, lift.
  split; [|split].
  - intros e He. rewrite He. cbn [fst snd]. split; [reflexivity|].
    apply Hlive. reflexivity.
  - intros He. rewrite He. cbn [fst snd]. split; [reflexivity|].
    apply Hlive. reflexivity.
  - intros sel e He Hsel. rewrite He.
    cbv [ret modify defer call_Select]. cbn [skipSelectPrivilegeChecks
      set_skipSelectPrivilegeChecks log set_containers].
    rewrite Hsel. cbn [fst snd]. split; [reflexivity|].
    apply Hlive. reflexivity.
Qed.

(** So does the callback of SHOW CONSTRAINTS when the constraints cannot be
    read. *)
Lemma ShowConstraints_constructor_leaks (p : planner) (tn : TableName.t)
  (desc : TableDescriptor.t) (s : pstate) (e : error) :
  GetConstraintInfo p desc = Err e ->
  fst (ShowConstraints_constructor tn desc p s) = Err e
  /\ live (snd (ShowConstraints_constructor tn desc p s)) (length (containers s)).
Proof.
  intros He.
  unfold ShowConstraints_constructor, bind, newContainerValuesNode, lift.
  rewrite He. cbn [fst snd]. split; [reflexivity|].
  exists (mkRowContainer [] false). split; [|reflexivity].
  cbn [set_containers containers].
  rewrite nth_error_app2 by lia. now rewrite Nat.sub_diag.
Qed.

(** *** When errors surface *)

(** C1, as amended.  SHOW CREATE TABLE, SHOW CREATE VIEW, SHOW INDEX and
    SHOW CONSTRAINTS resolve the descriptor and require a privilege on it
    while the plan is built: a missing table or view and a missing privilege
    make the builder fail and no plan is returned.  SHOW COLUMNS, SHOW TABLES
    and SHOW GRANTS (with targets) build their plan without looking at the
    catalog, and report a missing database when the callback runs; the
    malformed stored text of a view is reported by the callback of
    SHOW CREATE VIEW. *)
Theorem errors_at_build_or_in_callback (p : planner) (s : pstate) :
  (* descriptor resolution and privilege check: at plan-build time *)
  (forall (n : NormalizableTableName) tn,
     NormalizeWithDatabaseName n (Database (session p)) = Ok tn ->
     (forall e, mustGetTableDesc p tn = Err e ->
                ShowCreateTable p (mkShowCreateTable n) = Err e
                /\ ShowIndex p (mkShowIndex n) = Err e
                /\ ShowConstraints p (mkShowConstraints n) = Err e)
     /\ (forall e, mustGetViewDesc p tn = Err e ->
                   ShowCreateView p (mkShowCreateView n) = Err e)
     /\ (forall desc e, mustGetTableDesc p tn = Ok desc ->
                        anyPrivilege p desc = Some e ->
                        ShowCreateTable p (mkShowCreateTable n) = Err e
                        /\ ShowIndex p (mkShowIndex n) = Err e
                        /\ ShowConstraints p (mkShowConstraints n) = Err e)
     /\ (forall desc e, mustGetViewDesc p tn = Ok desc ->
                        anyPrivilege p desc = Some e ->
                        ShowCreateView p (mkShowCreateView n) = Err e))
  (* SHOW COLUMNS: plan always built, missing database in the callback *)
  /\ (forall n tn,
        NormalizeWithDatabaseName (ShowColumns_Table n) (Database (session p)) = Ok tn ->
        exists d,
          ShowColumns p n = Ok d
          /\ (queryRowsAsRoot p checkSchema [TableName.Database tn] = Ok [] ->
              fst (constructor d p s)
              = Err (errUndefinedDatabase (TableName.Database tn))))
  (* SHOW TABLES *)
  /\ (forall name,
        name <> "" ->
        exists d,
          ShowTables p (mkShowTables name) = Ok d
          /\ (queryRowsAsRoot p checkSchema [name] = Ok [] ->
              fst (constructor d p s) = Err (errUndefinedDatabase name)))
  (* SHOW GRANTS *)
  /\ (forall n targets,
        ShowGrants_Targets n = Some targets ->
        exists d,
          ShowGrants p n = Ok d
          /\ (forall db dbs,
                TargetList.Databases targets = Some (db :: dbs) ->
                queryRowsAsRoot p checkSchema [db] = Ok [] ->
                fst (constructor d p s) = Err (errUndefinedDatabase db)))
  (* SHOW CREATE VIEW: malformed stored text in the callback *)
  /\ (forall n tn desc e,
        NormalizeWithDatabaseName (ShowCreateView_View n) (Database (session p)) = Ok tn ->
        mustGetViewDesc p tn = Ok desc ->
        anyPrivilege p desc = None ->
        ParseOneTraditional (TableDescriptor.ViewQuery desc) = Err e ->
        exists d,
          ShowCreateView p n = Ok d
          /\ fst (constructor d p s) = Err (errViewParse e (TableName_String tn))).
Proof.
  split; [|split; [|split; [|split]]].
  - intros n tn Hn.
    unfold ShowCreateTable, ShowIndex, ShowConstraints, ShowCreateView.
    cbn [ShowCreateTable_Table ShowIndex_Table ShowConstraints_Table
         ShowCreateView_View].
    rewrite Hn. cbn [obind].
    split; [|split; [|split]].
    + intros e He. rewrite He. auto.
    + intros e He. rewrite He. auto.
    + intros desc e Hd He. rewrite Hd. cbn [obind]. rewrite He. auto.
    + intros desc e Hd He. rewrite Hd. cbn [obind]. rewrite He. auto.
  - intros n tn Hn. unfold ShowColumns. rewrite Hn.
    eexists. split; [reflexivity|].
    cbn [constructor]. intros H.
    unfold ShowColumns_constructor. cbv zeta.
    unfold bind at 1. unfold call_queryRowsAsRoot at 1. rewrite H. reflexivity.
  - intros name Hname. unfold ShowTables. cbn [ShowTables_Database].
    apply String.eqb_neq in Hname. rewrite Hname. rewrite Hname.
    eexists. split; [reflexivity|].
    cbn [constructor]. intros H.
    unfold ShowTables_constructor.
    unfold bind at 1. unfold call_queryRowsAsRoot at 1. rewrite H. reflexivity.
  - intros n targets Ht. unfold ShowGrants. rewrite Ht.
    eexists. split; [reflexivity|].
    cbn [constructor]. intros db dbs Hdbs H.
    unfold ShowGrants_constructor.
    unfold bind at 1. unfold newContainerValuesNode at 1. cbv beta iota.
    unfold bind at 1. rewrite Hdbs.
    unfold bind at 1. cbn [foldM]. unfold bind at 1.
    unfold ShowGrants_database at 1.
    unfold bind at 1. unfold onErr at 1, checkFn at 1.
    unfold bind at 1. unfold call_queryRowsAsRoot at 1. rewrite H.
    reflexivity.
  - intros n tn desc e Hn Hd Hp He. unfold ShowCreateView.
    rewrite Hn. cbn [obind]. rewrite Hd. cbn [obind]. rewrite Hp.
    eexists. split; [reflexivity|].
    cbn [constructor].
    apply (ShowCreateView_constructor_leaks p n tn desc s). exact He.
Qed.

(** The callbacks that release their container on every error.  [steady]
    steps allocate nothing; [releasing v] steps moreover close [v] before
    they return an error; a [tidy] callback leaves no container of its own
    open behind an error. *)

Lemma steady_ret {A : Type} (a : A) : steady (ret a).
Proof. intros s r s' H. now injection H as _ <-. Qed.

Lemma steady_fail {A : Type} (e : error) : steady (@fail A e).
Proof. intros s r s' H. now injection H as _ <-. Qed.

Lemma steady_lift {A : Type} (o : outcome A) : steady (lift o).
Proof. intros s r s' H. now injection H as _ <-. Qed.

Lemma steady_gets {A : Type} (f : pstate -> A) : steady (gets f).
Proof. intros s r s' H. now injection H as _ <-. Qed.

Lemma steady_modify (f : pstate -> pstate) :
  (forall s, length (containers (f s)) = length (containers s)) ->
  steady (modify f).
Proof. intros Hf s r s' H. injection H as _ <-. apply Hf. Qed.

Lemma steady_bind {A B : Type} (m : M A) (k : A -> M B) :
  steady m -> (forall a, steady (k a)) -> steady (bind m k).
Proof.
  intros Hm Hk s r s' H. unfold bind in H.
  destruct (m s) as [[a|e|msg] s1] eqn:Em.
  - apply Hk in H. apply Hm in Em. congruence.
  - injection H as _ <-. eapply Hm; eassumption.
  - injection H as _ <-. eapply Hm; eassumption.
Qed.

Lemma steady_onErr {A : Type} (m : M A) (h : error -> M A) :
  steady m -> (forall e, steady (h e)) -> steady (onErr m h).
Proof.
  intros Hm Hh s r s' H. unfold onErr in H.
  destruct (m s) as [[a|e|msg] s1] eqn:Em.
  - injection H as _ <-. eapply Hm; eassumption.
  - apply Hh in H. apply Hm in Em. congruence.
  - injection H as _ <-. eapply Hm; eassumption.
Qed.

Lemma steady_defer {A : Type} (cleanup : pstate -> pstate) (body : M A) :
  (forall s, containers (cleanup s) = containers s) ->
  steady body -> steady (defer cleanup body).
Proof.
  intros Hc Hb s r s' H. unfold defer in H.
  destruct (body s) as [r1 s1] eqn:Eb. injection H as _ <-.
  rewrite Hc. eapply Hb; eassumption.
Qed.

Lemma steady_forM_ {A : Type} (l : list A) (body : A -> M unit) :
  (forall x, steady (body x)) -> steady (forM_ l body).
Proof.
  intros Hb. induction l as [|x l IH]; cbn [forM_].
  - apply steady_ret.
  - apply steady_bind; [apply Hb | intros _; exact IH].
Qed.

Lemma steady_foldM {A St : Type} (body : St -> A -> M St) (l : list A) :
  (forall st x, steady (body st x)) -> forall st, steady (foldM body l st).
Proof.
  intros Hb. induction l as [|x l IH]; intros st; cbn [foldM].
  - apply steady_ret.
  - apply steady_bind; [apply Hb | intros st'; apply IH].
Qed.

Lemma steady_log_call {A : Type} (f : pstate -> outcome A) (ev : event) :
  steady (fun s => (f s, log ev s)).
Proof. intros s r s' H. now injection H as _ <-. Qed.

Lemma steady_AddRow (p : planner) (v : valuesNode) (row : DTuple) :
  steady (AddRow p v row).
Proof.
  intros s r s' H. unfold AddRow in H.
  destruct (nth_error (containers s) (vn_rows v)); [|now injection H as _ <-].
  destruct (addRowErr p (rc_rows r0) row); injection H as _ <-;
    [reflexivity | apply add_row_length].
Qed.

Lemma steady_Close (v : valuesNode) : steady (Close v).
Proof.
  apply steady_modify. intros s. cbn [set_containers containers].
  apply update_nth_length.
Qed.

Lemma steady_checkFn (p : planner) (sql : string) (args : list string) :
  steady (checkFn p sql args).
Proof.
  apply steady_bind; [apply (steady_log_call (fun _ => _)) | intros; apply steady_ret].
Qed.

Lemma steady_queryFn (p : planner) (v : valuesNode) (sql : string)
  (args : list string) :
  steady (queryFn p v sql args).
Proof.
  apply steady_bind; [apply steady_log_call|].
  intros rows. apply steady_forM_. intros r. apply steady_AddRow.
Qed.

Lemma releasing_steady {A : Type} (v : valuesNode) (m : M A) :
  steady m -> (forall s e s', m s <> (Err e, s')) -> releasing v m.
Proof.
  intros Hs Hne. split; [exact Hs|]. intros s e s' _ H. now apply Hne in H.
Qed.

Lemma releasing_ret {A : Type} (v : valuesNode) (a : A) : releasing v (ret a).
Proof. apply releasing_steady; [apply steady_ret | discriminate]. Qed.

Lemma releasing_lift {A : Type} (v : valuesNode) (o : outcome A) :
  (forall e, o <> Err e) -> releasing v (lift o).
Proof.
  intros Ho. apply releasing_steady; [apply steady_lift|].
  intros s e s' H. injection H as H _. now apply Ho in H.
Qed.

Lemma releasing_bind {A B : Type} (v : valuesNode) (m : M A) (k : A -> M B) :
  releasing v m -> (forall a, releasing v (k a)) -> releasing v (bind m k).
Proof.
  intros [Hms Hm] Hk. split.
  - apply steady_bind; [exact Hms | intros a; apply Hk].
  - intros s e s' Hlt H. unfold bind in H.
    destruct (m s) as [[a|e1|msg] s1] eqn:Em.
    + apply (proj2 (Hk a)) in H; [exact H|].
      rewrite (Hms _ _ _ Em). exact Hlt.
    + injection H as <- <-. eapply Hm; eassumption.
    + discriminate.
Qed.

Lemma releasing_close_fail {A : Type} (v : valuesNode) (err : error) :
  releasing v (Close v ;;; @fail A err).
Proof.
  split.
  - apply steady_bind; [apply steady_Close | intros; apply steady_fail].
  - intros s e s' Hlt H. rewrite close_and_fail in H. injection H as _ <-.
    now apply Close_closes.
Qed.

Lemma releasing_onErr {A : Type} (v : valuesNode) (m : M A) :
  steady m -> releasing v (onErr m (fun err => Close v ;;; fail err)).
Proof.
  intros Hm. split.
  - apply steady_onErr; [exact Hm|]. intros e. apply releasing_close_fail.
  - intros s e s' Hlt H. unfold onErr in H.
    destruct (m s) as [[a|e1|msg] s1] eqn:Em; try discriminate.
    apply (proj2 (releasing_close_fail v e1)) in H; [exact H|].
    rewrite (Hm _ _ _ Em). exact Hlt.
Qed.

Lemma releasing_AddRow_or_close (p : planner) (v : valuesNode) (row : DTuple) :
  releasing v (AddRow_or_close p v row).
Proof. apply releasing_onErr, steady_AddRow. Qed.

Lemma releasing_forM_ {A : Type} (v : valuesNode) (l : list A) (body : A -> M unit) :
  (forall x, releasing v (body x)) -> releasing v (forM_ l body).
Proof.
  intros Hb. induction l as [|x l IH]; cbn [forM_].
  - apply releasing_ret.
  - apply releasing_bind; [apply Hb | intros _; exact IH].
Qed.

Lemma releasing_foldM {A St : Type} (v : valuesNode) (body : St -> A -> M St)
  (l : list A) :
  (forall st x, releasing v (body st x)) -> forall st, releasing v (foldM body l st).
Proof.
  intros Hb. induction l as [|x l IH]; intros st; cbn [foldM].
  - apply releasing_ret.
  - apply releasing_bind; [apply Hb | intros st'; apply IH].
Qed.

Lemma releasing_range_foldM {A St : Type} (v : valuesNode)
  (body : nat -> A -> St -> M St) (l : list A) :
  (forall i x st, releasing v (body i x st)) ->
  forall i st, releasing v (range_foldM body i l st).
Proof.
  intros Hb. induction l as [|x l IH]; intros i st; cbn [range_foldM].
  - apply releasing_ret.
  - apply releasing_bind; [apply Hb | intros st'; apply IH].
Qed.

Lemma released_since_same_length (s s' : pstate) :
  length (containers s') = length (containers s) -> released_since s s'.
Proof. intros H i Hle Hlt. lia. Qed.

Lemma tidy_bind_steady {A B : Type} (m : M A) (k : A -> M B) :
  steady m -> (forall a, tidy (k a)) -> tidy (bind m k).
Proof.
  intros Hm Hk s e s' H. unfold bind in H.
  destruct (m s) as [[a|e1|msg] s1] eqn:Em.
  - apply Hk in H. apply Hm in Em. intros i Hle Hlt. apply H; [lia | exact Hlt].
  - injection H as _ <-. apply released_since_same_length. eapply Hm; eassumption.
  - discriminate.
Qed.

Lemma tidy_defer {A : Type} (cleanup : pstate -> pstate) (body : M A) :
  (forall s, containers (cleanup s) = containers s) ->
  tidy body -> tidy (defer cleanup body).
Proof.
  intros Hc Hb s e s' H. unfold defer in H.
  destruct (body s) as [r1 s1] eqn:Eb. injection H as -> <-.
  apply Hb in Eb. intros i Hle Hlt. rewrite Hc in Hlt.
  destruct (Eb i Hle Hlt) as (rc & Hrc & Hclosed).
  exists rc. rewrite Hc. auto.
Qed.

(** Allocation followed by steps that release the container. *)
Lemma tidy_allocate {A : Type} (columns : ResultColumns) (k : valuesNode -> M A) :
  (forall v, releasing v (k v)) ->
  tidy (v <- newContainerValuesNode columns ;; k v).
Proof.
  intros Hk s e s' H.
  destruct (newContainerValuesNode_run columns s) as (s1 & Hnew & Hcs & _).
  destruct (rows_of_fresh columns s s1 Hcs) as [_ Hlt].
  unfold bind in H. rewrite Hnew in H.
  destruct (Hk (mkValuesNode columns (length (containers s)))) as [Hsteady Hrel].
  pose proof (Hsteady _ _ _ H) as Hlen.
  apply Hrel in H; [|exact Hlt].
  intros i Hle Hi. rewrite Hlen, Hcs, length_app in Hi. simpl in Hi.
  replace i with (length (containers s)) by lia. exact H.
Qed.

Lemma steady_call_queryRowsAsRoot (p : planner) (sql : string) (args : list string) :
  steady (call_queryRowsAsRoot p sql args).
Proof. intros s r s' H. now injection H as _ <-. Qed.

Lemma steady_call_queryRows (p : planner) (sql : string) (args : list string) :
  steady (call_queryRows p sql args).
Proof. intros s r s' H. now injection H as _ <-. Qed.

Lemma steady_call_QueryRow (p : planner) (sql : string) (args : list string) :
  steady (call_QueryRow p sql args).
Proof. intros s r s' H. now injection H as _ <-. Qed.

Lemma steady_call_getVirtualTableDesc (p : planner) (tn : TableName.t) :
  steady (call_getVirtualTableDesc p tn).
Proof. intros s r s' H. now injection H as _ <-. Qed.

Lemma steady_appendRow (p : planner) (v : valuesNode) (tn : TableName.t)
  (index : IndexDescriptor.t) (c : string) (sequence : Z) (direction : string)
  (isStored : bool) :
  steady (appendRow p v tn index c sequence direction isStored).
Proof. apply steady_AddRow. Qed.

Ltac steady_tac :=
  repeat match goal with
    | |- forall _, _ => intro
    | |- steady (ret _) => apply steady_ret
    | |- steady (fail _) => apply steady_fail
    | |- steady (lift _) => apply steady_lift
    | |- steady (gets _) => apply steady_gets
    | |- steady (modify _) => apply steady_modify; reflexivity
    | |- steady (call_queryRowsAsRoot _ _ _) => apply steady_call_queryRowsAsRoot
    | |- steady (call_queryRows _ _ _) => apply steady_call_queryRows
    | |- steady (call_QueryRow _ _ _) => apply steady_call_QueryRow
    | |- steady (call_getVirtualTableDesc _ _) => apply steady_call_getVirtualTableDesc
    | |- steady (appendRow _ _ _ _ _ _ _ _) => apply steady_appendRow
    | |- steady (AddRow _ _ _) => apply steady_AddRow
    | |- steady (Close _) => apply steady_Close
    | |- steady (checkFn _ _ _) => apply steady_checkFn
    | |- steady (queryFn _ _ _ _) => apply steady_queryFn
    | |- steady (onErr _ _) => apply steady_onErr
    | |- steady (bind _ _) => apply steady_bind
    | |- steady (forM_ _ _) => apply steady_forM_
    | |- steady (foldM _ _ _) => apply steady_foldM
    | |- steady (if ?b then _ else _) => destruct b
    | |- steady (match ?x with _ => _ end) => destruct x
    end.

Lemma map_call_no_err {V : Type} (m : list (string * V)) (k : string) (e : error) :
  map_call m k <> Err e.
Proof. unfold map_call. destruct (map_get m k); discriminate. Qed.

Lemma index_no_err {A : Type} (l : list A) (i : nat) (e : error) :
  Go.index l i <> Err e.
Proof. unfold Go.index. destruct (nth_error l i); discriminate. Qed.

Lemma range_fold_no_err {A St : Type} (body : nat -> A -> St -> outcome St) :
  (forall i x acc e, body i x acc <> Err e) ->
  forall l i acc e, range_fold body i l acc <> Err e.
Proof.
  intros Hb. induction l as [|x l IH]; intros i acc e; cbn [range_fold].
  - discriminate.
  - destruct (body i x acc) as [acc'|e'|msg] eqn:Eb; cbn [obind].
    + apply IH.
    + now apply Hb in Eb.
    + discriminate.
Qed.

Lemma ShowCreateTable_column_no_err (desc : TableDescriptor.t) (i : nat)
  (c : ColumnDescriptor.t) (acc : string * string) (e : error) :
  ShowCreateTable_column desc i c acc <> Err e.
Proof.
  destruct acc as [buf primary]. unfold ShowCreateTable_column. cbv zeta.
  destruct (TableDescriptor.IsPhysicalTable desc); [|discriminate].
  unfold Go.index. destruct (nth_error _ 0) as [id0|]; cbn [obind]; [|discriminate].
  destruct (id0 =? ColumnDescriptor.ID c)%Z; discriminate.
Qed.

Lemma ShowCreateTable_family_no_err (desc : TableDescriptor.t) (i : nat)
  (fam : ColumnFamilyDescriptor.t) (buf : string) (e : error) :
  ShowCreateTable_family desc i fam buf <> Err e.
Proof.
  unfold ShowCreateTable_family.
  destruct (range_fold (ShowCreateTable_family_column desc fam) 0 _ [])
    as [names|e'|msg] eqn:Ein; cbn [obind]; try discriminate.
  exfalso. revert Ein. apply range_fold_no_err.
  intros j colID acc e0. unfold ShowCreateTable_family_column.
  destruct (TableDescriptor.FindActiveColumnByID desc colID); [|discriminate].
  unfold Go.index. destruct (nth_error _ j); discriminate.
Qed.

Lemma ShowCreateTable_check_no_err (i : nat) (c : CheckConstraint.t)
  (buf : string) (e : error) :
  ShowCreateTable_check i c buf <> Err e.
Proof. unfold ShowCreateTable_check. discriminate. Qed.

Create HintDb noerr.
#[local] Hint Resolve map_call_no_err index_no_err range_fold_no_err
  ShowCreateTable_column_no_err ShowCreateTable_family_no_err
  ShowCreateTable_check_no_err : noerr.

Ltac releasing_tac :=
  repeat match goal with
    | |- forall _, _ => intro
    | |- releasing _ (ret _) => apply releasing_ret
    | |- releasing _ (AddRow_or_close _ _ _) => apply releasing_AddRow_or_close
    | |- releasing ?v (bind (Close ?v) (fun _ => fail _)) =>
        apply releasing_close_fail
    | |- releasing ?v (onErr _ (fun err => bind (Close ?v) (fun _ => fail err))) =>
        apply releasing_onErr; steady_tac
    | |- releasing _ (lift _) => apply releasing_lift; solve [auto with noerr]
    | |- releasing _ (forM_ _ _) => apply releasing_forM_
    | |- releasing _ (foldM _ _ _) => apply releasing_foldM
    | |- releasing _ (range_foldM _ _ _ _) => apply releasing_range_foldM
    | |- releasing _ (bind _ _) => apply releasing_bind
    | |- releasing _ (if ?b then _ else _) => destruct b
    | |- releasing _ (match ?x with _ => _ end) => destruct x
    end.

Ltac tidy_tac :=
  repeat match goal with
    | |- forall _, _ => intro
    | |- tidy (bind (newContainerValuesNode _) _) => apply tidy_allocate
    | |- tidy (bind _ _) => apply tidy_bind_steady; [steady_tac|]
    | |- tidy (defer _ _) => apply tidy_defer; [reflexivity|]
    end.

Lemma tidy_Show (name : string) (columns : ResultColumns) (p : planner) :
  tidy (Show_constructor name columns p).
Proof. unfold Show_constructor. tidy_tac; releasing_tac. Qed.

Lemma tidy_ShowColumns (tn : TableName.t) (p : planner) :
  tidy (ShowColumns_constructor tn p).
Proof. unfold ShowColumns_constructor. cbv zeta. tidy_tac; releasing_tac. Qed.

Lemma tidy_ShowTables (name : string) (columns : ResultColumns) (p : planner) :
  tidy (ShowTables_constructor name columns p).
Proof. unfold ShowTables_constructor. tidy_tac; releasing_tac. Qed.

Lemma tidy_ShowIndex (tn : TableName.t) (desc : TableDescriptor.t) (p : planner) :
  tidy (ShowIndex_constructor tn desc p).
Proof.
  unfold ShowIndex_constructor. tidy_tac. unfold ShowIndex_index. releasing_tac.
Qed.

Lemma tidy_Help (name : string) (p : planner) : tidy (Help_constructor name p).
Proof. unfold Help_constructor. tidy_tac; releasing_tac. Qed.

Lemma tidy_ShowGrants (n : parser.ShowGrants) (targets : TargetList.t)
  (columns : ResultColumns) (p : planner) :
  tidy (ShowGrants_constructor n targets columns p).
Proof.
  unfold ShowGrants_constructor. tidy_tac.
  unfold ShowGrants_tableTarget, ShowGrants_table, ShowGrants_database.
  releasing_tac.
Qed.

Lemma tidy_ShowCreateTable (n : parser.ShowCreateTable) (desc : TableDescriptor.t)
  (p : planner) :
  tidy (ShowCreateTable_constructor n desc p).
Proof. unfold ShowCreateTable_constructor. tidy_tac; releasing_tac. Qed.

(** Every callback but those of SHOW CREATE VIEW and SHOW CONSTRAINTS
    releases its container before it returns an error. *)
Lemma callbacks_release_on_error (p : planner) :
  (forall name columns, tidy (Show_constructor name columns p))
  /\ (forall tn, tidy (ShowColumns_constructor tn p))
  /\ (forall name columns, tidy (ShowTables_constructor name columns p))
  /\ (forall n desc, tidy (ShowCreateTable_constructor n desc p))
  /\ (forall n targets columns, tidy (ShowGrants_constructor n targets columns p))
  /\ (forall tn desc, tidy (ShowIndex_constructor tn desc p))
  /\ (forall name, tidy (Help_constructor name p)).
Proof.
  repeat split; intros.
  - apply tidy_Show.
  - apply tidy_ShowColumns.
  - apply tidy_ShowTables.
  - apply tidy_ShowCreateTable.
  - apply tidy_ShowGrants.
  - apply tidy_ShowIndex.
  - apply tidy_Help.
Qed.

(** The callbacks of SHOW CREATE VIEW and SHOW CONSTRAINTS do not. *)
Lemma live_not_released (s s' : pstate) :
  live s' (length (containers s)) -> ~ released_since s s'.
Proof.
  intros Hlive Hrel. apply (live_not_closed _ _ Hlive). apply Hrel; [lia|].
  destruct Hlive as (rc & Hrc & _). apply nth_error_Some. congruence.
Qed.

Lemma ShowCreateView_not_tidy (p : planner) (n : parser.ShowCreateView)
  (tn : TableName.t) (desc : TableDescriptor.t) (e : error) :
  ParseOneTraditional (TableDescriptor.ViewQuery desc) = Err e ->
  ~ tidy (ShowCreateView_constructor n tn desc p).
Proof.
  intros He Htidy.
  destruct (ShowCreateView_constructor_leaks p n tn desc
              (mkPstate "" false [] [])) as [Hparse _].
  destruct (Hparse e He) as [Herr Hlive].
  apply (live_not_released _ _ Hlive). eapply Htidy.
  destruct (ShowCreateView_constructor n tn desc p _) as [r s']. 
  simpl in Herr. subst r. reflexivity.
Qed.

Lemma ShowConstraints_not_tidy (p : planner) (tn : TableName.t)
  (desc : TableDescriptor.t) (e : error) :
  GetConstraintInfo p desc = Err e ->
  ~ tidy (ShowConstraints_constructor tn desc p).
Proof.
  intros He Htidy.
  destruct (ShowConstraints_constructor_leaks p tn desc
              (mkPstate "" false [] []) e He) as [Herr Hlive].
  apply (live_not_released _ _ Hlive). eapply Htidy.
  destruct (ShowConstraints_constructor tn desc p _) as [r s'].
  simpl in Herr. subst r. reflexivity.
Qed.

(** *** What the callbacks leave unchanged *)

(** Steps that preserve an observation of the state which does not depend on
    the trace nor on the containers. *)
Section Frame.
Context {X : Type} (f : pstate -> X).
Hypothesis f_log : forall ev s, f (log ev s) = f s.
Hypothesis f_containers : forall cs s, f (set_containers cs s) = f s.

Lemma preserves_ret {A : Type} (a : A) : preserves f (ret a).
Proof. intros s. reflexivity. Qed.

Lemma preserves_fail {A : Type} (e : error) : preserves f (@fail A e).
Proof. intros s. reflexivity. Qed.

Lemma preserves_lift {A : Type} (o : outcome A) : preserves f (lift o).
Proof. intros s. reflexivity. Qed.

Lemma preserves_gets {A : Type} (g : pstate -> A) : preserves f (gets g).
Proof. intros s. reflexivity. Qed.

Lemma preserves_bind {A B : Type} (m : M A) (k : A -> M B) :
  preserves f m -> (forall a, preserves f (k a)) -> preserves f (bind m k).
Proof.
  intros Hm Hk s. specialize (Hm s). unfold bind.
  destruct (m s) as [[a|e|msg] s1]; cbn [snd] in *.
  - rewrite Hk. exact Hm.
  - exact Hm.
  - exact Hm.
Qed.

Lemma preserves_onErr {A : Type} (m : M A) (h : error -> M A) :
  preserves f m -> (forall e, preserves f (h e)) -> preserves f (onErr m h).
Proof.
  intros Hm Hh s. specialize (Hm s). unfold onErr.
  destruct (m s) as [[a|e|msg] s1]; cbn [snd] in *.
  - exact Hm.
  - rewrite Hh. exact Hm.
  - exact Hm.
Qed.

Lemma preserves_defer {A : Type} (cleanup : pstate -> pstate) (body : M A) :
  (forall s, f (cleanup s) = f s) -> preserves f body ->
  preserves f (defer cleanup body).
Proof.
  intros Hc Hb s. specialize (Hb s). unfold defer.
  destruct (body s) as [r s1]; cbn [snd] in *. rewrite Hc. exact Hb.
Qed.

Lemma preserves_modify (g : pstate -> pstate) :
  (forall s, f (g s) = f s) -> preserves f (modify g).
Proof. intros Hg s. apply Hg. Qed.

Lemma preserves_forM_ {A : Type} (l : list A) (body : A -> M unit) :
  (forall x, preserves f (body x)) -> preserves f (forM_ l body).
Proof.
  intros Hb. induction l as [|x l IH]; cbn [forM_].
  - apply preserves_ret.
  - apply preserves_bind; [apply Hb | intros _; exact IH].
Qed.

Lemma preserves_foldM {A St : Type} (body : St -> A -> M St) (l : list A) :
  (forall st x, preserves f (body st x)) -> forall st, preserves f (foldM body l st).
Proof.
  intros Hb. induction l as [|x l IH]; intros st; cbn [foldM].
  - apply preserves_ret.
  - apply preserves_bind; [apply Hb | intros st'; apply IH].
Qed.

Lemma preserves_range_foldM {A St : Type} (body : nat -> A -> St -> M St)
  (l : list A) :
  (forall i x st, preserves f (body i x st)) ->
  forall i st, preserves f (range_foldM body i l st).
Proof.
  intros Hb. induction l as [|x l IH]; intros i st; cbn [range_foldM].
  - apply preserves_ret.
  - apply preserves_bind; [apply Hb | intros st'; apply IH].
Qed.

Lemma preserves_newContainerValuesNode (columns : ResultColumns) :
  preserves f (newContainerValuesNode columns).
Proof. intros s. apply f_containers. Qed.

Lemma preserves_AddRow (p : planner) (v : valuesNode) (row : DTuple) :
  preserves f (AddRow p v row).
Proof.
  intros s. unfold AddRow.
  destruct (nth_error (containers s) (vn_rows v)) as [rc|]; [|reflexivity].
  destruct (addRowErr p (rc_rows rc) row); [reflexivity | apply f_containers].
Qed.

Lemma preserves_Close (v : valuesNode) : preserves f (Close v).
Proof. intros s. apply f_containers. Qed.

Lemma preserves_call_queryRowsAsRoot (p : planner) (sql : string)
  (args : list string) :
  preserves f (call_queryRowsAsRoot p sql args).
Proof. intros s. apply f_log. Qed.

Lemma preserves_call_queryRows (p : planner) (sql : string) (args : list string) :
  preserves f (call_queryRows p sql args).
Proof. intros s. apply f_log. Qed.

Lemma preserves_call_QueryRow (p : planner) (sql : string) (args : list string) :
  preserves f (call_QueryRow p sql args).
Proof. intros s. apply f_log. Qed.

Lemma preserves_call_getVirtualTableDesc (p : planner) (tn : TableName.t) :
  preserves f (call_getVirtualTableDesc p tn).
Proof. intros s. apply f_log. Qed.

Lemma preserves_call_Select (p : planner) (sel : Select) :
  preserves f (call_Select p sel).
Proof. intros s. apply f_log. Qed.

End Frame.

Ltac preserves_tac :=
  repeat match goal with
    | |- forall _, _ => intro
    | |- preserves _ (ret _) => apply preserves_ret
    | |- preserves _ (fail _) => apply preserves_fail
    | |- preserves _ (lift _) => apply preserves_lift
    | |- preserves _ (gets _) => apply preserves_gets
    | |- preserves _ (newContainerValuesNode _) =>
        apply preserves_newContainerValuesNode; reflexivity
    | |- preserves _ (call_queryRowsAsRoot _ _ _) =>
        apply preserves_call_queryRowsAsRoot; reflexivity
    | |- preserves _ (call_queryRows _ _ _) =>
        apply preserves_call_queryRows; reflexivity
    | |- preserves _ (call_QueryRow _ _ _) =>
        apply preserves_call_QueryRow; reflexivity
    | |- preserves _ (call_getVirtualTableDesc _ _) =>
        apply preserves_call_getVirtualTableDesc; reflexivity
    | |- preserves _ (call_Select _ _) => apply preserves_call_Select; reflexivity
    | |- preserves _ (AddRow _ _ _) => apply preserves_AddRow; reflexivity
    | |- preserves _ (Close _) => apply preserves_Close; reflexivity
    | |- preserves _ (AddRow_or_close _ _ _) => unfold AddRow_or_close
    | |- preserves _ (onErr _ _) => apply preserves_onErr
    | |- preserves _ (defer _ _) => apply preserves_defer; [reflexivity|]
    | |- preserves _ (modify _) => apply preserves_modify; reflexivity
    | |- preserves _ (bind _ _) => apply preserves_bind
    | |- preserves _ (forM_ _ _) => apply preserves_forM_
    | |- preserves _ (foldM _ _ _) => apply preserves_foldM
    | |- preserves _ (range_foldM _ _ _ _) => apply preserves_range_foldM
    | |- preserves _ (if ?b then _ else _) => destruct b
    | |- preserves _ (match ?x with _ => _ end) => destruct x
    end.

(** The override of the current database, scoped by [defer]: whatever the
    body does and however it ends, the database is the original one again. *)
Lemma preserves_scoped_database {A : Type} (db : string) (body : M A) :
  preserves evalCtx_Database
    (origDatabase <- gets evalCtx_Database ;;
     modify (set_evalCtx_Database db) ;;;
     defer (set_evalCtx_Database origDatabase) body).
Proof.
  intros s. unfold bind, gets, modify, defer.
  destruct (body (set_evalCtx_Database db s)) as [r s1]. reflexivity.
Qed.

Lemma restore_ShowColumns (tn : TableName.t) (p : planner) :
  preserves evalCtx_Database (ShowColumns_constructor tn p).
Proof.
  unfold ShowColumns_constructor. cbv zeta.
  do 6 (apply preserves_bind; [preserves_tac|]; intro).
  apply preserves_scoped_database.
Qed.

Lemma restore_ShowTables (name : string) (columns : ResultColumns) (p : planner) :
  preserves evalCtx_Database (ShowTables_constructor name columns p).
Proof.
  unfold ShowTables_constructor.
  do 2 (apply preserves_bind; [preserves_tac|]; intro).
  apply preserves_scoped_database.
Qed.

(** X1.  No construction callback leaves the current database of the planner
    changed.  Those of SHOW COLUMNS and SHOW TABLES override it for their
    query on information_schema and put the original value back on every
    exit path, be it a result, an error or a panic; the others never write
    it. *)
Theorem callbacks_restore_database (p : planner) (s : pstate) :
  (forall tn,
     evalCtx_Database (snd (ShowColumns_constructor tn p s)) = evalCtx_Database s)
  /\ (forall name columns,
        evalCtx_Database (snd (ShowTables_constructor name columns p s))
        = evalCtx_Database s)
  /\ (forall name columns,
        evalCtx_Database (snd (Show_constructor name columns p s))
        = evalCtx_Database s)
  /\ (forall n desc,
        evalCtx_Database (snd (ShowCreateTable_constructor n desc p s))
        = evalCtx_Database s)
  /\ (forall n tn desc,
        evalCtx_Database (snd (ShowCreateView_constructor n tn desc p s))
        = evalCtx_Database s)
  /\ (forall n targets columns,
        evalCtx_Database (snd (ShowGrants_constructor n targets columns p s))
        = evalCtx_Database s)
  /\ (forall tn desc,
        evalCtx_Database (snd (ShowIndex_constructor tn desc p s))
        = evalCtx_Database s)
  /\ (forall tn desc,
        evalCtx_Database (snd (ShowConstraints_constructor tn desc p s))
        = evalCtx_Database s)
  /\ (forall name,
        evalCtx_Database (snd (Help_constructor name p s)) = evalCtx_Database s).
Proof.
  split; [|split; [|split; [|split; [|split; [|split; [|split; [|split]]]]]]].
  - intros tn. apply restore_ShowColumns.
  - intros name columns. apply restore_ShowTables.
  - intros name columns. revert s.
    change (preserves evalCtx_Database (Show_constructor name columns p)).
    unfold Show_constructor. preserves_tac.
  - intros n desc. revert s.
    change (preserves evalCtx_Database (ShowCreateTable_constructor n desc p)).
    unfold ShowCreateTable_constructor. preserves_tac.
  - intros n tn desc. revert s.
    change (preserves evalCtx_Database (ShowCreateView_constructor n tn desc p)).
    unfold ShowCreateView_constructor. preserves_tac.
  - intros n targets columns. revert s.
    change (preserves evalCtx_Database (ShowGrants_constructor n targets columns p)).
    unfold ShowGrants_constructor, ShowGrants_tableTarget, ShowGrants_table,
      ShowGrants_database, queryFn, checkFn.
    preserves_tac.
  - intros tn desc. revert s.
    change (preserves evalCtx_Database (ShowIndex_constructor tn desc p)).
    unfold ShowIndex_constructor, ShowIndex_index, appendRow. preserves_tac.
  - intros tn desc. revert s.
    change (preserves evalCtx_Database (ShowConstraints_constructor tn desc p)).
    unfold ShowConstraints_constructor. preserves_tac.
  - intros name. revert s.
    change (preserves evalCtx_Database (Help_constructor name p)).
    unfold Help_constructor. preserves_tac.
Qed.

(** X2.  The callback of SHOW CREATE VIEW plans the stored query with the
    privilege checks of SELECT switched off, whatever the flag was when it
    was called: its outcome does not depend on the incoming flag.  Once the
    stored text has parsed as a SELECT the flag is false when the callback
    ends, on every exit path (it is reset, not restored); on the two earlier
    error returns it is left as it was.  No other callback writes the flag.
    The stored query is planned with the flag set: an error of the planning
    without privilege checks is the error of the callback, whatever the
    incoming flag, and what the planning would answer with the checks on has
    no influence on the callback. *)
Theorem ShowCreateView_skips_privilege_checks (p : planner) (s : pstate) :
  (forall n tn desc,
     skipSelectPrivilegeChecks (snd (ShowCreateView_constructor n tn desc p s))
     = match ParseOneTraditional (TableDescriptor.ViewQuery desc) with
       | Ok (StmtSelect _) => false
       | _ => skipSelectPrivilegeChecks s
       end)
  /\ (forall n tn desc b,
        fst (ShowCreateView_constructor n tn desc p
               (set_skipSelectPrivilegeChecks b s))
        = fst (ShowCreateView_constructor n tn desc p s)
        /\ containers (snd (ShowCreateView_constructor n tn desc p
                              (set_skipSelectPrivilegeChecks b s)))
           = containers (snd (ShowCreateView_constructor n tn desc p s)))
  /\ (forall name columns,
        preserves skipSelectPrivilegeChecks (Show_constructor name columns p))
  /\ (forall tn, preserves skipSelectPrivilegeChecks (ShowColumns_constructor tn p))
  /\ (forall name columns,
        preserves skipSelectPrivilegeChecks (ShowTables_constructor name columns p))
  /\ (forall n desc,
        preserves skipSelectPrivilegeChecks (ShowCreateTable_constructor n desc p))
  /\ (forall n targets columns,
        preserves skipSelectPrivilegeChecks
          (ShowGrants_constructor n targets columns p))
  /\ (forall tn desc,
        preserves skipSelectPrivilegeChecks (ShowIndex_constructor tn desc p))
  /\ (forall tn desc,
        preserves skipSelectPrivilegeChecks (ShowConstraints_constructor tn desc p))
  /\ (forall name, preserves skipSelectPrivilegeChecks (Help_constructor name p))
  /\ (forall n tn desc sel e b,
        ParseOneTraditional (TableDescriptor.ViewQuery desc) = Ok (StmtSelect sel) ->
        Select_Columns p true sel = Err e ->
        fst (ShowCreateView_constructor n tn desc p
               (set_skipSelectPrivilegeChecks b s)) = Err e)
  /\ (forall n tn desc f,
        (forall sel, f true sel = Select_Columns p true sel) ->
        ShowCreateView_constructor n tn desc (with_Select_Columns p f) s
        = ShowCreateView_constructor n tn desc p s).
Proof.
  split; [|split; [|split; [|split; [|split; [|split; [|split; [|split; [|split; [|split; [|split]]]]]]]]]].
  - intros n tn desc. unfold ShowCreateView_constructor.
    unfold bind at 1. unfold newContainerValuesNode at 1. cbv beta iota.
    unfold bind at 1. unfold onErr, lift.
    destruct (ParseOneTraditional (TableDescriptor.ViewQuery desc))
      as [[sel|]|e|msg]; try reflexivity.
    unfold bind at 1. unfold ret at 1. cbv beta iota.
    unfold bind at 1. unfold modify at 1. cbv beta iota.
    unfold defer.
    match goal with |- context [bind ?m ?k ?st] =>
      destruct (bind m k st) as [r s1] end.
    reflexivity.
  - intros n tn desc b. unfold ShowCreateView_constructor.
    unfold bind at 1. unfold bind at 3.
    unfold newContainerValuesNode. cbv beta iota.
    unfold bind at 1. unfold bind at 3. unfold onErr, lift.
    destruct (ParseOneTraditional (TableDescriptor.ViewQuery desc))
      as [[sel|]|e|msg]; split; reflexivity.
  - unfold Show_constructor. preserves_tac.
  - unfold ShowColumns_constructor. preserves_tac.
  - unfold ShowTables_constructor. preserves_tac.
  - unfold ShowCreateTable_constructor. preserves_tac.
  - unfold ShowGrants_constructor, ShowGrants_tableTarget, ShowGrants_table,
      ShowGrants_database, queryFn, checkFn.
    preserves_tac.
  - unfold ShowIndex_constructor, ShowIndex_index, appendRow. preserves_tac.
  - unfold ShowConstraints_constructor. preserves_tac.
  - unfold Help_constructor. preserves_tac.
  - intros n tn desc sel e b Hparse Hsel.
    unfold ShowCreateView_constructor, bind, newContainerValuesNode, onErr, lift.
    rewrite Hparse.
    cbv [ret modify defer call_Select]. cbn [skipSelectPrivilegeChecks
      set_skipSelectPrivilegeChecks log set_containers].
    rewrite Hsel. reflexivity.
  - intros n tn desc f Hf.
    unfold ShowCreateView_constructor.
    unfold bind at 1. unfold bind at 5.
    unfold newContainerValuesNode. cbv beta iota.
    unfold bind at 1. unfold bind at 4. unfold onErr, lift.
    destruct (ParseOneTraditional (TableDescriptor.ViewQuery desc))
      as [[sel|]|e|msg]; try reflexivity.
    cbv beta iota.
    unfold bind at 1. unfold bind at 4. unfold ret at 1. unfold ret at 2.
    cbv beta iota.
    unfold bind at 1. unfold bind at 3. unfold modify. cbv beta iota.
    unfold defer.
    unfold bind at 1. unfold bind at 3. unfold call_Select.
    cbn [skipSelectPrivilegeChecks set_skipSelectPrivilegeChecks
         with_Select_Columns Select_Columns].
    rewrite Hf. reflexivity.
Qed.

(** *** Ownership of the row container on success *)

Lemma kept_refl (v : nat) (s : pstate) : kept v s s.
Proof. split; [reflexivity|]. intros i rc H. exists rc. auto. Qed.

Lemma kept_trans (v : nat) (s1 s2 s3 : pstate) :
  kept v s1 s2 -> kept v s2 s3 -> kept v s1 s3.
Proof.
  intros [L1 H1] [L2 H2]. split; [congruence|].
  intros i rc Hi.
  destruct (H1 i rc Hi) as (rc1 & Hi1 & Hc1 & He1).
  destruct (H2 i rc1 Hi1) as (rc2 & Hi2 & Hc2 & He2).
  exists rc2. split; [exact Hi2|]. split; [congruence|].
  intros Hne. rewrite He2, He1; auto.
Qed.

Lemma kept_same_containers (v : nat) (s s' : pstate) :
  containers s' = containers s -> kept v s s'.
Proof.
  intros E. split; [now rewrite E|]. intros i rc H. exists rc. rewrite E. auto.
Qed.

Lemma keeps_ret {A : Type} (v : valuesNode) (a : A) : keeps v (ret a).
Proof. intros s a' s' H. injection H as _ <-. apply kept_refl. Qed.

Lemma keeps_fail {A : Type} (v : valuesNode) (e : error) : keeps v (@fail A e).
Proof. intros s a s' H. discriminate. Qed.

Lemma keeps_lift {A : Type} (v : valuesNode) (o : outcome A) : keeps v (lift o).
Proof. intros s a s' H. injection H as _ <-. apply kept_refl. Qed.

Lemma keeps_gets {A : Type} (v : valuesNode) (g : pstate -> A) : keeps v (gets g).
Proof. intros s a s' H. injection H as _ <-. apply kept_refl. Qed.

Lemma keeps_modify (v : valuesNode) (g : pstate -> pstate) :
  (forall s, containers (g s) = containers s) -> keeps v (modify g).
Proof. intros Hg s a s' H. injection H as _ <-. apply kept_same_containers, Hg. Qed.

Lemma keeps_log_call {A : Type} (v : valuesNode) (g : pstate -> outcome A)
  (ev : event) :
  keeps v (fun s => (g s, log ev s)).
Proof. intros s a s' H. injection H as _ <-. now apply kept_same_containers. Qed.

Lemma keeps_bind {A B : Type} (v : valuesNode) (m : M A) (k : A -> M B) :
  keeps v m -> (forall a, keeps v (k a)) -> keeps v (bind m k).
Proof.
  intros Hm Hk s b s' H. unfold bind in H.
  destruct (m s) as [[a|e|msg] s1] eqn:Em; try discriminate.
  eapply kept_trans; [eapply Hm; eassumption | eapply Hk; eassumption].
Qed.

(** The error handlers of [show.go] return an error themselves. *)
Lemma keeps_onErr {A : Type} (v : valuesNode) (m : M A) (h : error -> M A) :
  keeps v m -> (forall e s a s', h e s <> (Ok a, s')) -> keeps v (onErr m h).
Proof.
  intros Hm Hh s a s' H. unfold onErr in H.
  destruct (m s) as [[a1|e|msg] s1] eqn:Em; try discriminate.
  - injection H as <- <-. eapply Hm; eassumption.
  - now apply Hh in H.
Qed.

Lemma close_fail_not_ok {A : Type} (v : valuesNode) (err : error) (s : pstate)
  (a : A) (s' : pstate) :
  (Close v ;;; fail err) s <> (Ok a, s').
Proof. rewrite close_and_fail. discriminate. Qed.

Lemma fail_not_ok {A : Type} (err : error) (s : pstate) (a : A) (s' : pstate) :
  @fail A err s <> (Ok a, s').
Proof. discriminate. Qed.

Lemma keeps_defer {A : Type} (v : valuesNode) (cleanup : pstate -> pstate)
  (body : M A) :
  (forall s, containers (cleanup s) = containers s) ->
  keeps v body -> keeps v (defer cleanup body).
Proof.
  intros Hc Hb s a s' H. unfold defer in H.
  destruct (body s) as [r s1] eqn:Eb. injection H as -> <-.
  eapply kept_trans; [eapply Hb; eassumption | apply kept_same_containers, Hc].
Qed.

Lemma keeps_forM_ {A : Type} (v : valuesNode) (l : list A) (body : A -> M unit) :
  (forall x, keeps v (body x)) -> keeps v (forM_ l body).
Proof.
  intros Hb. induction l as [|x l IH]; cbn [forM_].
  - apply keeps_ret.
  - apply keeps_bind; [apply Hb | intros _; exact IH].
Qed.

Lemma keeps_foldM {A St : Type} (v : valuesNode) (body : St -> A -> M St)
  (l : list A) :
  (forall st x, keeps v (body st x)) -> forall st, keeps v (foldM body l st).
Proof.
  intros Hb. induction l as [|x l IH]; intros st; cbn [foldM].
  - apply keeps_ret.
  - apply keeps_bind; [apply Hb | intros st'; apply IH].
Qed.

Lemma keeps_range_foldM {A St : Type} (v : valuesNode)
  (body : nat -> A -> St -> M St) (l : list A) :
  (forall i x st, keeps v (body i x st)) ->
  forall i st, keeps v (range_foldM body i l st).
Proof.
  intros Hb. induction l as [|x l IH]; intros i st; cbn [range_foldM].
  - apply keeps_ret.
  - apply keeps_bind; [apply Hb | intros st'; apply IH].
Qed.

(** [AddRow] on [v] changes the rows of [v] only. *)
Lemma keeps_AddRow (p : planner) (v : valuesNode) (row : DTuple) :
  keeps v (AddRow p v row).
Proof.
  intros s a s' H. unfold AddRow in H.
  destruct (nth_error (containers s) (vn_rows v)) as [rc0|]; [|discriminate].
  destruct (addRowErr p (rc_rows rc0) row); [discriminate|].
  injection H as _ <-. unfold add_row, kept. cbn [set_containers containers].
  split; [apply update_nth_length|].
  intros i rc Hi. destruct (Nat.eq_dec (vn_rows v) i) as [<-|Hne].
  - rewrite nth_error_update_nth_eq, Hi. cbn [option_map].
    eexists. split; [reflexivity|]. split; [reflexivity|]. intros Hne. now elim Hne.
  - rewrite nth_error_update_nth_ne by exact Hne.
    exists rc. auto.
Qed.

Lemma finishes_bind {A : Type} (v : valuesNode) (m : M A) (k : A -> M planNode) :
  keeps v m -> (forall a, finishes v (k a)) -> finishes v (bind m k).
Proof.
  intros Hm Hk s node s' H. unfold bind in H.
  destruct (m s) as [[a|e|msg] s1] eqn:Em; try discriminate.
  destruct (Hk a s1 node s' H) as [Hsrc Hkept].
  split; [exact Hsrc|].
  eapply kept_trans; [eapply Hm; eassumption | exact Hkept].
Qed.

Lemma finishes_defer (v : valuesNode) (cleanup : pstate -> pstate)
  (body : M planNode) :
  (forall s, containers (cleanup s) = containers s) ->
  finishes v body -> finishes v (defer cleanup body).
Proof.
  intros Hc Hb s node s' H. unfold defer in H.
  destruct (body s) as [r s1] eqn:Eb. injection H as -> <-.
  destruct (Hb s node s1 Eb) as [Hsrc Hkept].
  split; [exact Hsrc|].
  eapply kept_trans; [exact Hkept | apply kept_same_containers, Hc].
Qed.

Lemma finishes_ret (v : valuesNode) (node : planNode) :
  source_of node = v -> finishes v (ret node).
Proof.
  intros Hsrc s node' s' H. injection H as <- <-. split; [exact Hsrc | apply kept_refl].
Qed.

Lemma hands_over_allocate (columns : ResultColumns) (k : valuesNode -> M planNode) :
  (forall v, finishes v (k v)) ->
  hands_over (v <- newContainerValuesNode columns ;; k v).
Proof.
  intros Hk s node s' H.
  destruct (newContainerValuesNode_run columns s) as (s1 & Hnew & Hcs & _).
  unfold bind in H. rewrite Hnew in H.
  destruct (Hk _ _ _ _ H) as [Hsrc [Hlen Hkept]].
  cbn [vn_rows] in Hlen, Hkept.
  assert (Hlen1 : length (containers s1) = S (length (containers s))).
  { rewrite Hcs, length_app. simpl. lia. }
  split; [now rewrite Hsrc|]. split; [congruence|]. split.
  - destruct (Hkept (length (containers s)) (mkRowContainer [] false))
      as (rc' & Hi & Hc & _).
    { rewrite Hcs, nth_error_app2 by lia. now rewrite Nat.sub_diag. }
    exists rc'. split; [exact Hi | exact Hc].
  - intros i Hi.
    destruct (nth_error (containers s) i) as [rc|] eqn:Ei.
    + destruct (Hkept i rc) as (rc' & Hi' & _ & He).
      { rewrite Hcs, nth_error_app1 by exact Hi. exact Ei. }
      rewrite Hi', He by lia. reflexivity.
    + apply nth_error_None in Ei. lia.
Qed.

Lemma hands_over_bind {A : Type} (m : M A) (k : A -> M planNode) :
  preserves containers m -> (forall a, hands_over (k a)) -> hands_over (bind m k).
Proof.
  intros Hm Hk s node s' H. specialize (Hm s). unfold bind in H.
  destruct (m s) as [[a|e|msg] s1] eqn:Em; try discriminate.
  cbn [snd] in Hm. rewrite <- Hm. eapply Hk. exact H.
Qed.

Lemma hands_over_defer (cleanup : pstate -> pstate) (body : M planNode) :
  (forall s, containers (cleanup s) = containers s) ->
  hands_over body -> hands_over (defer cleanup body).
Proof.
  intros Hc Hb s node s' H. unfold defer in H.
  destruct (body s) as [r s1] eqn:Eb. injection H as -> <-.
  destruct (Hb s node s1 Eb) as (H1 & H2 & (rc & H3 & H3') & H4).
  split; [exact H1|]. split; [now rewrite Hc|]. split.
  - exists rc. rewrite Hc. auto.
  - intros i Hi. rewrite Hc. now apply H4.
Qed.

Ltac keeps_tac :=
  repeat match goal with
    | |- forall _, _ => intro
    | |- keeps _ (ret _) => apply keeps_ret
    | |- keeps _ (fail _) => apply keeps_fail
    | |- keeps _ (lift _) => apply keeps_lift
    | |- keeps _ (gets _) => apply keeps_gets
    | |- keeps _ (modify _) => apply keeps_modify; reflexivity
    | |- keeps _ (call_queryRowsAsRoot _ _ _) => apply (keeps_log_call _ (fun _ => _))
    | |- keeps _ (call_queryRows _ _ _) => apply keeps_log_call
    | |- keeps _ (call_QueryRow _ _ _) => apply keeps_log_call
    | |- keeps _ (call_getVirtualTableDesc _ _) => apply (keeps_log_call _ (fun _ => _))
    | |- keeps _ (call_Select _ _) => apply keeps_log_call
    | |- keeps ?v (AddRow _ ?v _) => apply keeps_AddRow
    | |- keeps _ (AddRow_or_close _ _ _) => unfold AddRow_or_close
    | |- keeps _ (appendRow _ _ _ _ _ _ _ _) => unfold appendRow
    | |- keeps _ (checkFn _ _ _) => unfold checkFn
    | |- keeps _ (queryFn _ _ _ _) => unfold queryFn
    | |- keeps ?v (bind (Close ?v) (fun _ => fail _)) =>
        intros ? ? ? ?Hrun; exfalso; revert Hrun; apply close_fail_not_ok
    | |- keeps ?v (onErr _ (fun err => bind (Close ?v) (fun _ => fail err))) =>
        apply keeps_onErr; [|intros; apply close_fail_not_ok]
    | |- keeps _ (onErr _ (fun err => fail _)) =>
        apply keeps_onErr; [|intros; apply fail_not_ok]
    | |- keeps _ (defer _ _) => apply keeps_defer; [reflexivity|]
    | |- keeps _ (forM_ _ _) => apply keeps_forM_
    | |- keeps _ (foldM _ _ _) => apply keeps_foldM
    | |- keeps _ (range_foldM _ _ _ _) => apply keeps_range_foldM
    | |- keeps _ (bind _ _) => apply keeps_bind
    | |- keeps _ (if ?b then _ else _) => destruct b
    | |- keeps _ (match ?x with _ => _ end) => destruct x
    end.

Ltac finishes_tac :=
  repeat match goal with
    | |- forall _, _ => intro
    | |- finishes _ (ret _) => apply finishes_ret; reflexivity
    | |- finishes _ (defer _ _) => apply finishes_defer; [reflexivity|]
    | |- finishes _ (bind _ _) => apply finishes_bind; [keeps_tac|]
    | |- finishes _ (if ?b then _ else _) => destruct b
    | |- finishes _ (match ?x with _ => _ end) => destruct x
    end.

Ltac hands_over_tac :=
  repeat match goal with
    | |- forall _, _ => intro
    | |- hands_over (bind (newContainerValuesNode _) _) =>
        apply hands_over_allocate
    | |- hands_over (bind _ _) => apply hands_over_bind; [preserves_tac|]
    | |- hands_over (defer _ _) => apply hands_over_defer; [reflexivity|]
    end; finishes_tac.

(** X3.  When a construction callback succeeds, the plan it returns reads
    from exactly one container allocated by the callback, that container is
    open (it now belongs to the caller), and the containers that existed
    before are as they were.  This holds for all nine callbacks. *)
Theorem callbacks_hand_over_container (p : planner) :
  (forall name columns, hands_over (Show_constructor name columns p))
  /\ (forall tn, hands_over (ShowColumns_constructor tn p))
  /\ (forall name columns, hands_over (ShowTables_constructor name columns p))
  /\ (forall n desc, hands_over (ShowCreateTable_constructor n desc p))
  /\ (forall n tn desc, hands_over (ShowCreateView_constructor n tn desc p))
  /\ (forall n targets columns, hands_over (ShowGrants_constructor n targets columns p))
  /\ (forall tn desc, hands_over (ShowIndex_constructor tn desc p))
  /\ (forall tn desc, hands_over (ShowConstraints_constructor tn desc p))
  /\ (forall name, hands_over (Help_constructor name p)).
Proof.
  split; [|split; [|split; [|split; [|split; [|split; [|split; [|split]]]]]]].
  - unfold Show_constructor. hands_over_tac.
  - unfold ShowColumns_constructor. cbv zeta. hands_over_tac.
  - unfold ShowTables_constructor. hands_over_tac.
  - unfold ShowCreateTable_constructor. hands_over_tac.
  - unfold ShowCreateView_constructor. hands_over_tac.
  - unfold ShowGrants_constructor, ShowGrants_tableTarget, ShowGrants_table,
      ShowGrants_database.
    hands_over_tac.
  - unfold ShowIndex_constructor, ShowIndex_index. hands_over_tac.
  - unfold ShowConstraints_constructor. hands_over_tac.
  - unfold Help_constructor. hands_over_tac.
Qed.

(** *** Plans and their callbacks *)

(** X4.  Whatever plan the builders of SHOW <var>, SHOW COLUMNS, SHOW TABLES,
    SHOW CREATE TABLE, SHOW GRANTS, SHOW INDEX and HELP return, its callback,
    run by any planner in any state, has closed every container it allocated
    when it returns an error. *)
Theorem plans_release_on_error (p p' : planner) (d : delayedNode) :
  (exists n, Show p n = Ok d)
  \/ (exists n, ShowColumns p n = Ok d)
  \/ (exists n, ShowTables p n = Ok d)
  \/ (exists n, ShowCreateTable p n = Ok d)
  \/ (exists n, ShowGrants p n = Ok d)
  \/ (exists n, ShowIndex p n = Ok d)
  \/ (exists n, Help p n = Ok d) ->
  forall s e s', constructor d p' s = (Err e, s') -> released_since s s'.
Proof.
  intros Hd. change (tidy (constructor d p')).
  destruct Hd as [[n H]|[[n H]|[[n H]|[[n H]|[[n H]|[[n H]|[n H]]]]]]].
  - unfold Show in H.
    destruct (Show_columns (ToUpper (Show_Name n))); try discriminate.
    injection H as <-. apply tidy_Show.
  - unfold ShowColumns in H.
    destruct (NormalizeWithDatabaseName _ _); try discriminate.
    injection H as <-. apply tidy_ShowColumns.
  - unfold ShowTables in H.
    destruct (_ =? "")%string; try discriminate.
    injection H as <-. apply tidy_ShowTables.
  - unfold ShowCreateTable in H.
    destruct (NormalizeWithDatabaseName _ _) as [tn| |]; try discriminate.
    cbn [obind] in H.
    destruct (mustGetTableDesc p tn) as [desc| |]; try discriminate.
    cbn [obind] in H.
    destruct (anyPrivilege p desc); try discriminate.
    injection H as <-. apply tidy_ShowCreateTable.
  - unfold ShowGrants in H.
    destruct (ShowGrants_Targets n); try discriminate.
    injection H as <-. apply tidy_ShowGrants.
  - unfold ShowIndex in H.
    destruct (NormalizeWithDatabaseName _ _) as [tn| |]; try discriminate.
    cbn [obind] in H.
    destruct (mustGetTableDesc p tn) as [desc| |]; try discriminate.
    cbn [obind] in H.
    destruct (anyPrivilege p desc); try discriminate.
    injection H as <-. apply tidy_ShowIndex.
  - unfold Help in H. injection H as <-. apply tidy_Help.
Qed.

(** *** SHOW <var>: the lookup in the callback *)

Lemma AddRow_or_close_no_panic (p : planner) (v : valuesNode) (row : DTuple)
  (s : pstate) :
  vn_rows v < length (containers s) ->
  (exists s', AddRow_or_close p v row s = (Ok tt, s')
              /\ length (containers s') = length (containers s))
  \/ (exists e s', AddRow_or_close p v row s = (Err e, s')).
Proof.
  intros Hlt. unfold AddRow_or_close, onErr, AddRow.
  destruct (nth_error (containers s) (vn_rows v)) as [rc|] eqn:E.
  - destruct (addRowErr p (rc_rows rc) row) as [e|].
    + right. rewrite close_and_fail. eauto.
    + left. eexists. split; [reflexivity | apply add_row_length].
  - apply nth_error_None in E. lia.
Qed.

Lemma Show_all_no_panic (p : planner) (v : valuesNode) (l : list string) :
  (forall k, In k l -> In k varNames) ->
  forall s msg, vn_rows v < length (containers s) ->
    fst (forM_ l (fun vName =>
           gen <- lift (map_call varGen vName) ;;
           AddRow_or_close p v [DString vName; DString (gen p)]) s)
    <> Panic msg.
Proof.
  induction l as [|k l IH]; intros Hl s msg Hlt; [discriminate|].
  cbn [forM_]. unfold bind at 1.
  rewrite Show_all_body by (apply Hl; now left).
  destruct (AddRow_or_close_no_panic p v
              [DString k; DString (var_value p k)] s Hlt)
    as [(s1 & -> & Hlen)|(e & s1 & ->)].
  - apply IH; [intros k' Hk'; apply Hl; now right | now rewrite Hlen].
  - discriminate.
Qed.

(** X5.  The callback of SHOW <var> calls the function registered for the
    variable without testing for its presence.  The plan builder makes that
    safe: it fails with the unknown-variable error (naming the upper-cased
    name) exactly when the name is not ALL and not registered, the callback
    of a plan it returns never panics, and the callback run on a name the
    builder rejects would call a nil function. *)
Theorem Show_lookup_guarded (p : planner) (n : parser.Show) :
  ((exists e, Show p n = Err e)
   <-> ToUpper (Show_Name n) <> "ALL"
       /\ map_get varGen (ToUpper (Show_Name n)) = None)
  /\ (forall e, Show p n = Err e ->
        e = errUnknownVariable (ToUpper (Show_Name n))
        /\ forall columns p' s,
             fst (Show_constructor (ToUpper (Show_Name n)) columns p' s)
             = Panic "call of nil function")
  /\ (forall d, Show p n = Ok d ->
        forall p' s msg, fst (constructor d p' s) <> Panic msg).
Proof.
  unfold Show, Show_columns.
  destruct (String.eqb_spec (ToUpper (Show_Name n)) "ALL") as [Hall|Hne].
  - cbn [obind]. split; [|split].
    + split; [intros [e H]; discriminate | intros [H _]; now elim H].
    + intros e H. discriminate.
    + intros d H. injection H as <-. cbn [constructor]. intros p' s msg.
      unfold Show_constructor. rewrite Hall.
      change ("ALL" =? "ALL")%string with true. cbv iota.
      unfold bind at 1. unfold newContainerValuesNode at 1. cbv beta iota.
      unfold bind at 1.
      match goal with |- context [forM_ varNames ?body ?st] =>
        pose proof (Show_all_no_panic p'
                      (mkValuesNode
                         [col "Variable" TypeString; col "Value" TypeString]
                         (length (containers s)))
                      varNames (fun k H => H) st) as Hloop;
        destruct (forM_ varNames body st) as [[[]|e|msg'] s1]
      end; cbn [fst] in *; try discriminate.
      intros _. apply (Hloop msg'); [|reflexivity].
      cbn [vn_rows set_containers containers].
      rewrite length_app. simpl. lia.
  - destruct (map_get varGen (ToUpper (Show_Name n))) as [gen|] eqn:Hgen;
      cbn [obind].
    + split; [|split].
      * split; [intros [e H]; discriminate | intros [_ H]; discriminate].
      * intros e H. discriminate.
      * intros d H. injection H as <-. cbn [constructor]. intros p' s msg.
        unfold Show_constructor.
        apply String.eqb_neq in Hne. rewrite Hne.
        unfold bind at 1. unfold newContainerValuesNode at 1. cbv beta iota.
        unfold bind at 1. unfold bind at 1. unfold lift, map_call. rewrite Hgen.
        match goal with |- context [AddRow_or_close ?q ?v ?row ?st] =>
          destruct (AddRow_or_close_no_panic q v row st)
            as [(s1 & -> & _)|(e & s1 & ->)]
        end; try discriminate.
        cbn [vn_rows set_containers containers].
        rewrite length_app. simpl. lia.
    + split; [|split].
      * split; [intros _; now split | intros _; eexists; reflexivity].
      * intros e H. injection H as <-. split; [reflexivity|].
        intros columns p' s. unfold Show_constructor.
        apply String.eqb_neq in Hne. rewrite Hne.
        unfold bind at 1. unfold newContainerValuesNode at 1. cbv beta iota.
        unfold bind at 1. unfold bind at 1. unfold lift, map_call. rewrite Hgen.
        reflexivity.
      * intros d H. discriminate.
Qed.

(** *** HELP *)

(** X6.  HELP never fails to build; its plan is named after the lower-cased
    function name.  When no container is ever full, its callback returns one
    row per overload of the function, in the order of the registry, each
    starting with the lower-cased name; for a name that is not registered it
    returns no row and no error. *)
Theorem Help_rows (p : planner) (n : parser.Help) (s : pstate) :
  never_fails p ->
  exists d,
    Help p n = Ok d
    /\ dn_name d = "HELP " ++ ToLower (Name_String (Help_Name n))
    /\ exists node s',
         constructor d p s = (Ok node, s')
         /\ planRows s' node
            = match Builtins (ToLower (Name_String (Help_Name n))) with
              | None => []
              | Some matches =>
                  map (fun f => [ DString (ToLower (Name_String (Help_Name n)));
                                  DString (Builtin.Signature f);
                                  DString (Builtin.Category f);
                                  DString (Builtin.Info f) ])
                      matches
              end.
Proof.
  intros Hnf. unfold Help.
  destruct (newContainerValuesNode_run Help_columns s) as (s1 & Hnew & Hcs & _).
  destruct (rows_of_fresh Help_columns s s1 Hcs) as [Hrows Hlt].
  set (name := ToLower (Name_String (Help_Name n))).
  eexists. split; [reflexivity|]. split; [reflexivity|].
  cbn [constructor]. unfold Help_constructor.
  unfold bind at 1. rewrite Hnew. cbv beta iota.
  destruct (Builtins name) as [matches|].
  - unfold bind at 1.
    rewrite (forM_add_rows p (mkValuesNode Help_columns (length (containers s)))
               matches _
               (fun f => [ DString name; DString (Builtin.Signature f);
                           DString (Builtin.Category f);
                           DString (Builtin.Info f) ]) s1 Hnf Hlt)
      by reflexivity.
    eexists _, _. split; [reflexivity|]. cbn [planRows].
    rewrite rows_of_add_rows by exact Hlt. rewrite Hrows. reflexivity.
  - eexists _, _. split; [reflexivity|]. exact Hrows.
Qed.

(** *** SHOW TABLES and SHOW COLUMNS: the query under the overridden database *)

Lemma add_rows_trace (v : nat) (rows : list DTuple) (s : pstate) :
  trace (add_rows v rows s) = trace s.
Proof.
  unfold add_rows. revert s; induction rows as [|r rows IH]; intros s; simpl; auto.
  now rewrite IH.
Qed.

(** The common end of both callbacks: the query is answered for the
    database [db], its rows go to a new container in the order of the
    answer, and the current database is the original one afterwards. *)
Lemma scoped_query_run (p : planner) (db sql : string) (args : list string)
  (columns : ResultColumns) (s : pstate) :
  (forall rows,
     never_fails p -> queryRows p db sql args = Ok rows ->
     exists s',
       (origDatabase <- gets evalCtx_Database ;;
        modify (set_evalCtx_Database db) ;;;
        defer (set_evalCtx_Database origDatabase)
          (rows <- call_queryRows p sql args ;;
           v <- newContainerValuesNode columns ;;
           forM_ rows (fun r => AddRow_or_close p v r) ;;;
           ret (PlanValues v))) s
       = (Ok (PlanValues (mkValuesNode columns (length (containers s)))), s')
       /\ rows_of s' (mkValuesNode columns (length (containers s))) = rows
       /\ trace s' = (trace s ++ [EvQueryRows sql args])%list
       /\ evalCtx_Database s' = evalCtx_Database s)
  /\ (forall e,
        queryRows p db sql args = Err e ->
        (origDatabase <- gets evalCtx_Database ;;
         modify (set_evalCtx_Database db) ;;;
         defer (set_evalCtx_Database origDatabase)
           (rows <- call_queryRows p sql args ;;
            v <- newContainerValuesNode columns ;;
            forM_ rows (fun r => AddRow_or_close p v r) ;;;
            ret (PlanValues v))) s
        = (Err e, log (EvQueryRows sql args) s)).
Proof.
  split.
  - intros rows Hnf Hq.
    unfold bind at 1. unfold gets at 1. cbv beta iota.
    unfold bind at 1. unfold modify at 1. cbv beta iota.
    unfold defer. unfold bind at 1. unfold call_queryRows at 1.
    cbn [set_evalCtx_Database evalCtx_Database]. rewrite Hq. cbv beta iota.
    set (s1 := log (EvQueryRows sql args) (set_evalCtx_Database db s)).
    destruct (newContainerValuesNode_run columns s1) as (s2 & Hnew & Hcs & _).
    destruct (rows_of_fresh columns s1 s2 Hcs) as [Hrows Hlt].
    change (length (containers s1)) with (length (containers s)) in *.
    unfold bind at 1. rewrite Hnew. cbv beta iota.
    unfold bind at 1.
    rewrite (forM_add_rows p (mkValuesNode columns (length (containers s)))
               rows _ (fun r => r) s2 Hnf Hlt) by reflexivity.
    cbv beta iota. unfold ret. rewrite map_id.
    eexists. split; [reflexivity|]. split; [|split].
    + match goal with |- rows_of (set_evalCtx_Database _ ?st) ?v = _ =>
        change (rows_of st v = rows) end.
      rewrite (rows_of_add_rows (mkValuesNode columns (length (containers s))))
        by exact Hlt.
      now rewrite Hrows.
    + cbn [set_evalCtx_Database trace]. rewrite add_rows_trace.
      injection Hnew as <-. reflexivity.
    + reflexivity.
  - intros e Hq.
    unfold bind at 1. unfold gets at 1. cbv beta iota.
    unfold bind at 1. unfold modify at 1. cbv beta iota.
    unfold defer. unfold bind at 1. unfold call_queryRows at 1.
    cbn [set_evalCtx_Database evalCtx_Database]. rewrite Hq.
    destruct s; reflexivity.
Qed.

(** X7.  SHOW TABLES takes the database named in the statement and falls
    back to the database of the session; with neither, the builder fails
    with the no-database error.  Once the database is known to exist, the
    callback asks for its tables with the current database set to it, and
    returns the rows of the answer in the order of the answer; an error of
    that query is returned as it is, before any container is allocated.  In
    both cases the current database is the original one afterwards. *)
Theorem ShowTables_rows (p : planner) (n : parser.ShowTables) (s : pstate) :
  let name := if (ShowTables_Database n =? "")%string
              then Database (session p) else ShowTables_Database n in
  (name = "" -> ShowTables p n = Err errNoDatabase)
  /\ (name <> "" ->
      exists d,
        ShowTables p n = Ok d
        /\ dn_name d = "SHOW TABLES FROM " ++ name
        /\ dn_columns d = [col "Table" TypeString]
        /\ forall r rs,
             queryRowsAsRoot p checkSchema [name] = Ok (r :: rs) ->
             (forall rows,
                never_fails p ->
                queryRows p name getTables [name] = Ok rows ->
                exists node s',
                  constructor d p s = (Ok node, s')
                  /\ planRows s' node = rows
                  /\ trace s'
                     = (trace s ++ [ EvQueryRowsAsRoot checkSchema [name];
                                     EvQueryRows getTables [name] ])%list
                  /\ evalCtx_Database s' = evalCtx_Database s)
             /\ (forall e,
                   queryRows p name getTables [name] = Err e ->
                   fst (constructor d p s) = Err e
                   /\ containers (snd (constructor d p s)) = containers s
                   /\ evalCtx_Database (snd (constructor d p s))
                      = evalCtx_Database s)).
Proof.
  intros name. unfold ShowTables. fold name. split.
  - intros ->. reflexivity.
  - intros Hname. apply String.eqb_neq in Hname. rewrite Hname.
    eexists. split; [reflexivity|]. split; [reflexivity|]. split; [reflexivity|].
    cbn [constructor]. intros r rs Hprobe.
    assert (Hhead :
      ShowTables_constructor name [col "Table" TypeString] p s
      = (origDatabase <- gets evalCtx_Database ;;
         modify (set_evalCtx_Database name) ;;;
         defer (set_evalCtx_Database origDatabase)
           (rows <- call_queryRows p getTables [name] ;;
            v <- newContainerValuesNode [col "Table" TypeString] ;;
            forM_ rows (fun r => AddRow_or_close p v r) ;;;
            ret (PlanValues v)))
          (log (EvQueryRowsAsRoot checkSchema [name]) s)).
    { unfold ShowTables_constructor.
      unfold bind at 1. unfold call_queryRowsAsRoot at 1. rewrite Hprobe.
      reflexivity. }
    rewrite Hhead.
    destruct (scoped_query_run p name getTables [name] [col "Table" TypeString]
                (log (EvQueryRowsAsRoot checkSchema [name]) s)) as [Hok Herr].
    split.
    + intros rows Hnf Hq.
      destruct (Hok rows Hnf Hq) as (s' & Hrun & Hrows & Htrace & Hdb).
      exists (PlanValues (mkValuesNode [col "Table" TypeString]
                            (length (containers s)))), s'.
      split; [exact Hrun|]. split; [exact Hrows|]. split.
      * rewrite Htrace. cbn [log trace]. now rewrite <- app_assoc.
      * exact Hdb.
    + intros e Hq. rewrite (Herr e Hq). repeat split.
Qed.

(** X8.  Once its three checks have passed (the table is virtual, or the
    user holds a privilege on it), the callback of SHOW COLUMNS asks for the
    columns with the current database set to the database of the table, and
    returns the rows of the answer in the order of the answer; the current
    database is the original one afterwards.  An error of that query is
    returned as it is, before any container is allocated. *)
Theorem ShowColumns_rows (p : planner) (tn : TableName.t) (s : pstate) :
  (exists r rs, queryRowsAsRoot p checkSchema [TableName.Database tn] = Ok (r :: rs)) ->
  (exists r rs,
     queryRowsAsRoot p checkTable [TableName.Database tn; TableName.Table tn]
     = Ok (r :: rs)) ->
  (exists virDesc, getVirtualTableDesc p tn = Ok (Some virDesc))
  \/ (getVirtualTableDesc p tn = Ok None
      /\ exists d ds,
           QueryRow p (evalCtx_Database s) checkTablePrivilege
             [TableName.Database tn; TableName.Table tn; User (session p)]
           = Ok (d :: ds)) ->
  (forall rows,
     never_fails p ->
     queryRows p (TableName.Database tn) getColumns
               [TableName.Database tn; TableName.Table tn] = Ok rows ->
     exists node s',
       ShowColumns_constructor tn p s = (Ok node, s')
       /\ planRows s' node = rows
       /\ evalCtx_Database s' = evalCtx_Database s)
  /\ (forall e,
        queryRows p (TableName.Database tn) getColumns
                  [TableName.Database tn; TableName.Table tn] = Err e ->
        fst (ShowColumns_constructor tn p s) = Err e
        /\ containers (snd (ShowColumns_constructor tn p s)) = containers s
        /\ evalCtx_Database (snd (ShowColumns_constructor tn p s))
           = evalCtx_Database s).
Proof.
  intros (r & rs & H1) (r' & rs' & H2) H3.
  assert (Hhead : exists s3,
            containers s3 = containers s
            /\ evalCtx_Database s3 = evalCtx_Database s
            /\ ShowColumns_constructor tn p s
               = (origDatabase <- gets evalCtx_Database ;;
                  modify (set_evalCtx_Database (TableName.Database tn)) ;;;
                  defer (set_evalCtx_Database origDatabase)
                    (rows <- call_queryRows p getColumns
                               [TableName.Database tn; TableName.Table tn] ;;
                     v <- newContainerValuesNode ShowColumns_columns ;;
                     forM_ rows (fun r => AddRow_or_close p v r) ;;;
                     ret (PlanValues v))) s3).
  { destruct H3 as [[virDesc Hv]|[Hv (d & ds & Hq)]].
    - eexists. split; [|split].
      3: { unfold ShowColumns_constructor. cbv zeta.
           unfold bind at 1. unfold call_queryRowsAsRoot at 1. rewrite H1.
           cbv beta iota. unfold bind at 1.
           change (length (r :: rs) =? 0)%nat with false.
           cbv beta iota. unfold ret at 1. cbv beta iota.
           unfold bind at 1. unfold call_queryRowsAsRoot at 1. rewrite H2.
           cbv beta iota. unfold bind at 1.
           change (length (r' :: rs') =? 0)%nat with false.
           cbv beta iota. unfold ret at 1. cbv beta iota.
           unfold bind at 1. unfold call_getVirtualTableDesc at 1. rewrite Hv.
           cbv beta iota. unfold bind at 1. unfold ret at 1. cbv beta iota.
           reflexivity. }
      + reflexivity.
      + reflexivity.
    - eexists. split; [|split].
      3: { unfold ShowColumns_constructor. cbv zeta.
           unfold bind at 1. unfold call_queryRowsAsRoot at 1. rewrite H1.
           cbv beta iota. unfold bind at 1.
           change (length (r :: rs) =? 0)%nat with false.
           cbv beta iota. unfold ret at 1. cbv beta iota.
           unfold bind at 1. unfold call_queryRowsAsRoot at 1. rewrite H2.
           cbv beta iota. unfold bind at 1.
           change (length (r' :: rs') =? 0)%nat with false.
           cbv beta iota. unfold ret at 1. cbv beta iota.
           unfold bind at 1. unfold call_getVirtualTableDesc at 1. rewrite Hv.
           cbv beta iota. unfold bind at 1. unfold bind at 1.
           unfold call_QueryRow at 1.
           cbn [log evalCtx_Database]. rewrite Hq.
           cbv beta iota.
           change (length (d :: ds) =? 0)%nat with false.
           cbv beta iota. unfold ret at 1. cbv beta iota.
           reflexivity. }
      + reflexivity.
      + reflexivity. }
  destruct Hhead as (s3 & Hcs3 & Hdb3 & ->).
  destruct (scoped_query_run p (TableName.Database tn) getColumns
              [TableName.Database tn; TableName.Table tn] ShowColumns_columns s3)
    as [Hok Herr].
  split.
  - intros rows Hnf Hq.
    destruct (Hok rows Hnf Hq) as (s' & Hrun & Hrows & _ & Hdb).
    eexists _, s'. split; [exact Hrun|]. split; [exact Hrows|]. congruence.
  - intros e Hq. rewrite (Herr e Hq). cbn [fst snd log containers evalCtx_Database].
    auto.
Qed.

(** *** SHOW CONSTRAINTS *)

Lemma insert_sorted_map {A B : Type} (f : A -> B) (leA : A -> A -> bool)
  (leB : B -> B -> bool) :
  (forall x y, leB (f x) (f y) = leA x y) ->
  forall x l, insert_sorted leB (f x) (map f l) = map f (insert_sorted leA x l).
Proof.
  intros Hf x l. induction l as [|y l IH]; [reflexivity|].
  cbn [map insert_sorted]. rewrite Hf.
  destruct (leA x y); cbn [map]; [reflexivity | now rewrite IH].
Qed.

(** Sorting the images by an order that reflects the order of the sources
    sorts the sources. *)
Lemma sort_by_map {A B : Type} (f : A -> B) (leA : A -> A -> bool)
  (leB : B -> B -> bool) :
  (forall x y, leB (f x) (f y) = leA x y) ->
  forall l, sort_by leB (map f l) = map f (sort_by leA l).
Proof.
  intros Hf l. induction l as [|x l IH]; [reflexivity|].
  cbn [map sort_by]. rewrite IH. now apply insert_sorted_map.
Qed.

Lemma String_compare_refl (a : string) : String.compare a a = Eq.
Proof.
  pose proof (String.compare_antisym a a) as H.
  destruct (String.compare a a); try reflexivity; discriminate.
Qed.

(** The rows of SHOW CONSTRAINTS carry the same table name: the sort stage
    orders them by the constraint name. *)
Lemma ShowConstraints_row_leb (tn : TableName.t) (a b : string * ConstraintDetail.t) :
  row_leb [asc 0; asc 1]
          (ShowConstraints_row tn (fst a) (snd a))
          (ShowConstraints_row tn (fst b) (snd b))
  = entry_leb a b.
Proof.
  unfold row_leb, entry_leb, String.leb, ShowConstraints_row.
  cbn [row_compare asc ColumnOrderInfo.ColIdx ColumnOrderInfo.Direction nth
       Datum_compare].
  rewrite String_compare_refl.
  destruct (String.compare (fst a) (fst b)); reflexivity.
Qed.

(** Entries of a map are determined by their keys. *)
Lemma same_keys_same_entries {V : Type} (m : list (string * V)) :
  NoDup (map fst m) ->
  forall l1 l2,
    (forall x, In x l1 -> In x m) -> (forall x, In x l2 -> In x m) ->
    map fst l1 = map fst l2 -> l1 = l2.
Proof.
  intros Hnd. induction l1 as [|x l1 IH]; intros [|y l2] H1 H2 Hk;
    try discriminate; [reflexivity|].
  cbn [map] in Hk. injection Hk as Hxy Hk.
  f_equal.
  - apply (NoDup_map_injective fst m x y Hnd); [apply H1 | apply H2 | exact Hxy];
      now left.
  - apply IH; [| |exact Hk]; intros z Hz; [apply H1 | apply H2]; now right.
Qed.

(** Ranging over the constraint map in another order gives the same sorted
    entries. *)
Lemma sorted_entries_any_order (info info' : list (string * ConstraintDetail.t)) :
  NoDup (map fst info) -> Permutation info info' ->
  sort_by entry_leb info' = sort_by entry_leb info.
Proof.
  intros Hnd Hperm.
  apply (same_keys_same_entries info Hnd).
  - intros x Hx. apply (Permutation_in x (sort_by_perm _ entry_leb info')) in Hx.
    eapply Permutation_in; [apply Permutation_sym; exact Hperm | exact Hx].
  - intros x Hx. exact (Permutation_in x (sort_by_perm _ entry_leb info) Hx).
  - rewrite <- (sort_by_map fst entry_leb String.leb (fun x y => eq_refl) info').
    rewrite <- (sort_by_map fst entry_leb String.leb (fun x y => eq_refl) info).
    apply sort_Strings_any_order. apply Permutation_map, Permutation_sym, Hperm.
Qed.

(** X9.  When the constraints of the table can be read and no container is
    ever full, the callback of SHOW CONSTRAINTS returns one row per
    constraint (table, name, kind, columns, details), in ascending order of
    the constraint names.  The constraints come from a Go map, ranged over
    in an unspecified order: since the names are the keys of the map, the
    rows and their order are the same for every order of iteration.  The
    order is that of the sort stage, whose executor is modelled from the
    spec ([sortRows]). *)
Theorem ShowConstraints_rows (p : planner) (tn : TableName.t)
  (desc : TableDescriptor.t) (info : list (string * ConstraintDetail.t))
  (s : pstate) :
  never_fails p ->
  GetConstraintInfo p desc = Ok info ->
  (exists node s',
     ShowConstraints_constructor tn desc p s = (Ok node, s')
     /\ planRows s' node
        = map (fun e => ShowConstraints_row tn (fst e) (snd e))
              (sort_by entry_leb info))
  /\ Sorted (le_of entry_leb) (sort_by entry_leb info)
  /\ Permutation (sort_by entry_leb info) info
  /\ (forall info',
        NoDup (map fst info) -> Permutation info info' ->
        sort_by entry_leb info' = sort_by entry_leb info).
Proof.
  intros Hnf Hinfo. split; [|split; [|split]].
  - destruct (newContainerValuesNode_run ShowConstraints_columns s)
      as (s1 & Hnew & Hcs & _).
    destruct (rows_of_fresh ShowConstraints_columns s s1 Hcs) as [Hrows Hlt].
    unfold ShowConstraints_constructor.
    unfold bind at 1. rewrite Hnew. cbv beta iota.
    unfold bind at 1. unfold lift at 1. rewrite Hinfo. cbv beta iota.
    unfold bind at 1.
    rewrite (forM_add_rows p
               (mkValuesNode ShowConstraints_columns (length (containers s)))
               info _ (fun e => ShowConstraints_row tn (fst e) (snd e)) s1 Hnf Hlt)
      by (intros [name c] s2 _; reflexivity).
    eexists _, _. split; [reflexivity|].
    cbn [planRows sn_ordering]. 
    rewrite rows_of_add_rows by exact Hlt. rewrite Hrows. cbn [app].
    unfold sortRows. apply sort_by_map. intros x y. apply ShowConstraints_row_leb.
  - apply sort_by_Sorted. intros x y. apply String.leb_total.
  - apply sort_by_perm.
  - intros info' Hnd Hperm. now apply sorted_entries_any_order.
Qed.

(** *** SHOW CREATE VIEW *)

Lemma customColNames_loop_shift (planCols : ResultColumns)
  (d : ColumnDescriptor.t) (descCols : list ColumnDescriptor.t) :
  forall i, customColNames_loop (S i) planCols (d :: descCols)
            = customColNames_loop i planCols descCols.
Proof.
  induction planCols as [|c rest IH]; intros i; [reflexivity|].
  cbn [customColNames_loop]. unfold Go.index. cbn [nth_error].
  destruct (nth_error descCols i) as [dcol|]; cbn [obind]; [|reflexivity].
  destruct (negb _); [reflexivity | apply IH].
Qed.

(** The loop deciding [customColNames] reads [desc.Columns[i]] for every
    column of the plan up to the first renamed one. *)
Lemma customColNames_loop_spec (planCols : ResultColumns) :
  forall descCols,
    customColNames_loop 0 planCols descCols
    = if renamed planCols descCols then Ok true
      else if (length planCols <=? length descCols)%nat then Ok false
           else Panic "index out of range".
Proof.
  induction planCols as [|c rest IH]; intros [|d descCols]; try reflexivity.
  cbn [customColNames_loop]. unfold Go.index. cbn [nth_error obind].
  unfold renamed. cbn [combine existsb fst snd].
  destruct (negb (ResultColumn.Name c =? ColumnDescriptor.Name d)%string);
    [reflexivity|].
  cbn [orb]. rewrite customColNames_loop_shift, IH. reflexivity.
Qed.

(** X10.  Once the stored query of the view has parsed as a SELECT and its
    plan has been built, the callback of SHOW CREATE VIEW compares the
    column names of the plan with those of the descriptor position by
    position.  If some name differs, the statement it returns lists the
    column names of the descriptor, joined by a comma and a space, between
    the view name and AS; otherwise it lists none.  A plan with more columns
    than the descriptor, none of them renamed within the descriptor's
    length, makes the callback panic on the index. *)
Theorem ShowCreateView_text (p : planner) (n : parser.ShowCreateView)
  (tn : TableName.t) (desc : TableDescriptor.t) (s : pstate)
  (sel : Select) (planCols : ResultColumns) :
  ParseOneTraditional (TableDescriptor.ViewQuery desc) = Ok (StmtSelect sel) ->
  Select_Columns p true sel = Ok planCols ->
  (renamed planCols (TableDescriptor.Columns desc) = false ->
   length (TableDescriptor.Columns desc) < length planCols ->
   fst (ShowCreateView_constructor n tn desc p s) = Panic "index out of range")
  /\ (never_fails p ->
      renamed planCols (TableDescriptor.Columns desc) = true
      \/ length planCols <= length (TableDescriptor.Columns desc) ->
      exists node s',
        ShowCreateView_constructor n tn desc p s = (Ok node, s')
        /\ planRows s' node
           = [[ DString (NormalizableTableName_String (ShowCreateView_View n));
                DString
                  ("CREATE VIEW "
                   ++ quoteNames [NormalizableTableName_String (ShowCreateView_View n)]
                   ++ " "
                   ++ (if renamed planCols (TableDescriptor.Columns desc)
                       then "("
                            ++ Join (map ColumnDescriptor.Name
                                         (TableDescriptor.Columns desc)) ", "
                            ++ ") "
                       else "")
                   ++ "AS " ++ TableDescriptor.ViewQuery desc) ]]).
Proof.
  intros Hparse Hsel.
  destruct (newContainerValuesNode_run ShowCreateView_columns s)
    as (s1 & Hnew & Hcs & _ & _ & _).
  destruct (rows_of_fresh ShowCreateView_columns s s1 Hcs) as [Hrows Hlt].
  set (v := mkValuesNode ShowCreateView_columns (length (containers s))) in *.
  assert (Hrun :
    ShowCreateView_constructor n tn desc p s
    = let (r, s') :=
        (customColNames <- lift (customColNames_loop 0 planCols
                                   (TableDescriptor.Columns desc)) ;;
         let buf := "CREATE VIEW "
                    ++ quoteNames [NormalizableTableName_String (ShowCreateView_View n)]
                    ++ " " in
         let buf :=
           if (customColNames : bool)
           then buf ++ "("
                ++ Join (map ColumnDescriptor.Name (TableDescriptor.Columns desc)) ", "
                ++ ") "
           else buf in
         let buf := buf ++ "AS " ++ TableDescriptor.ViewQuery desc in
         AddRow_or_close p v
           [ DString (NormalizableTableName_String (ShowCreateView_View n));
             DString buf ] ;;;
         ret (PlanValues v))
          (log (EvSelect sel) (set_skipSelectPrivilegeChecks true s1)) in
      (r, set_skipSelectPrivilegeChecks false s')).
  { unfold ShowCreateView_constructor.
    unfold bind at 1. rewrite Hnew. cbv beta iota.
    unfold bind at 1. unfold onErr at 1, lift at 1. rewrite Hparse. cbv beta iota.
    unfold bind at 1. unfold ret at 1. cbv beta iota.
    unfold bind at 1. unfold modify at 1. cbv beta iota.
    unfold defer.
    unfold bind at 1. unfold call_Select at 1.
    cbn [set_skipSelectPrivilegeChecks skipSelectPrivilegeChecks].
    rewrite Hsel. reflexivity. }
  rewrite Hrun. clear Hrun. cbv zeta.
  unfold bind at 1. unfold lift at 1.
  rewrite customColNames_loop_spec.
  split.
  - intros Hren Hlen. rewrite Hren.
    apply Nat.leb_gt in Hlen. rewrite Hlen. reflexivity.
  - intros Hnf Hcase.
    assert (Hloop : (if renamed planCols (TableDescriptor.Columns desc)
                     then Ok true
                     else if (length planCols
                              <=? length (TableDescriptor.Columns desc))%nat
                          then Ok false else Panic "index out of range")
                    = Ok (renamed planCols (TableDescriptor.Columns desc))).
    { destruct (renamed planCols (TableDescriptor.Columns desc)); [reflexivity|].
      destruct Hcase as [Hc|Hc]; [discriminate|].
      apply Nat.leb_le in Hc. now rewrite Hc. }
    rewrite Hloop. unfold lift at 1. cbv beta iota.
    unfold bind.
    rewrite AddRow_or_close_ok; [|exact Hnf|exact Hlt].
    cbv beta iota. unfold ret.
    eexists _, _. split; [reflexivity|].
    cbn [planRows].
    match goal with |- rows_of (set_skipSelectPrivilegeChecks _ ?st) ?v = _ =>
      change (rows_of (set_skipSelectPrivilegeChecks false st) v)
        with (rows_of st v) end.
    rewrite (rows_of_add_row v) by exact Hlt.
    change (rows_of (log (EvSelect sel) (set_skipSelectPrivilegeChecks true s1)) v)
      with (rows_of s1 v).
    rewrite Hrows. cbn [app].
    destruct (renamed planCols (TableDescriptor.Columns desc));
      repeat rewrite append_assoc; reflexivity.
Qed.

(** *** SHOW GRANTS: the queries and their parameters *)

Lemma logs_trace (evs : list event) (s : pstate) :
  trace (logs evs s) = (trace s ++ evs)%list.
Proof.
  unfold logs. revert s; induction evs as [|ev evs IH]; intros s; cbn [fold_left].
  - now rewrite app_nil_r.
  - rewrite IH. cbn [log trace]. now rewrite <- app_assoc.
Qed.

Lemma logs_containers (evs : list event) (s : pstate) :
  containers (logs evs s) = containers s.
Proof.
  unfold logs. revert s; induction evs as [|ev evs IH]; intros s; cbn [fold_left].
  - reflexivity.
  - now rewrite IH.
Qed.

Lemma logs_evalCtx (evs : list event) (s : pstate) :
  evalCtx_Database (logs evs s) = evalCtx_Database s.
Proof.
  unfold logs. revert s; induction evs as [|ev evs IH]; intros s; cbn [fold_left].
  - reflexivity.
  - now rewrite IH.
Qed.

Lemma logs_app (evs1 evs2 : list event) (s : pstate) :
  logs (evs1 ++ evs2) s = logs evs2 (logs evs1 s).
Proof. unfold logs. apply fold_left_app. Qed.

Lemma placeholders_S (start n : nat) :
  placeholders start (S n) = ("$" ++ itoa start) :: placeholders (S start) n.
Proof. reflexivity. Qed.

Lemma foldM_app {A St : Type} (body : St -> A -> M St) (l1 l2 : list A) :
  forall st s,
    foldM body (l1 ++ l2) st s
    = (st' <- foldM body l1 st ;; foldM body l2 st') s.
Proof.
  induction l1 as [|x l1 IH]; intros st s; [reflexivity|].
  cbn [app foldM]. unfold bind.
  destruct (body st x s) as [[st1|e|msg] s1]; [|reflexivity|reflexivity].
  rewrite IH. reflexivity.
Qed.

(** The loop over the grantees numbers them from [paramSeq] on and appends
    them to the arguments. *)
Lemma grantee_filter_spec (grantees : option (list string)) (query : string)
  (params paramHolders : list string) (paramSeq : nat) :
  exists paramHolders' paramSeq',
    grantee_filter grantees query (params, paramHolders, paramSeq)
    = (query ++ grantee_clause grantees paramSeq,
       ((params ++ grantee_args grantees)%list, paramHolders', paramSeq')).
Proof.
  destruct grantees as [gs|]; cbn [grantee_filter grantee_clause grantee_args].
  - assert (Hfold : forall (gs : list string) params hs paramSeq,
              fold_left (fun (acc : paramState) grantee =>
                           let '(params, paramHolders, paramSeq) := acc in
                           ((params ++ [grantee])%list,
                            (paramHolders ++ [("$" ++ itoa paramSeq)%string])%list,
                            S paramSeq))
                        gs (params, hs, paramSeq)
              = ((params ++ gs)%list,
                 (hs ++ placeholders paramSeq (length gs))%list,
                 paramSeq + length gs)).
    { clear. induction gs as [|g gs IH]; intros params hs paramSeq.
      - cbn. now rewrite !app_nil_r, Nat.add_0_r.
      - cbn [fold_left length]. rewrite IH, placeholders_S.
        rewrite <- !app_assoc. cbn [app].
        now rewrite Nat.add_succ_r. }
    rewrite Hfold. cbn [app]. eexists _, _. reflexivity.
  - eexists _, _. now rewrite append_nil_r, app_nil_r.
Qed.

(** The loop over the database targets, all of which exist: every database
    is probed once, numbered and appended to the arguments. *)
Lemma ShowGrants_databases_run (p : planner) (v : valuesNode) (dbs : list string) :
  (forall db, In db dbs ->
     exists r rs, queryRowsAsRoot p checkSchema [db] = Ok (r :: rs)) ->
  forall params paramHolders paramSeq s,
    foldM (ShowGrants_database p v) dbs (params, paramHolders, paramSeq) s
    = (Ok ((params ++ dbs)%list,
           (paramHolders ++ placeholders paramSeq (length dbs))%list,
           paramSeq + length dbs),
       logs (map database_probe dbs) s).
Proof.
  induction dbs as [|db dbs IH]; intros Hall params hs paramSeq s.
  - cbn. now rewrite !app_nil_r, Nat.add_0_r.
  - destruct (Hall db (or_introl eq_refl)) as (r & rs & Hprobe).
    cbn [foldM]. unfold bind at 1. unfold ShowGrants_database at 1.
    unfold bind at 1. unfold onErr at 1, checkFn at 1. unfold bind at 1.
    unfold call_queryRowsAsRoot at 1. rewrite Hprobe.
    cbv beta iota. unfold ret at 1. cbv beta iota.
    change (negb (0 <? length (r :: rs))%nat) with false. cbv beta iota.
    unfold ret at 1. cbv beta iota.
    rewrite IH by (intros db' Hin; apply Hall; now right).
    cbn [length map]. rewrite placeholders_S, <- !app_assoc. cbn [app].
    rewrite Nat.add_succ_r. reflexivity.
Qed.

(** The body of the loop on a database that does not exist. *)
Lemma ShowGrants_database_missing (p : planner) (v : valuesNode) (db : string)
  (st : paramState) (s : pstate) :
  queryRowsAsRoot p checkSchema [db] = Ok [] ->
  ShowGrants_database p v st db s
  = (Err (errUndefinedDatabase db), snd (Close v (log (database_probe db) s))).
Proof.
  intros Hprobe. destruct st as [[params hs] paramSeq].
  unfold ShowGrants_database.
  unfold bind at 1. unfold onErr at 1, checkFn at 1. unfold bind at 1.
  unfold call_queryRowsAsRoot at 1. rewrite Hprobe. reflexivity.
Qed.

(** The grants query, on every exit path, is the one catalog access of
    [queryFn]. *)
Lemma trace_queryFn_or_close (p : planner) (v : valuesNode) (sql : string)
  (args : list string) (s : pstate) :
  trace (snd (onErr (queryFn p v sql args) (fun err => Close v ;;; fail err) s))
  = (trace s ++ [EvQueryRows sql args])%list.
Proof.
  assert (Hrows : forall rows,
            preserves trace (forM_ rows (fun r => AddRow p v r)))
    by (intros rows; preserves_tac).
  unfold onErr, queryFn. unfold bind at 1. unfold call_queryRows.
  destruct (queryRows p (evalCtx_Database s) sql args) as [rows|e|msg];
    try reflexivity.
  specialize (Hrows rows (log (EvQueryRows sql args) s)).
  destruct (forM_ rows _ _) as [[[]|e|msg] s1]; cbn [snd] in *; exact Hrows.
Qed.

Lemma queryFn_ok (p : planner) (v : valuesNode) (sql : string)
  (args : list string) (rows : list DTuple) (s : pstate) :
  never_fails p -> vn_rows v < length (containers s) ->
  queryRows p (evalCtx_Database s) sql args = Ok rows ->
  queryFn p v sql args s
  = (Ok tt, add_rows (vn_rows v) rows (log (EvQueryRows sql args) s)).
Proof.
  intros Hnf Hlt Hq. unfold queryFn. unfold bind at 1. unfold call_queryRows.
  rewrite Hq.
  assert (Hloop : forall rows s1,
            vn_rows v < length (containers s1) ->
            forM_ rows (fun r => AddRow p v r) s1
            = (Ok tt, add_rows (vn_rows v) rows s1)).
  { clear - Hnf. induction rows as [|r rows IH]; intros s1 Hlt; [reflexivity|].
    cbn [forM_]. unfold bind. rewrite AddRow_ok by assumption.
    rewrite IH by (rewrite add_row_length; exact Hlt). reflexivity. }
  apply Hloop. exact Hlt.
Qed.

(** The callback of SHOW GRANTS on database targets that all exist, up to
    the grants query. *)
Lemma ShowGrants_databases_head (p : planner) (n : parser.ShowGrants)
  (targets : TargetList.t) (columns : ResultColumns) (dbs : list string)
  (s : pstate) :
  TargetList.Databases targets = Some dbs ->
  TargetList.Tables targets = None ->
  (forall db, In db dbs ->
     exists r rs, queryRowsAsRoot p checkSchema [db] = Ok (r :: rs)) ->
  ShowGrants_constructor n targets columns p s
  = (onErr (queryFn p (mkValuesNode columns (length (containers s)))
              (schemaGrants_query (placeholders 1 (length dbs))
               ++ grantee_clause (ShowGrants_Grantees n) (1 + length dbs))
              (dbs ++ grantee_args (ShowGrants_Grantees n))%list)
           (fun err => Close (mkValuesNode columns (length (containers s))) ;;;
                       fail err) ;;;
     ret (PlanSelectTop (mkValuesNode columns (length (containers s)))
                        (mkSortNode grants_ordering columns)))
      (logs (map database_probe dbs)
            (set_containers (containers s ++ [mkRowContainer [] false]) s)).
Proof.
  intros Hdbs Htables Hall.
  unfold ShowGrants_constructor. rewrite Hdbs, Htables.
  unfold bind at 1. unfold newContainerValuesNode at 1. cbv beta iota.
  unfold bind at 1. unfold bind at 1.
  rewrite (ShowGrants_databases_run p _ dbs Hall).
  cbv beta iota. cbn [app].
  match goal with |- context [grantee_filter ?g ?q (?a, ?b, ?c)] =>
    destruct (grantee_filter_spec g q a b c) as (hs' & seq' & ->) end.
  cbv beta iota. unfold bind.
  match goal with |- context [onErr ?m ?h ?st] =>
    destruct (onErr m h st) as [[[]|e|msg] s2] end; reflexivity.
Qed.

(** X11.  For database targets that all exist (and no table target), the
    callback of SHOW GRANTS probes every database once, in the order of the
    statement, and then issues exactly one grants query: the placeholders of
    the databases are [$1] to [$k], those of the grantees, if any, continue
    from [$k+1], and the arguments are the databases followed by the
    grantees, so that every placeholder has its argument.  The rows of the
    plan are the answer to that query, sorted; an error of the query is the
    error of the callback. *)
Theorem ShowGrants_database_query (p : planner) (n : parser.ShowGrants)
  (targets : TargetList.t) (columns : ResultColumns) (dbs : list string)
  (s : pstate) :
  TargetList.Databases targets = Some dbs ->
  TargetList.Tables targets = None ->
  (forall db, In db dbs ->
     exists r rs, queryRowsAsRoot p checkSchema [db] = Ok (r :: rs)) ->
  trace (snd (ShowGrants_constructor n targets columns p s))
  = (trace s ++ map database_probe dbs
     ++ [EvQueryRows
           (schemaGrants_query (placeholders 1 (length dbs))
            ++ grantee_clause (ShowGrants_Grantees n) (1 + length dbs))
           (dbs ++ grantee_args (ShowGrants_Grantees n))])%list
  /\ (forall rows,
        never_fails p ->
        queryRows p (evalCtx_Database s)
          (schemaGrants_query (placeholders 1 (length dbs))
           ++ grantee_clause (ShowGrants_Grantees n) (1 + length dbs))
          (dbs ++ grantee_args (ShowGrants_Grantees n))%list
        = Ok rows ->
        exists node s',
          ShowGrants_constructor n targets columns p s = (Ok node, s')
          /\ planRows s' node = sortRows grants_ordering rows)
  /\ (forall e,
        queryRows p (evalCtx_Database s)
          (schemaGrants_query (placeholders 1 (length dbs))
           ++ grantee_clause (ShowGrants_Grantees n) (1 + length dbs))
          (dbs ++ grantee_args (ShowGrants_Grantees n))%list
        = Err e ->
        fst (ShowGrants_constructor n targets columns p s) = Err e
        /\ closed_in (snd (ShowGrants_constructor n targets columns p s))
                     (length (containers s))).
Proof.
  intros Hdbs Htables Hall.
  rewrite (ShowGrants_databases_head p n targets columns dbs s Hdbs Htables Hall).
  set (v := mkValuesNode columns (length (containers s))).
  set (s1 := set_containers (containers s ++ [mkRowContainer [] false]) s).
  set (s2 := logs (map database_probe dbs) s1).
  set (sql := schemaGrants_query (placeholders 1 (length dbs))
              ++ grantee_clause (ShowGrants_Grantees n) (1 + length dbs)).
  set (args := (dbs ++ grantee_args (ShowGrants_Grantees n))%list).
  assert (Hlt : vn_rows v < length (containers s2)).
  { unfold s2. rewrite logs_containers. unfold s1, v.
    cbn [set_containers containers vn_rows]. rewrite length_app. simpl. lia. }
  assert (Hdb : evalCtx_Database s2 = evalCtx_Database s).
  { unfold s2. now rewrite logs_evalCtx. }
  split; [|split].
  - pose proof (trace_queryFn_or_close p v sql args s2) as Ht.
    unfold bind.
    destruct (onErr (queryFn p v sql args) _ s2) as [[[]|e|msg] s3];
      cbn [snd ret] in *; rewrite Ht; unfold s2; rewrite logs_trace;
      now rewrite <- app_assoc.
  - intros rows Hnf Hq. rewrite <- Hdb in Hq.
    unfold bind. unfold onErr.
    rewrite (queryFn_ok p v sql args rows s2 Hnf Hlt Hq).
    eexists _, _. split; [reflexivity|].
    cbn [planRows sn_ordering]. f_equal.
    rewrite (rows_of_add_rows v) by exact Hlt.
    unfold rows_of. cbn [log containers]. unfold s2. rewrite logs_containers.
    unfold s1, v. cbn [set_containers containers vn_rows].
    rewrite nth_error_app2 by lia. now rewrite Nat.sub_diag.
  - intros e Hq. rewrite <- Hdb in Hq.
    unfold bind. unfold onErr, queryFn. unfold bind. unfold call_queryRows.
    rewrite Hq. cbv beta iota. cbn [fst snd]. split; [reflexivity|].
    exact (Close_closes v (log (EvQueryRows sql args) s2) Hlt).
Qed.

(** X12.  The database targets of SHOW GRANTS are checked in the order of
    the statement, before any privilege is read: at the first database that
    does not exist the callback returns the undefined-database error naming
    it, with its container closed, having probed the databases up to that
    one and issued no grants query. *)
Theorem ShowGrants_missing_database (p : planner) (n : parser.ShowGrants)
  (targets : TargetList.t) (columns : ResultColumns)
  (pre : list string) (db : string) (post : list string) (s : pstate) :
  TargetList.Databases targets = Some (pre ++ db :: post)%list ->
  (forall db', In db' pre ->
     exists r rs, queryRowsAsRoot p checkSchema [db'] = Ok (r :: rs)) ->
  queryRowsAsRoot p checkSchema [db] = Ok [] ->
  fst (ShowGrants_constructor n targets columns p s) = Err (errUndefinedDatabase db)
  /\ closed_in (snd (ShowGrants_constructor n targets columns p s))
               (length (containers s))
  /\ trace (snd (ShowGrants_constructor n targets columns p s))
     = (trace s ++ map database_probe (pre ++ [db]))%list.
Proof.
  intros Hdbs Hpre Hmiss.
  assert (Hrun :
    ShowGrants_constructor n targets columns p s
    = (Err (errUndefinedDatabase db),
       snd (Close (mkValuesNode columns (length (containers s)))
              (logs (map database_probe (pre ++ [db]))
                    (set_containers (containers s ++ [mkRowContainer [] false])
                                    s))))).
  { unfold ShowGrants_constructor. rewrite Hdbs.
    unfold bind at 1. unfold newContainerValuesNode at 1. cbv beta iota.
    unfold bind at 1. unfold bind at 1.
    rewrite foldM_app. unfold bind at 1.
    rewrite (ShowGrants_databases_run p _ pre Hpre).
    cbv beta iota. cbn [foldM]. unfold bind at 1.
    rewrite ShowGrants_database_missing by exact Hmiss.
    rewrite map_app, logs_app. reflexivity. }
  rewrite Hrun. cbn [fst snd]. split; [reflexivity|]. split.
  - apply Close_closes. rewrite logs_containers.
    cbn [set_containers containers vn_rows]. rewrite length_app. simpl. lia.
  - unfold Close, modify. cbn [snd set_containers trace].
    now rewrite logs_trace.
Qed.

Lemma pair_placeholders_app (start a b : nat) :
  pair_placeholders start (a + b)
  = (pair_placeholders start a ++ pair_placeholders (start + 2 * a) b)%list.
Proof.
  revert start; induction a as [|a IH]; intros start.
  - cbn. now rewrite Nat.add_0_r.
  - cbn [Nat.add pair_placeholders app]. rewrite IH. do 3 f_equal. lia.
Qed.

(** The loop over the tables of one target, all of which exist: every table
    is probed once, takes a pair of placeholders and two arguments. *)
Lemma ShowGrants_tables_run (p : planner) (v : valuesNode)
  (tables : list TableName.t) :
  (forall t, In t tables ->
     exists r rs,
       queryRowsAsRoot p checkTable [TableName.Database t; TableName.Table t]
       = Ok (r :: rs)) ->
  forall params paramHolders paramSeq s,
    foldM (ShowGrants_table p v) tables (params, paramHolders, paramSeq) s
    = (Ok ((params ++ table_args tables)%list,
           (paramHolders ++ pair_placeholders paramSeq (length tables))%list,
           paramSeq + 2 * length tables),
       logs (map table_probe tables) s).
Proof.
  induction tables as [|t tables IH]; intros Hall params hs paramSeq s.
  - cbn. now rewrite !app_nil_r, Nat.add_0_r.
  - destruct (Hall t (or_introl eq_refl)) as (r & rs & Hprobe).
    cbn [foldM]. unfold bind at 1. unfold ShowGrants_table at 1.
    unfold bind at 1. unfold onErr at 1, checkFn at 1. unfold bind at 1.
    unfold call_queryRowsAsRoot at 1. rewrite Hprobe.
    cbv beta iota. unfold ret at 1. cbv beta iota.
    change (negb (0 <? length (r :: rs))%nat) with false. cbv beta iota.
    unfold ret at 1. cbv beta iota.
    rewrite IH by (intros t' Hin; apply Hall; now right).
    unfold table_args. cbn [length map flat_map pair_placeholders].
    rewrite <- !app_assoc. cbn [app].
    replace (paramSeq + 2 + 2 * length tables)
      with (paramSeq + 2 * S (length tables)) by lia.
    reflexivity.
Qed.

(** The loop over the table targets: every target is normalized and
    expanded, and its tables are handled in turn. *)
Lemma ShowGrants_tableTargets_run (p : planner) (v : valuesNode)
  (expand : TablePattern -> list TableName.t) (pats : list TablePattern) :
  (forall pat, In pat pats ->
     exists glob, NormalizeTablePattern pat = Ok glob
                  /\ expandTableGlob p glob = Ok (expand pat)) ->
  (forall t, In t (flat_map expand pats) ->
     exists r rs,
       queryRowsAsRoot p checkTable [TableName.Database t; TableName.Table t]
       = Ok (r :: rs)) ->
  forall params paramHolders paramSeq s,
    foldM (ShowGrants_tableTarget p v) pats (params, paramHolders, paramSeq) s
    = (Ok ((params ++ table_args (flat_map expand pats))%list,
           (paramHolders
              ++ pair_placeholders paramSeq (length (flat_map expand pats)))%list,
           paramSeq + 2 * length (flat_map expand pats)),
       logs (map table_probe (flat_map expand pats)) s).
Proof.
  induction pats as [|pat pats IH]; intros Hpats Hall params hs paramSeq s.
  - cbn. now rewrite !app_nil_r, Nat.add_0_r.
  - destruct (Hpats pat (or_introl eq_refl)) as (glob & Hnorm & Hexp).
    cbn [foldM]. unfold bind at 1. unfold ShowGrants_tableTarget at 1.
    unfold bind at 1. unfold onErr at 1, lift at 1. rewrite Hnorm.
    cbv beta iota.
    unfold bind at 1. unfold onErr at 1, lift at 1. rewrite Hexp.
    cbv beta iota.
    rewrite ShowGrants_tables_run
      by (intros t Hin; apply Hall; cbn [flat_map]; apply in_or_app; now left).
    rewrite IH;
      [|intros pat' Hin; apply Hpats; now right
       |intros t Hin; apply Hall; cbn [flat_map]; apply in_or_app; now right].
    cbn [flat_map]. unfold table_args.
    rewrite flat_map_app, length_app, pair_placeholders_app, map_app, logs_app.
    rewrite <- !app_assoc.
    replace (paramSeq + 2 * length (expand pat) + 2 * length (flat_map expand pats))
      with (paramSeq + 2 * (length (expand pat) + length (flat_map expand pats)))
      by lia.
    reflexivity.
Qed.

(** X13.  For table targets whose patterns all expand to existing tables
    (and no database target), the callback of SHOW GRANTS probes every table
    once, in the order of the expansion, and then issues exactly one grants
    query: the i-th table takes the pair of placeholders
    [($2i-1,$2i)], the placeholders of the grantees, if any, continue after
    the last pair, and the arguments are the database and the name of every
    table, followed by the grantees.  The rows of the plan are the answer to
    that query, sorted. *)
Theorem ShowGrants_table_query (p : planner) (n : parser.ShowGrants)
  (targets : TargetList.t) (columns : ResultColumns)
  (expand : TablePattern -> list TableName.t) (pats : list TablePattern)
  (s : pstate) :
  TargetList.Databases targets = None ->
  TargetList.Tables targets = Some pats ->
  (forall pat, In pat pats ->
     exists glob, NormalizeTablePattern pat = Ok glob
                  /\ expandTableGlob p glob = Ok (expand pat)) ->
  (forall t, In t (flat_map expand pats) ->
     exists r rs,
       queryRowsAsRoot p checkTable [TableName.Database t; TableName.Table t]
       = Ok (r :: rs)) ->
  trace (snd (ShowGrants_constructor n targets columns p s))
  = (trace s ++ map table_probe (flat_map expand pats)
     ++ [EvQueryRows
           (tableGrants_query
              (pair_placeholders 1 (length (flat_map expand pats)))
            ++ grantee_clause (ShowGrants_Grantees n)
                              (1 + 2 * length (flat_map expand pats)))
           (table_args (flat_map expand pats)
            ++ grantee_args (ShowGrants_Grantees n))])%list
  /\ (forall rows,
        never_fails p ->
        queryRows p (evalCtx_Database s)
          (tableGrants_query
             (pair_placeholders 1 (length (flat_map expand pats)))
           ++ grantee_clause (ShowGrants_Grantees n)
                             (1 + 2 * length (flat_map expand pats)))
          (table_args (flat_map expand pats)
           ++ grantee_args (ShowGrants_Grantees n))%list
        = Ok rows ->
        exists node s',
          ShowGrants_constructor n targets columns p s = (Ok node, s')
          /\ planRows s' node = sortRows grants_ordering rows).
Proof.
  intros Hdbs Htables Hpats Hall.
  set (v := mkValuesNode columns (length (containers s))).
  set (s1 := set_containers (containers s ++ [mkRowContainer [] false]) s).
  set (s2 := logs (map table_probe (flat_map expand pats)) s1).
  set (sql := tableGrants_query
                (pair_placeholders 1 (length (flat_map expand pats)))
              ++ grantee_clause (ShowGrants_Grantees n)
                                (1 + 2 * length (flat_map expand pats))).
  set (args := (table_args (flat_map expand pats)
                ++ grantee_args (ShowGrants_Grantees n))%list).
  assert (Hrun :
    ShowGrants_constructor n targets columns p s
    = (onErr (queryFn p v sql args) (fun err => Close v ;;; fail err) ;;;
       ret (PlanSelectTop v (mkSortNode grants_ordering columns))) s2).
  { subst v s1 s2 sql args.
    unfold ShowGrants_constructor. rewrite Hdbs, Htables.
    unfold bind at 1. unfold newContainerValuesNode at 1. cbv beta iota.
    unfold bind at 1. unfold ret at 1. cbv beta iota.
    unfold bind at 1. unfold bind at 1.
    rewrite (ShowGrants_tableTargets_run p _ expand pats Hpats Hall).
    cbv beta iota. cbn [app].
    match goal with |- context [grantee_filter ?g ?q (?a, ?b, ?c)] =>
      destruct (grantee_filter_spec g q a b c) as (hs' & seq' & ->) end.
    cbv beta iota. unfold bind.
    match goal with |- context [onErr ?m ?h ?st] =>
      destruct (onErr m h st) as [[[]|e|msg] s3] end; reflexivity. }
  rewrite Hrun. clear Hrun.
  assert (Hlt : vn_rows v < length (containers s2)).
  { unfold s2. rewrite logs_containers. unfold s1, v.
    cbn [set_containers containers vn_rows]. rewrite length_app. simpl. lia. }
  assert (Hdb : evalCtx_Database s2 = evalCtx_Database s).
  { unfold s2. now rewrite logs_evalCtx. }
  split.
  - pose proof (trace_queryFn_or_close p v sql args s2) as Ht.
    unfold bind.
    destruct (onErr (queryFn p v sql args) _ s2) as [[[]|e|msg] s3];
      cbn [snd ret] in *; rewrite Ht; unfold s2; rewrite logs_trace;
      now rewrite <- app_assoc.
  - intros rows Hnf Hq. rewrite <- Hdb in Hq.
    unfold bind. unfold onErr.
    rewrite (queryFn_ok p v sql args rows s2 Hnf Hlt Hq).
    eexists _, _. split; [reflexivity|].
    cbn [planRows sn_ordering]. f_equal.
    rewrite (rows_of_add_rows v) by exact Hlt.
    unfold rows_of. cbn [log containers]. unfold s2. rewrite logs_containers.
    unfold s1, v. cbn [set_containers containers vn_rows].
    rewrite nth_error_app2 by lia. now rewrite Nat.sub_diag.
Qed.

(** *** SHOW GRANTS: both sources in one container *)

Lemma bind_ok {A B : Type} (m : M A) (k : A -> M B) (s s' : pstate) (a : A) :
  m s = (Ok a, s') -> (x <- m ;; k x) s = k a s'.
Proof. intros H. unfold bind. now rewrite H. Qed.

Lemma rows_of_logged (v : valuesNode) (ev : event) (evs : list event) (s : pstate) :
  rows_of (log ev (logs evs s)) v = rows_of s v.
Proof. unfold rows_of. cbn [log containers]. now rewrite logs_containers. Qed.

(** The database-level source, on databases that all exist: the rows of its
    query are appended to the container. *)
Lemma ShowGrants_database_source_run (p : planner) (n : parser.ShowGrants)
  (v : valuesNode) (dbs : list string) (rows : list DTuple) (s : pstate) :
  never_fails p ->
  vn_rows v < length (containers s) ->
  (forall db, In db dbs ->
     exists r rs, queryRowsAsRoot p checkSchema [db] = Ok (r :: rs)) ->
  queryRows p (evalCtx_Database s) (fst (schema_source n dbs))
            (snd (schema_source n dbs)) = Ok rows ->
  exists s',
    (st <- foldM (ShowGrants_database p v) dbs ([], [], 1) ;;
     let '(_, paramHolders, _) := st in
     let '(schemaGrants, st) :=
       grantee_filter (ShowGrants_Grantees n) (schemaGrants_query paramHolders) st in
     let '(params, _, _) := st in
     onErr (queryFn p v schemaGrants params) (fun err => Close v ;;; fail err)) s
    = (Ok tt, s')
    /\ rows_of s' v = (rows_of s v ++ rows)%list
    /\ length (containers s') = length (containers s)
    /\ evalCtx_Database s' = evalCtx_Database s.
Proof.
  intros Hnf Hlt Hall Hq. cbn [schema_source fst snd] in Hq.
  unfold bind at 1.
  rewrite (ShowGrants_databases_run p v dbs Hall).
  cbv beta iota. cbn [app].
  match goal with |- context [grantee_filter ?g ?q (?a, ?b, ?c)] =>
    destruct (grantee_filter_spec g q a b c) as (hs' & seq' & ->) end.
  cbv beta iota. unfold onErr.
  rewrite (queryFn_ok p v _ _ rows _ Hnf);
    [|rewrite logs_containers; exact Hlt|rewrite logs_evalCtx; exact Hq].
  eexists. split; [reflexivity|].
  rewrite rows_of_add_rows
    by (cbn [log containers]; rewrite logs_containers; exact Hlt).
  rewrite rows_of_logged, add_rows_length, add_rows_evalCtx.
  cbn [log containers evalCtx_Database].
  now rewrite logs_containers, logs_evalCtx.
Qed.

(** The table-level source, on patterns that all expand to existing
    tables. *)
Lemma ShowGrants_table_source_run (p : planner) (n : parser.ShowGrants)
  (v : valuesNode) (expand : TablePattern -> list TableName.t)
  (pats : list TablePattern) (rows : list DTuple) (s : pstate) :
  never_fails p ->
  vn_rows v < length (containers s) ->
  (forall pat, In pat pats ->
     exists glob, NormalizeTablePattern pat = Ok glob
                  /\ expandTableGlob p glob = Ok (expand pat)) ->
  (forall t, In t (flat_map expand pats) ->
     exists r rs,
       queryRowsAsRoot p checkTable [TableName.Database t; TableName.Table t]
       = Ok (r :: rs)) ->
  queryRows p (evalCtx_Database s)
            (fst (table_source n (flat_map expand pats)))
            (snd (table_source n (flat_map expand pats))) = Ok rows ->
  exists s',
    (st <- foldM (ShowGrants_tableTarget p v) pats ([], [], 1) ;;
     let '(_, paramHolders, _) := st in
     let '(tableGrants, st) :=
       grantee_filter (ShowGrants_Grantees n) (tableGrants_query paramHolders) st in
     let '(params, _, _) := st in
     onErr (queryFn p v tableGrants params) (fun err => Close v ;;; fail err)) s
    = (Ok tt, s')
    /\ rows_of s' v = (rows_of s v ++ rows)%list
    /\ length (containers s') = length (containers s)
    /\ evalCtx_Database s' = evalCtx_Database s.
Proof.
  intros Hnf Hlt Hpats Hall Hq. cbn [table_source fst snd] in Hq.
  unfold bind at 1.
  rewrite (ShowGrants_tableTargets_run p v expand pats Hpats Hall).
  cbv beta iota. cbn [app].
  match goal with |- context [grantee_filter ?g ?q (?a, ?b, ?c)] =>
    destruct (grantee_filter_spec g q a b c) as (hs' & seq' & ->) end.
  cbv beta iota. unfold onErr.
  rewrite (queryFn_ok p v _ _ rows _ Hnf);
    [|rewrite logs_containers; exact Hlt|rewrite logs_evalCtx; exact Hq].
  eexists. split; [reflexivity|].
  rewrite rows_of_add_rows
    by (cbn [log containers]; rewrite logs_containers; exact Hlt).
  rewrite rows_of_logged, add_rows_length, add_rows_evalCtx.
  cbn [log containers evalCtx_Database].
  now rewrite logs_containers, logs_evalCtx.
Qed.

(** The callback of SHOW GRANTS when every target exists: the container it
    allocated holds the rows of the database-level source followed by those
    of the table-level source, under a sort stage on the three columns. *)
Lemma ShowGrants_sources_run (p : planner) (n : parser.ShowGrants)
  (targets : TargetList.t) (columns : ResultColumns)
  (expand : TablePattern -> list TableName.t)
  (dbRows tableRows : list DTuple) (s : pstate) :
  never_fails p ->
  (forall dbs db,
     TargetList.Databases targets = Some dbs -> In db dbs ->
     exists r rs, queryRowsAsRoot p checkSchema [db] = Ok (r :: rs)) ->
  (forall pats pat,
     TargetList.Tables targets = Some pats -> In pat pats ->
     exists glob, NormalizeTablePattern pat = Ok glob
                  /\ expandTableGlob p glob = Ok (expand pat)) ->
  (forall pats t,
     TargetList.Tables targets = Some pats -> In t (flat_map expand pats) ->
     exists r rs,
       queryRowsAsRoot p checkTable [TableName.Database t; TableName.Table t]
       = Ok (r :: rs)) ->
  source_rows p s (option_map (schema_source n) (TargetList.Databases targets))
              dbRows ->
  source_rows p s
              (option_map (fun pats => table_source n (flat_map expand pats))
                          (TargetList.Tables targets))
              tableRows ->
  exists s',
    ShowGrants_constructor n targets columns p s
    = (Ok (PlanSelectTop (mkValuesNode columns (length (containers s)))
                         (mkSortNode [asc 0; asc 1; asc 2] columns)), s')
    /\ rows_of s' (mkValuesNode columns (length (containers s)))
       = (dbRows ++ tableRows)%list.
Proof.
  intros Hnf Hdbs Hpats Htabs Hdb Htab.
  unfold ShowGrants_constructor.
  set (v := mkValuesNode columns (length (containers s))).
  set (s1 := set_containers (containers s ++ [mkRowContainer [] false]) s).
  rewrite (bind_ok (newContainerValuesNode columns) _ s s1 v eq_refl).
  destruct (rows_of_fresh columns s s1 eq_refl) as [Hrows1 Hlt1].
  fold v in Hrows1. change (vn_rows v < length (containers s1)) in Hlt1.
  assert (Hseg1 : exists s2,
            (match TargetList.Databases targets with
             | Some dbs =>
                 st <- foldM (ShowGrants_database p v) dbs ([], [], 1) ;;
                 let '(_, paramHolders, _) := st in
                 let '(schemaGrants, st) :=
                   grantee_filter (ShowGrants_Grantees n)
                                  (schemaGrants_query paramHolders) st in
                 let '(params, _, _) := st in
                 onErr (queryFn p v schemaGrants params)
                       (fun err => Close v ;;; fail err)
             | None => ret tt
             end) s1 = (Ok tt, s2)
            /\ rows_of s2 v = dbRows
            /\ length (containers s2) = length (containers s1)
            /\ evalCtx_Database s2 = evalCtx_Database s).
  { destruct (TargetList.Databases targets) as [dbs|] eqn:Hd;
      cbn [option_map source_rows] in Hdb.
    - destruct (ShowGrants_database_source_run p n v dbs dbRows s1 Hnf Hlt1
                  (fun db => Hdbs dbs db eq_refl) Hdb)
        as (s2 & Hrun & Hrows & Hlen & Hctx).
      exists s2. rewrite Hrows1 in Hrows. auto.
    - exists s1. subst dbRows. auto. }
  destruct Hseg1 as (s2 & Hseg1 & Hrows2 & Hlen2 & Hctx2).
  rewrite (bind_ok _ _ s1 s2 tt Hseg1).
  assert (Hseg2 : exists s3,
            (match TargetList.Tables targets with
             | Some tableTargets =>
                 st <- foldM (ShowGrants_tableTarget p v) tableTargets ([], [], 1) ;;
                 let '(_, paramHolders, _) := st in
                 let '(tableGrants, st) :=
                   grantee_filter (ShowGrants_Grantees n)
                                  (tableGrants_query paramHolders) st in
                 let '(params, _, _) := st in
                 onErr (queryFn p v tableGrants params)
                       (fun err => Close v ;;; fail err)
             | None => ret tt
             end) s2 = (Ok tt, s3)
            /\ rows_of s3 v = (dbRows ++ tableRows)%list).
  { destruct (TargetList.Tables targets) as [pats|] eqn:Htb;
      cbn [option_map source_rows] in Htab.
    - rewrite <- Hctx2 in Htab.
      destruct (ShowGrants_table_source_run p n v expand pats tableRows s2 Hnf
                  ltac:(rewrite Hlen2; exact Hlt1)
                  (fun pat => Hpats pats pat eq_refl)
                  (fun t => Htabs pats t eq_refl) Htab)
        as (s3 & Hrun & Hrows & _).
      exists s3. rewrite Hrows2 in Hrows. auto.
    - exists s2. subst tableRows. rewrite app_nil_r. auto. }
  destruct Hseg2 as (s3 & Hseg2 & Hrows3).
  rewrite (bind_ok _ _ s2 s3 tt Hseg2).
  exists s3. split; [reflexivity | exact Hrows3].
Qed.

(** C6.  When the targets of SHOW GRANTS all exist and no container is
    full, the callback succeeds; the container it allocated holds the rows
    answered by the database-level source (the schema-privileges query for
    the databases of the statement, none without database targets) followed
    by the rows answered by the table-level source (the table-privileges
    query for the tables of the statement, none without table targets), and
    the plan returns them under a sort stage: sorted ascending by (object
    name, grantee, privilege), and the same rows.  The grants
    (t, alice, SELECT), (t, bob, SELECT), (t, alice, INSERT) come out as
    alice/INSERT, alice/SELECT, bob/SELECT. *)
Theorem ShowGrants_sorted_concatenation (p : planner) (n : parser.ShowGrants)
  (targets : TargetList.t) (expand : TablePattern -> list TableName.t)
  (dbRows tableRows : list DTuple) (s : pstate) :
  ShowGrants_Targets n = Some targets ->
  never_fails p ->
  (forall dbs db,
     TargetList.Databases targets = Some dbs -> In db dbs ->
     exists r rs, queryRowsAsRoot p checkSchema [db] = Ok (r :: rs)) ->
  (forall pats pat,
     TargetList.Tables targets = Some pats -> In pat pats ->
     exists glob, NormalizeTablePattern pat = Ok glob
                  /\ expandTableGlob p glob = Ok (expand pat)) ->
  (forall pats t,
     TargetList.Tables targets = Some pats -> In t (flat_map expand pats) ->
     exists r rs,
       queryRowsAsRoot p checkTable [TableName.Database t; TableName.Table t]
       = Ok (r :: rs)) ->
  source_rows p s (option_map (schema_source n) (TargetList.Databases targets))
              dbRows ->
  source_rows p s
              (option_map (fun pats => table_source n (flat_map expand pats))
                          (TargetList.Tables targets))
              tableRows ->
  (exists d v sort s',
     ShowGrants p n = Ok d
     /\ constructor d p s = (Ok (PlanSelectTop v sort), s')
     /\ rows_of s' v = (dbRows ++ tableRows)%list
     /\ sn_ordering sort = grants_ordering
     /\ planRows s' (PlanSelectTop v sort)
        = sortRows grants_ordering (dbRows ++ tableRows)
     /\ Permutation (planRows s' (PlanSelectTop v sort)) (dbRows ++ tableRows)
     /\ Sorted (le_of (row_leb grants_ordering))
               (planRows s' (PlanSelectTop v sort)))
  /\ sortRows grants_ordering
       [ [DString "t"; DString "alice"; DString "SELECT"];
         [DString "t"; DString "bob"; DString "SELECT"];
         [DString "t"; DString "alice"; DString "INSERT"] ]
     = [ [DString "t"; DString "alice"; DString "INSERT"];
         [DString "t"; DString "alice"; DString "SELECT"];
         [DString "t"; DString "bob"; DString "SELECT"] ].
Proof.
  intros Ht Hnf Hdbs Hpats Htabs Hdb Htab. split; [|reflexivity].
  unfold ShowGrants. rewrite Ht.
  match goal with |- context [mkDelayedNode _ ?columns _] =>
    destruct (ShowGrants_sources_run p n targets columns expand dbRows tableRows s
                Hnf Hdbs Hpats Htabs Hdb Htab) as (s' & Hrun & Hrows) end.
  eexists _, _, _, s'. split; [reflexivity|]. cbn [constructor].
  split; [exact Hrun|]. split; [exact Hrows|]. split; [reflexivity|].
  cbn [planRows sn_ordering]. rewrite Hrows.
  split; [reflexivity|]. split.
  - apply sortRows_perm.
  - apply sortRows_Sorted.
Qed.

(** *** SHOW CREATE TABLE: the clauses after the primary key *)

Lemma skipn_nth_error {A : Type} (l : list A) :
  forall i, skipn i l = match nth_error l i with
                        | Some x => x :: skipn (S i) l
                        | None => []
                        end.
Proof.
  induction l as [|x l IH]; intros [|i]; try reflexivity.
  cbn [skipn nth_error]. rewrite IH. now destruct (nth_error l i).
Qed.

(** The inner loop over the column ids of a family collects the names at
    the positions of the active ids. *)
Lemma ShowCreateTable_family_loop (desc : TableDescriptor.t)
  (fam : ColumnFamilyDescriptor.t) (ids : list Z) :
  forall i acc,
    length ids <= length (skipn i (ColumnFamilyDescriptor.ColumnNames fam)) ->
    range_fold (ShowCreateTable_family_column desc fam) i ids acc
    = Ok (acc ++ map fst (filter (fun nc => is_active desc (snd nc))
                            (combine (skipn i (ColumnFamilyDescriptor.ColumnNames fam))
                                     ids)))%list.
Proof.
  induction ids as [|id ids IH]; intros i acc Hlen.
  - cbn [range_fold]. rewrite combine_nil. cbn. now rewrite app_nil_r.
  - rewrite skipn_nth_error in Hlen |- *.
    cbn [range_fold]. unfold ShowCreateTable_family_column at 1, Go.index.
    destruct (nth_error (ColumnFamilyDescriptor.ColumnNames fam) i) as [name|];
      [|cbn in Hlen; lia].
    cbn [length] in Hlen. cbn [combine filter snd]. unfold is_active at 1.
    destruct (TableDescriptor.FindActiveColumnByID desc id); cbn [obind].
    + rewrite IH by lia. cbn [map fst]. now rewrite <- app_assoc.
    + rewrite IH by lia. reflexivity.
Qed.

Lemma ShowCreateTable_family_loop_panic (desc : TableDescriptor.t)
  (fam : ColumnFamilyDescriptor.t) (ids : list Z) :
  forall i acc j id,
    nth_error ids j = Some id -> is_active desc id = true ->
    length (ColumnFamilyDescriptor.ColumnNames fam) <= i + j ->
    range_fold (ShowCreateTable_family_column desc fam) i ids acc
    = Panic "index out of range".
Proof.
  induction ids as [|id0 ids IH]; intros i acc j id Hj Hact Hlen.
  - destruct j; discriminate.
  - cbn [range_fold]. unfold ShowCreateTable_family_column at 1, Go.index.
    destruct j as [|j].
    + injection Hj as ->. unfold is_active in Hact.
      destruct (TableDescriptor.FindActiveColumnByID desc id); [|discriminate].
      assert (Hnone : nth_error (ColumnFamilyDescriptor.ColumnNames fam) i = None)
        by (apply nth_error_None; lia).
      rewrite Hnone. reflexivity.
    + cbn [nth_error] in Hj.
      destruct (TableDescriptor.FindActiveColumnByID desc id0).
      * destruct (nth_error (ColumnFamilyDescriptor.ColumnNames fam) i);
          cbn [obind]; [|reflexivity].
        apply (IH (S i) _ j id Hj Hact). lia.
      * cbn [obind]. apply (IH (S i) _ j id Hj Hact). lia.
Qed.

Lemma ShowCreateTable_family_ok (desc : TableDescriptor.t)
  (fam : ColumnFamilyDescriptor.t) (i : nat) (buf : string) :
  length (ColumnFamilyDescriptor.ColumnIDs fam)
  <= length (ColumnFamilyDescriptor.ColumnNames fam) ->
  ShowCreateTable_family desc i fam buf = Ok (buf ++ family_clause desc fam).
Proof.
  intros Hlen. unfold ShowCreateTable_family.
  rewrite ShowCreateTable_family_loop by exact Hlen.
  cbn [obind app skipn]. reflexivity.
Qed.

(** X14.  The FAMILY clause of CREATE TABLE lists, in the order of the
    family, the names of its columns whose id is an active column of the
    table, and skips the others.  The name is read at the position of the
    id: a family with at least as many names as ids is always rendered; an
    active id at a position beyond the names makes the rendering panic on
    the index. *)
Theorem ShowCreateTable_family_clause (desc : TableDescriptor.t)
  (fam : ColumnFamilyDescriptor.t) (i : nat) (buf : string) :
  (length (ColumnFamilyDescriptor.ColumnIDs fam)
   <= length (ColumnFamilyDescriptor.ColumnNames fam) ->
   ShowCreateTable_family desc i fam buf = Ok (buf ++ family_clause desc fam))
  /\ (forall j id,
        nth_error (ColumnFamilyDescriptor.ColumnIDs fam) j = Some id ->
        is_active desc id = true ->
        length (ColumnFamilyDescriptor.ColumnNames fam) <= j ->
        ShowCreateTable_family desc i fam buf = Panic "index out of range").
Proof.
  split.
  - apply ShowCreateTable_family_ok.
  - intros j id Hj Hact Hlen. unfold ShowCreateTable_family.
    rewrite (ShowCreateTable_family_loop_panic desc fam _ 0 [] j id Hj Hact)
      by exact Hlen.
    reflexivity.
Qed.

Lemma ShowCreateTable_indexes_run (p : planner) (il : IndexDescriptor.t -> string)
  (idxs : list IndexDescriptor.t) :
  (forall idx, In idx idxs -> showCreateInterleave p idx = Ok (il idx)) ->
  forall i,
    range_fold (ShowCreateTable_index p) i idxs ""
    = Ok (clauses (fun idx => index_clause idx (il idx)) idxs).
Proof.
  induction idxs as [|idx idxs IH]; intros Hil i; [reflexivity|].
  cbn [range_fold clauses]. unfold ShowCreateTable_index at 1.
  rewrite (Hil idx) by now left. cbn [obind].
  rewrite ShowCreateTable_index_appender.
  rewrite IH by (intros idx' Hin; apply Hil; now right). cbn [obind].
  f_equal. unfold index_clause.
  destruct (IndexDescriptor.StoreColumnNames idx); cbn [length Nat.ltb Nat.leb];
    repeat rewrite append_assoc; reflexivity.
Qed.

Lemma ShowCreateTable_families_run (desc : TableDescriptor.t)
  (fams : list ColumnFamilyDescriptor.t) :
  (forall fam, In fam fams ->
     length (ColumnFamilyDescriptor.ColumnIDs fam)
     <= length (ColumnFamilyDescriptor.ColumnNames fam)) ->
  forall i,
    range_fold (ShowCreateTable_family desc) i fams ""
    = Ok (clauses (family_clause desc) fams).
Proof.
  induction fams as [|fam fams IH]; intros Hlen i; [reflexivity|].
  cbn [range_fold clauses].
  rewrite ShowCreateTable_family_ok by (apply Hlen; now left).
  cbn [obind]. rewrite ShowCreateTable_family_appender.
  rewrite IH by (intros fam' Hin; apply Hlen; now right). reflexivity.
Qed.

Lemma ShowCreateTable_checks_run (checks : list CheckConstraint.t) :
  forall i,
    range_fold ShowCreateTable_check i checks "" = Ok (clauses check_clause checks).
Proof.
  induction checks as [|e checks IH]; intros i; [reflexivity|].
  cbn [range_fold clauses]. unfold ShowCreateTable_check at 1. cbv zeta.
  cbn [obind]. rewrite ShowCreateTable_check_appender, IH. cbn [obind].
  f_equal. unfold check_clause.
  destruct (CheckConstraint.Name e); cbn [String.length Nat.ltb Nat.leb String.eqb];
    repeat rewrite append_assoc; reflexivity.
Qed.

(** *** SHOW CREATE TABLE: the PRIMARY KEY clause *)

(** The callback runs to its end under the conditions that exclude its
    panics and its errors. *)
Lemma ShowCreateTable_constructor_run (p : planner) (n : parser.ShowCreateTable)
  (desc : TableDescriptor.t) (il : IndexDescriptor.t -> string) (s : pstate) :
  never_fails p ->
  (TableDescriptor.IsPhysicalTable desc = false
   \/ IndexDescriptor.ColumnIDs (TableDescriptor.PrimaryIndex desc) <> []) ->
  (forall idx,
     In idx (TableDescriptor.PrimaryIndex desc :: TableDescriptor.Indexes desc) ->
     showCreateInterleave p idx = Ok (il idx)) ->
  (forall fam, In fam (TableDescriptor.Families desc) ->
     length (ColumnFamilyDescriptor.ColumnIDs fam)
     <= length (ColumnFamilyDescriptor.ColumnNames fam)) ->
  exists node s' tail,
    ShowCreateTable_constructor n desc p s = (Ok node, s')
    /\ ShowCreateTable_tail p desc = Ok tail
    /\ tail = clauses (fun idx => index_clause idx (il idx))
                      (TableDescriptor.Indexes desc)
              ++ clauses (family_clause desc) (TableDescriptor.Families desc)
              ++ clauses check_clause (TableDescriptor.Checks desc)
              ++ nl ++ ")" ++ il (TableDescriptor.PrimaryIndex desc).
Proof.
  intros Hnf Hids Hil Hfam.
  assert (Htail : ShowCreateTable_tail p desc
                  = Ok (clauses (fun idx => index_clause idx (il idx))
                                (TableDescriptor.Indexes desc)
                        ++ clauses (family_clause desc) (TableDescriptor.Families desc)
                        ++ clauses check_clause (TableDescriptor.Checks desc)
                        ++ nl ++ ")" ++ il (TableDescriptor.PrimaryIndex desc))).
  { unfold ShowCreateTable_tail.
    rewrite (ShowCreateTable_indexes_run p il)
      by (intros idx Hin; apply Hil; now right).
    cbn [obind]. rewrite (ShowCreateTable_families_run desc _ Hfam).
    cbn [obind]. rewrite ShowCreateTable_checks_run. cbn [obind].
    rewrite (Hil (TableDescriptor.PrimaryIndex desc)) by now left.
    reflexivity. }
  destruct (newContainerValuesNode_run ShowCreateTable_columns s)
    as (s1 & Hnew & Hcs & _).
  destruct (rows_of_fresh ShowCreateTable_columns s s1 Hcs) as [_ Hlt].
  unfold ShowCreateTable_constructor.
  unfold bind at 1. rewrite Hnew. cbv beta iota zeta.
  unfold bind at 1. unfold lift at 1.
  destruct (ShowCreateTable_columns_loop_total desc
              (TableDescriptor.VisibleColumns desc) Hids 0
              ("CREATE TABLE "
               ++ quoteNames [NormalizableTableName_String (ShowCreateTable_Table n)]
               ++ " (", "")) as [[buf primary] Hcols].
  rewrite Hcols. cbv beta iota.
  unfold bind at 1. unfold onErr at 1, lift at 1.
  rewrite ShowCreateTable_index_appender.
  rewrite (ShowCreateTable_indexes_run p il)
    by (intros idx Hin; apply Hil; now right).
  cbn [obind]. cbv beta iota.
  unfold bind at 1. unfold lift at 1.
  rewrite ShowCreateTable_family_appender.
  rewrite (ShowCreateTable_families_run desc _ Hfam).
  cbn [obind]. cbv beta iota.
  unfold bind at 1. unfold lift at 1.
  rewrite ShowCreateTable_check_appender, ShowCreateTable_checks_run.
  cbn [obind]. cbv beta iota.
  unfold bind at 1. unfold onErr at 1, lift at 1.
  rewrite (Hil (TableDescriptor.PrimaryIndex desc)) by now left.
  cbv beta iota.
  unfold bind at 1.
  rewrite AddRow_or_close_ok; [|exact Hnf|exact Hlt].
  cbv beta iota. unfold ret.
  eexists _, _, _. split; [reflexivity|]. split; [exact Htail | reflexivity].
Qed.

(** The clause the code renders is the clause the spec asks for. *)
Lemma primary_clause_spec (desc : TableDescriptor.t) :
  primary_clause desc = spec_primary_key_clause desc.
Proof. reflexivity. Qed.

Lemma primary_key_text_spec (desc : TableDescriptor.t) :
  (spec_primary_key_condition desc ->
   primary_key_text desc = spec_primary_key_clause desc)
  /\ (~ spec_primary_key_condition desc -> primary_key_text desc = "").
Proof.
  unfold spec_primary_key_condition, primary_key_text.
  rewrite <- primary_on_spec, primary_clause_spec.
  destruct (TableDescriptor.IsPhysicalTable desc),
           (primary_on desc (TableDescriptor.VisibleColumns desc)); cbn [andb];
    split; try reflexivity; try (intros [? ?]; discriminate);
    intros H; elim H; split; reflexivity.
Qed.

(** C3.  The text the callback of SHOW CREATE TABLE returns is the header,
    the lines of the visible columns, a middle part, and the rest (index,
    family and check clauses, the closing parenthesis, the interleave
    clause).  The middle part is the clause
    [CONSTRAINT <name> PRIMARY KEY (<columns>)], names rendered by
    [parser.AsString], if the table is physical and the first key column of
    its primary index is a visible column, and it is empty otherwise.  This
    holds of every successful run, and the callback does succeed when no
    container is full, the primary index of a physical table has a key
    column, the interleave clauses can be rendered and every family has a
    name for each of its column ids.  A primary key on the hidden rowid
    column alone never yields the clause; a single-column primary key on a
    visible column of a physical table always does. *)
Theorem ShowCreateTable_primary_key (p : planner) (n : parser.ShowCreateTable)
  (tn : TableName.t) (desc : TableDescriptor.t)
  (il : IndexDescriptor.t -> string) (s : pstate) :
  NormalizeWithDatabaseName (ShowCreateTable_Table n) (Database (session p)) = Ok tn ->
  mustGetTableDesc p tn = Ok desc ->
  anyPrivilege p desc = None ->
  exists d pk,
    ShowCreateTable p n = Ok d
    /\ (spec_primary_key_condition desc -> pk = spec_primary_key_clause desc)
    /\ (~ spec_primary_key_condition desc -> pk = "")
    /\ spec_primary_key_clause desc <> ""
    /\ (forall node s',
          constructor d p s = (Ok node, s') ->
          exists rest,
            planRows s' node
            = [[ DString (NormalizableTableName_String (ShowCreateTable_Table n));
                 DString (ShowCreateTable_header n
                          ++ columns_text 0 (TableDescriptor.VisibleColumns desc)
                          ++ pk ++ rest) ]])
    /\ (never_fails p ->
        (TableDescriptor.IsPhysicalTable desc = false
         \/ IndexDescriptor.ColumnIDs (TableDescriptor.PrimaryIndex desc) <> []) ->
        (forall idx,
           In idx (TableDescriptor.PrimaryIndex desc :: TableDescriptor.Indexes desc) ->
           showCreateInterleave p idx = Ok (il idx)) ->
        (forall fam, In fam (TableDescriptor.Families desc) ->
           length (ColumnFamilyDescriptor.ColumnIDs fam)
           <= length (ColumnFamilyDescriptor.ColumnNames fam)) ->
        exists node s',
          constructor d p s = (Ok node, s')
          /\ planRows s' node
             = [[ DString (NormalizableTableName_String (ShowCreateTable_Table n));
                  DString (ShowCreateTable_header n
                           ++ columns_text 0 (TableDescriptor.VisibleColumns desc)
                           ++ pk
                           ++ clauses (fun idx => index_clause idx (il idx))
                                      (TableDescriptor.Indexes desc)
                           ++ clauses (family_clause desc)
                                      (TableDescriptor.Families desc)
                           ++ clauses check_clause (TableDescriptor.Checks desc)
                           ++ nl ++ ")"
                           ++ il (TableDescriptor.PrimaryIndex desc)) ]])
    /\ (forall rowid,
          IndexDescriptor.ColumnIDs (TableDescriptor.PrimaryIndex desc)
          = [ColumnDescriptor.ID rowid] ->
          In rowid (TableDescriptor.Columns desc) ->
          ColumnDescriptor.Hidden rowid = true ->
          NoDup (map ColumnDescriptor.ID (TableDescriptor.Columns desc)) ->
          pk = "")
    /\ (forall c,
          TableDescriptor.IsPhysicalTable desc = true ->
          IndexDescriptor.ColumnIDs (TableDescriptor.PrimaryIndex desc)
          = [ColumnDescriptor.ID c] ->
          In c (TableDescriptor.VisibleColumns desc) ->
          pk = spec_primary_key_clause desc).
Proof.
  intros Hn Hdesc Hpriv.
  destruct (primary_key_text_spec desc) as [Hyes Hno].
  unfold ShowCreateTable. rewrite Hn. cbn [obind]. rewrite Hdesc. cbn [obind].
  rewrite Hpriv. eexists. exists (primary_key_text desc).
  split; [reflexivity|]. cbn [constructor].
  split; [exact Hyes|]. split; [exact Hno|].
  split; [unfold spec_primary_key_clause; simpl; discriminate|].
  split; [|split; [|split]].
  - intros node s' Hrun.
    destruct (ShowCreateTable_text p n desc s s' node Hrun) as (tail & _ & Hrows).
    exists tail. exact Hrows.
  - intros Hnf Hids Hil Hfam.
    destruct (ShowCreateTable_constructor_run p n desc il s Hnf Hids Hil Hfam)
      as (node & s' & tail & Hrun & Htail & ->).
    exists node, s'. split; [exact Hrun|].
    destruct (ShowCreateTable_text p n desc s s' node Hrun) as (tail' & Htail' & Hrows).
    rewrite Htail in Htail'. injection Htail' as <-. exact Hrows.
  - intros rowid Hids Hin Hhidden Hnodup. apply Hno.
    intros [_ (id0 & ids & c & Hids' & Hc & Hid)].
    rewrite Hids in Hids'. injection Hids' as Hid0 _.
    unfold TableDescriptor.VisibleColumns in Hc.
    apply filter_In in Hc as [Hc Hvisible].
    assert (c = rowid) as ->.
    { eapply NoDup_map_injective; eauto. congruence. }
    rewrite Hhidden in Hvisible. discriminate.
  - intros c Hphys Hids Hin. apply Hyes. split; [exact Hphys|].
    exists (ColumnDescriptor.ID c), [], c. auto.
Qed.

(** X15.  The callback of SHOW CREATE TABLE succeeds, with exactly one row,
    whenever no container is full, the primary index of a physical table
    has a key column, the parent of every interleaved index can be read and
    its prefix is within the key columns, and every family has a name for
    each of its column ids.  The statement it returns is the header, the
    lines of the visible columns, the PRIMARY KEY clause if any, then one
    clause per secondary index, one per column family and one per check
    constraint, each group in the order of the descriptor, the closing
    parenthesis, and the interleave clause of the primary index. *)
Theorem ShowCreateTable_statement (p : planner) (n : parser.ShowCreateTable)
  (desc : TableDescriptor.t) (il : IndexDescriptor.t -> string) (s : pstate) :
  never_fails p ->
  (TableDescriptor.IsPhysicalTable desc = false
   \/ IndexDescriptor.ColumnIDs (TableDescriptor.PrimaryIndex desc) <> []) ->
  (forall idx,
     In idx (TableDescriptor.PrimaryIndex desc :: TableDescriptor.Indexes desc) ->
     showCreateInterleave p idx = Ok (il idx)) ->
  (forall fam, In fam (TableDescriptor.Families desc) ->
     length (ColumnFamilyDescriptor.ColumnIDs fam)
     <= length (ColumnFamilyDescriptor.ColumnNames fam)) ->
  exists node s',
    ShowCreateTable_constructor n desc p s = (Ok node, s')
    /\ planRows s' node
       = [[ DString (NormalizableTableName_String (ShowCreateTable_Table n));
            DString (ShowCreateTable_header n
                     ++ columns_text 0 (TableDescriptor.VisibleColumns desc)
                     ++ primary_key_text desc
                     ++ clauses (fun idx => index_clause idx (il idx))
                                (TableDescriptor.Indexes desc)
                     ++ clauses (family_clause desc) (TableDescriptor.Families desc)
                     ++ clauses check_clause (TableDescriptor.Checks desc)
                     ++ nl ++ ")"
                     ++ il (TableDescriptor.PrimaryIndex desc)) ]].
Proof.
  intros Hnf Hids Hil Hfam.
  destruct (newContainerValuesNode_run ShowCreateTable_columns s)
    as (s1 & Hnew & Hcs & _).
  destruct (rows_of_fresh ShowCreateTable_columns s s1 Hcs) as [Hrows Hlt].
  set (v := mkValuesNode ShowCreateTable_columns (length (containers s))) in *.
  unfold ShowCreateTable_constructor.
  unfold bind at 1. rewrite Hnew. cbv beta iota zeta.
  unfold bind at 1. unfold lift at 1.
  destruct (ShowCreateTable_columns_loop_total desc
              (TableDescriptor.VisibleColumns desc) Hids 0
              ("CREATE TABLE "
               ++ quoteNames [NormalizableTableName_String (ShowCreateTable_Table n)]
               ++ " (", "")) as [[buf primary] Hcols].
  rewrite Hcols. cbv beta iota.
  apply ShowCreateTable_columns_loop in Hcols as [-> ->].
  unfold bind at 1. unfold onErr at 1, lift at 1.
  rewrite ShowCreateTable_index_appender.
  rewrite (ShowCreateTable_indexes_run p il)
    by (intros idx Hin; apply Hil; now right).
  cbn [obind]. cbv beta iota.
  unfold bind at 1. unfold lift at 1.
  rewrite ShowCreateTable_family_appender.
  rewrite (ShowCreateTable_families_run desc _ Hfam).
  cbn [obind]. cbv beta iota.
  unfold bind at 1. unfold lift at 1.
  rewrite ShowCreateTable_check_appender, ShowCreateTable_checks_run.
  cbn [obind]. cbv beta iota.
  unfold bind at 1. unfold onErr at 1, lift at 1.
  rewrite (Hil (TableDescriptor.PrimaryIndex desc)) by now left.
  cbv beta iota.
  unfold bind at 1.
  rewrite AddRow_or_close_ok; [|exact Hnf|exact Hlt].
  cbv beta iota. unfold ret.
  eexists _, _. split; [reflexivity|].
  cbn [planRows]. rewrite (rows_of_add_row v) by exact Hlt.
  rewrite Hrows. cbn [app]. unfold primary_key_text, ShowCreateTable_header.
  repeat rewrite append_assoc. reflexivity.
Qed.

(** *** SHOW INDEX: an index with too few directions *)

Lemma forM__app {A : Type} (body : A -> M unit) (l1 l2 : list A) (s : pstate) :
  forM_ (l1 ++ l2) body s = (forM_ l1 body ;;; forM_ l2 body) s.
Proof.
  revert s; induction l1 as [|x l1 IH]; intros s; [reflexivity|].
  cbn [app forM_]. unfold bind.
  destruct (body x s) as [[[]|e|msg] s1]; [|reflexivity|reflexivity].
  rewrite IH. reflexivity.
Qed.

Lemma range_foldM_app {A St : Type} (body : nat -> A -> St -> M St)
  (l1 l2 : list A) :
  forall i acc s,
    range_foldM body i (l1 ++ l2) acc s
    = (acc' <- range_foldM body i l1 acc ;;
       range_foldM body (i + length l1) l2 acc') s.
Proof.
  induction l1 as [|x l1 IH]; intros i acc s.
  - cbn [app range_foldM length]. unfold bind, ret. now rewrite Nat.add_0_r.
  - cbn [app range_foldM length]. unfold bind.
    destruct (body i x acc s) as [[acc1|e|msg] s1]; [|reflexivity|reflexivity].
    rewrite IH. unfold bind. now rewrite Nat.add_succ_r.
Qed.

(** The first pass over an index with fewer directions than key columns
    adds the rows of the columns that have a direction and panics at the
    next one. *)
Lemma ShowIndex_index_panic (p : planner) (v : valuesNode) (tn : TableName.t)
  (index : IndexDescriptor.t) (s : pstate) :
  never_fails p ->
  vn_rows v < length (containers s) ->
  length (IndexDescriptor.ColumnDirections index)
  < len (IndexDescriptor.ColumnNames index) ->
  fst (ShowIndex_index p v tn index s) = Panic "index out of range".
Proof.
  intros Hnf Hlt Hshort. unfold Go.len in Hshort.
  pose proof (firstn_skipn (length (IndexDescriptor.ColumnDirections index))
                (elems (IndexDescriptor.ColumnNames index))) as Hsplit.
  assert (Hlen1 : length (firstn (length (IndexDescriptor.ColumnDirections index))
                            (elems (IndexDescriptor.ColumnNames index)))
                  = length (IndexDescriptor.ColumnDirections index))
    by (rewrite length_firstn; lia).
  destruct (skipn (length (IndexDescriptor.ColumnDirections index))
              (elems (IndexDescriptor.ColumnNames index))) as [|c rest] eqn:Hskip.
  { apply (f_equal (@length string)) in Hskip. rewrite length_skipn in Hskip.
    simpl in Hskip. lia. }
  unfold ShowIndex_index. cbv zeta. rewrite <- Hsplit.
  unfold bind at 1. rewrite range_foldM_app. unfold bind at 1.
  rewrite (ShowIndex_key_pass p v tn index _ Hnf 0 s Hlt)
    by (cbn [skipn]; lia).
  cbv beta iota. rewrite Hlen1.
  cbn [range_foldM]. unfold bind at 1. unfold bind at 1. unfold lift at 1.
  unfold Go.index.
  assert (Hnone : nth_error (IndexDescriptor.ColumnDirections index)
                    (0 + length (IndexDescriptor.ColumnDirections index)) = None)
    by (apply nth_error_None; lia).
  rewrite Hnone. reflexivity.
Qed.

(** X16.  The first pass of SHOW INDEX reads the direction of every key
    column at the position of the column, unguarded: when the indexes
    before it are sound and no container is full, an index with fewer
    directions than key columns makes the callback panic on the index. *)
Theorem ShowIndex_missing_direction (p : planner) (tn : TableName.t)
  (desc : TableDescriptor.t) (pre : list IndexDescriptor.t)
  (index : IndexDescriptor.t) (post : list IndexDescriptor.t) (s : pstate) :
  (TableDescriptor.PrimaryIndex desc :: TableDescriptor.Indexes desc
   = pre ++ index :: post)%list ->
  never_fails p ->
  Forall directions_cover pre ->
  length (IndexDescriptor.ColumnDirections index)
  < len (IndexDescriptor.ColumnNames index) ->
  fst (ShowIndex_constructor tn desc p s) = Panic "index out of range".
Proof.
  intros Hidx Hnf Hpre Hshort.
  destruct (newContainerValuesNode_run ShowIndex_columns s)
    as (s1 & Hnew & Hcs & _).
  destruct (rows_of_fresh ShowIndex_columns s s1 Hcs) as [_ Hlt].
  unfold ShowIndex_constructor. rewrite Hidx.
  unfold bind at 1. rewrite Hnew. cbv beta iota.
  unfold bind at 1. rewrite forM__app. unfold bind at 1.
  rewrite (ShowIndex_indexes_run p _ tn pre Hnf Hpre s1) by exact Hlt.
  cbv beta iota. cbn [forM_]. unfold bind at 1.
  match goal with |- context [ShowIndex_index p ?v tn index ?st] =>
    pose proof (ShowIndex_index_panic p v tn index st Hnf) as Hp;
    destruct (ShowIndex_index p v tn index st) as [[[]|e|msg] s2]
  end; cbn [fst] in *;
    (rewrite add_rows_length in Hp; specialize (Hp Hlt Hshort));
    try discriminate.
  injection Hp as ->. reflexivity.
Qed.

(** *** The columns of a plan *)

Lemma yields_bind {A : Type} (columns : ResultColumns) (m : M A)
  (k : A -> M planNode) :
  (forall a, yields columns (k a)) -> yields columns (bind m k).
Proof.
  intros Hk s node s' H. unfold bind in H.
  destruct (m s) as [[a|e|msg] s1]; try discriminate.
  eapply Hk. exact H.
Qed.

Lemma yields_defer (columns : ResultColumns) (cleanup : pstate -> pstate)
  (body : M planNode) :
  yields columns body -> yields columns (defer cleanup body).
Proof.
  intros Hb s node s' H. unfold defer in H.
  destruct (body s) as [r s1] eqn:Eb. injection H as -> <-.
  eapply Hb. exact Eb.
Qed.

Lemma yields_allocate (columns : ResultColumns) (k : valuesNode -> M planNode) :
  (forall v, finishes v (k v)) ->
  yields columns (v <- newContainerValuesNode columns ;; k v).
Proof.
  intros Hk s node s' H. unfold bind, newContainerValuesNode in H.
  apply Hk in H as [-> _]. reflexivity.
Qed.

Ltac yields_tac :=
  repeat match goal with
    | |- forall _, _ => intro
    | |- yields _ (bind (newContainerValuesNode _) _) => apply yields_allocate
    | |- yields _ (bind _ _) => apply yields_bind
    | |- yields _ (defer _ _) => apply yields_defer
    end; finishes_tac.

(** X17.  The columns a plan announces when it is built are the columns of
    the values node its callback returns, for every builder of [show.go],
    whichever planner runs the callback.  For SHOW GRANTS the first column
    is named Table as soon as the statement has table targets, and Database
    otherwise. *)
Theorem plan_columns_fixed_at_build (p p' : planner) (d : delayedNode) :
  (exists n, Show p n = Ok d)
  \/ (exists n, ShowColumns p n = Ok d)
  \/ (exists n, ShowTables p n = Ok d)
  \/ (exists n, ShowCreateTable p n = Ok d)
  \/ (exists n, ShowCreateView p n = Ok d)
  \/ (exists n, ShowGrants p n = Ok d)
  \/ (exists n, ShowIndex p n = Ok d)
  \/ (exists n, ShowConstraints p n = Ok d)
  \/ (exists n, Help p n = Ok d) ->
  (forall s node s',
     constructor d p' s = (Ok node, s') ->
     vn_columns (source_of node) = dn_columns d)
  /\ (forall n targets,
        ShowGrants p n = Ok d -> ShowGrants_Targets n = Some targets ->
        dn_columns d
        = [ col (match TargetList.Tables targets with
                 | Some _ => "Table"
                 | None => "Database"
                 end) TypeString;
            col "User" TypeString; col "Privileges" TypeString ]).
Proof.
  intros Hd. split.
  - change (yields (dn_columns d) (constructor d p')).
    destruct Hd as [[n H]|[[n H]|[[n H]|[[n H]|[[n H]|[[n H]|[[n H]|[[n H]|[n H]]]]]]]]].
    + unfold Show in H.
      destruct (Show_columns (ToUpper (Show_Name n))); try discriminate.
      injection H as <-. cbn [constructor dn_columns].
      unfold Show_constructor. yields_tac.
    + unfold ShowColumns in H.
      destruct (NormalizeWithDatabaseName _ _); try discriminate.
      injection H as <-. cbn [constructor dn_columns].
      unfold ShowColumns_constructor. cbv zeta. yields_tac.
    + unfold ShowTables in H.
      destruct (_ =? "")%string; try discriminate.
      injection H as <-. cbn [constructor dn_columns].
      unfold ShowTables_constructor. yields_tac.
    + unfold ShowCreateTable in H.
      destruct (NormalizeWithDatabaseName _ _) as [tn| |]; try discriminate.
      cbn [obind] in H.
      destruct (mustGetTableDesc p tn) as [desc| |]; try discriminate.
      cbn [obind] in H.
      destruct (anyPrivilege p desc); try discriminate.
      injection H as <-. cbn [constructor dn_columns].
      unfold ShowCreateTable_constructor. yields_tac.
    + unfold ShowCreateView in H.
      destruct (NormalizeWithDatabaseName _ _) as [tn| |]; try discriminate.
      cbn [obind] in H.
      destruct (mustGetViewDesc p tn) as [desc| |]; try discriminate.
      cbn [obind] in H.
      destruct (anyPrivilege p desc); try discriminate.
      injection H as <-. cbn [constructor dn_columns].
      unfold ShowCreateView_constructor. yields_tac.
    + unfold ShowGrants in H.
      destruct (ShowGrants_Targets n); try discriminate.
      injection H as <-. cbn [constructor dn_columns].
      unfold ShowGrants_constructor, ShowGrants_tableTarget, ShowGrants_table,
        ShowGrants_database.
      yields_tac.
    + unfold ShowIndex in H.
      destruct (NormalizeWithDatabaseName _ _) as [tn| |]; try discriminate.
      cbn [obind] in H.
      destruct (mustGetTableDesc p tn) as [desc| |]; try discriminate.
      cbn [obind] in H.
      destruct (anyPrivilege p desc); try discriminate.
      injection H as <-. cbn [constructor dn_columns].
      unfold ShowIndex_constructor, ShowIndex_index. yields_tac.
    + unfold ShowConstraints in H.
      destruct (NormalizeWithDatabaseName _ _) as [tn| |]; try discriminate.
      cbn [obind] in H.
      destruct (mustGetTableDesc p tn) as [desc| |]; try discriminate.
      cbn [obind] in H.
      destruct (anyPrivilege p desc); try discriminate.
      injection H as <-. cbn [constructor dn_columns].
      unfold ShowConstraints_constructor. yields_tac.
    + unfold Help in H. injection H as <-. cbn [constructor dn_columns].
      unfold Help_constructor. yields_tac.
  - intros n targets H Ht. unfold ShowGrants in H. rewrite Ht in H.
    injection H as <-. reflexivity.
Qed.

(** *** SHOW <var>: the planner that runs the callback *)

(** X18.  The value SHOW <var> returns is read when the callback runs, from
    the planner that runs it: a plan built by one planner and run by another
    shows the variable of the second, for a single variable as for ALL. *)
Theorem Show_reads_running_planner (p p' : planner) (n : parser.Show)
  (d : delayedNode) (s : pstate) :
  Show p n = Ok d ->
  never_fails p' ->
  exists node s',
    constructor d p' s = (Ok node, s')
    /\ planRows s' node
       = if (ToUpper (Show_Name n) =? "ALL")%string
         then ShowAll_rows p'
         else [[DString (var_value p' (ToUpper (Show_Name n)))]].
Proof.
  intros Hd Hnf. unfold Show, Show_columns in Hd.
  destruct (String.eqb_spec (ToUpper (Show_Name n)) "ALL") as [Hall|Hne].
  - cbn [obind] in Hd. injection Hd as <-. cbn [constructor]. rewrite Hall.
    destruct (Show_constructor_ALL p'
                [col "Variable" TypeString; col "Value" TypeString] s Hnf)
      as (s' & Hrun & Hrows).
    eexists _, s'. split; [exact Hrun | exact Hrows].
  - destruct (map_get varGen (ToUpper (Show_Name n))) as [gen|] eqn:Hgen;
      cbn [obind] in Hd; [|discriminate].
    injection Hd as <-. cbn [constructor].
    destruct (Show_constructor_single p' (ToUpper (Show_Name n)) gen
                [col (ToUpper (Show_Name n)) TypeString] s Hnf Hgen)
      as (s' & Hrun & Hrows).
    eexists _, s'. split; [exact Hrun|].
    cbn [planRows]. rewrite Hrows. unfold var_value. now rewrite Hgen.
Qed.

(** *** Catalog accesses *)

(** X19.  The callbacks of SHOW <var>, HELP, SHOW CREATE TABLE, SHOW INDEX
    and SHOW CONSTRAINTS issue no query and plan no statement: they work from
    the session and from the descriptor resolved when the plan was built.
    The callback of SHOW CREATE VIEW makes one access at most, the planning
    of the stored query, and only when the stored text is a SELECT. *)
Theorem callbacks_without_queries (p : planner) (s : pstate) :
  (forall name columns, trace (snd (Show_constructor name columns p s)) = trace s)
  /\ (forall name, trace (snd (Help_constructor name p s)) = trace s)
  /\ (forall n desc, trace (snd (ShowCreateTable_constructor n desc p s)) = trace s)
  /\ (forall tn desc, trace (snd (ShowIndex_constructor tn desc p s)) = trace s)
  /\ (forall tn desc, trace (snd (ShowConstraints_constructor tn desc p s)) = trace s)
  /\ (forall n tn desc,
        trace (snd (ShowCreateView_constructor n tn desc p s))
        = match ParseOneTraditional (TableDescriptor.ViewQuery desc) with
          | Ok (StmtSelect sel) => (trace s ++ [EvSelect sel])%list
          | _ => trace s
          end).
Proof.
  split; [|split; [|split; [|split; [|split]]]].
  - intros name columns. revert s.
    change (preserves trace (Show_constructor name columns p)).
    unfold Show_constructor. preserves_tac.
  - intros name. revert s.
    change (preserves trace (Help_constructor name p)).
    unfold Help_constructor. preserves_tac.
  - intros n desc. revert s.
    change (preserves trace (ShowCreateTable_constructor n desc p)).
    unfold ShowCreateTable_constructor. preserves_tac.
  - intros tn desc. revert s.
    change (preserves trace (ShowIndex_constructor tn desc p)).
    unfold ShowIndex_constructor, ShowIndex_index, appendRow. preserves_tac.
  - intros tn desc. revert s.
    change (preserves trace (ShowConstraints_constructor tn desc p)).
    unfold ShowConstraints_constructor. preserves_tac.
  - intros n tn desc. unfold ShowCreateView_constructor.
    unfold bind at 1. unfold newContainerValuesNode at 1. cbv beta iota.
    unfold bind at 1. unfold onErr at 1, lift at 1.
    destruct (ParseOneTraditional (TableDescriptor.ViewQuery desc))
      as [[sel|]|e|msg]; try reflexivity.
    unfold bind at 1. unfold ret at 1. cbv beta iota.
    unfold bind at 1. unfold modify at 1. cbv beta iota.
    unfold defer. unfold bind at 1. unfold call_Select at 1.
    destruct (Select_Columns p _ sel) as [planCols|e|msg]; try reflexivity.
    cbv beta iota.
    match goal with |- context [bind ?m ?k ?st] =>
      assert (Hk : preserves trace (bind m k)) by (cbv zeta; preserves_tac);
      specialize (Hk st); destruct (bind m k st) as [r s1]
    end.
    cbn [snd set_skipSelectPrivilegeChecks trace] in *. rewrite Hk. reflexivity.
Qed.

(** *** SHOW ALL: the order of the map *)

(** X20.  The variables are registered in a Go map, which is ranged over in
    an unspecified order when the list of names is built.  Because that list
    is sorted, it is the same for every order of iteration, and so are the
    rows of SHOW ALL and their order. *)
Theorem varNames_independent_of_map_order (p : planner) (keys : list string) :
  Permutation keys (map fst varGen) ->
  sort_Strings keys = varNames
  /\ map (fun vName => [DString vName; DString (var_value p vName)])
         (sort_Strings keys)
     = ShowAll_rows p.
Proof.
  intros Hperm.
  assert (H : sort_Strings keys = varNames) by now apply varNames_any_order.
  split; [exact H|]. unfold ShowAll_rows. now rewrite H.
Qed.

(** *** SHOW CREATE TABLE: an interleave parent that cannot be read *)

Lemma range_fold_app {A St : Type} (body : nat -> A -> St -> outcome St)
  (l1 l2 : list A) :
  forall i acc,
    range_fold body i (l1 ++ l2) acc
    = (acc' <-? range_fold body i l1 acc ;; range_fold body (i + length l1) l2 acc').
Proof.
  induction l1 as [|x l1 IH]; intros i acc.
  - cbn. now rewrite Nat.add_0_r.
  - cbn [app range_fold length].
    destruct (body i x acc) as [acc1|e|msg]; cbn [obind]; [|reflexivity|reflexivity].
    rewrite IH. now rewrite Nat.add_succ_r.
Qed.

(** The parent is looked up before the key columns are sliced. *)
Lemma showCreateInterleave_lookup_error (p : planner) (idx : IndexDescriptor.t)
  (ancestors : list Ancestor.t) (last : Ancestor.t) (e : error) :
  IndexDescriptor.Ancestors idx = (ancestors ++ [last])%list ->
  GetTableDescFromID p (Ancestor.TableID last) = Err e ->
  showCreateInterleave p idx = Err e.
Proof.
  intros Hanc Hget. unfold showCreateInterleave. rewrite Hanc.
  rewrite index_last. cbn [obind]. rewrite Hget. cbn [obind].
  destruct (length (ancestors ++ [last]) =? 0)%nat eqn:Hz; [|reflexivity].
  apply Nat.eqb_eq in Hz. rewrite length_app in Hz. cbn in Hz. lia.
Qed.

(** X21.  [showCreateInterleave] reads the table of the last ancestor before
    it slices the key columns: when that table cannot be read it returns the
    error of the read, whatever the prefix lengths are.  In the callback of
    SHOW CREATE TABLE the first secondary index whose parent cannot be read
    ends the callback with that error: the container is closed and no row
    was added to it. *)
Theorem ShowCreateTable_parent_unreadable (p : planner) (n : parser.ShowCreateTable)
  (desc : TableDescriptor.t) (il : IndexDescriptor.t -> string)
  (pre : list IndexDescriptor.t) (idx : IndexDescriptor.t)
  (post : list IndexDescriptor.t) (ancestors : list Ancestor.t)
  (last : Ancestor.t) (e : error) (s : pstate) :
  (TableDescriptor.IsPhysicalTable desc = false
   \/ IndexDescriptor.ColumnIDs (TableDescriptor.PrimaryIndex desc) <> []) ->
  TableDescriptor.Indexes desc = (pre ++ idx :: post)%list ->
  (forall idx', In idx' pre -> showCreateInterleave p idx' = Ok (il idx')) ->
  IndexDescriptor.Ancestors idx = (ancestors ++ [last])%list ->
  GetTableDescFromID p (Ancestor.TableID last) = Err e ->
  showCreateInterleave p idx = Err e
  /\ fst (ShowCreateTable_constructor n desc p s) = Err e
  /\ containers (snd (ShowCreateTable_constructor n desc p s))
     = (containers s ++ [mkRowContainer [] true])%list.
Proof.
  intros Hids Hidx Hpre Hanc Hget.
  pose proof (showCreateInterleave_lookup_error p idx ancestors last e Hanc Hget)
    as Hil.
  split; [exact Hil|].
  assert (Hrun :
    ShowCreateTable_constructor n desc p s
    = (Err e,
       snd (Close (mkValuesNode ShowCreateTable_columns (length (containers s)))
              (set_containers (containers s ++ [mkRowContainer [] false]) s)))).
  { unfold ShowCreateTable_constructor.
    unfold bind at 1. unfold newContainerValuesNode at 1. cbv beta iota zeta.
    unfold bind at 1. unfold lift at 1.
    destruct (ShowCreateTable_columns_loop_total desc
                (TableDescriptor.VisibleColumns desc) Hids 0
                ("CREATE TABLE "
                 ++ quoteNames [NormalizableTableName_String (ShowCreateTable_Table n)]
                 ++ " (", "")) as [[buf primary] Hcols].
    rewrite Hcols. cbv beta iota.
    unfold bind at 1. unfold onErr at 1, lift at 1.
    rewrite Hidx, range_fold_app.
    rewrite ShowCreateTable_index_appender.
    rewrite (ShowCreateTable_indexes_run p il pre Hpre). cbn [obind].
    cbn [range_fold]. unfold ShowCreateTable_index at 1. rewrite Hil.
    cbn [obind]. reflexivity. }
  rewrite Hrun. cbn [fst snd]. split; [reflexivity|].
  unfold Close, modify. cbn [snd set_containers containers vn_rows].
  clear. induction (containers s) as [|rc cs IH]; [reflexivity|].
  cbn [app length update_nth]. now rewrite IH.
Qed.

(** *** SHOW GRANTS: a table target that does not exist *)

(** The body of the loop on a table that does not exist. *)
Lemma ShowGrants_table_missing (p : planner) (v : valuesNode) (t : TableName.t)
  (st : paramState) (s : pstate) :
  queryRowsAsRoot p checkTable [TableName.Database t; TableName.Table t] = Ok [] ->
  ShowGrants_table p v st t s
  = (Err (errUndefinedTable (TableName_String t)),
     snd (Close v (log (table_probe t) s))).
Proof.
  intros Hprobe. destruct st as [[params hs] paramSeq].
  unfold ShowGrants_table.
  unfold bind at 1. unfold onErr at 1, checkFn at 1. unfold bind at 1.
  unfold call_queryRowsAsRoot at 1. rewrite Hprobe. reflexivity.
Qed.

(** X22.  When SHOW GRANTS has table targets and no database target, the
    table targets are expanded and checked in the order of the statement,
    before any privilege is read: at the first table that does not exist
    the callback returns the undefined-table error naming the qualified
    table, with its container closed, having probed the tables up to that
    one and issued no grants query. *)
Theorem ShowGrants_missing_table (p : planner) (n : parser.ShowGrants)
  (targets : TargetList.t) (columns : ResultColumns)
  (expand : TablePattern -> list TableName.t)
  (prePats : list TablePattern) (pat : TablePattern) (postPats : list TablePattern)
  (glob : TablePattern) (preTables : list TableName.t) (t : TableName.t)
  (postTables : list TableName.t) (s : pstate) :
  TargetList.Databases targets = None ->
  TargetList.Tables targets = Some (prePats ++ pat :: postPats)%list ->
  (forall pat', In pat' prePats ->
     exists glob', NormalizeTablePattern pat' = Ok glob'
                   /\ expandTableGlob p glob' = Ok (expand pat')) ->
  NormalizeTablePattern pat = Ok glob ->
  expandTableGlob p glob = Ok (preTables ++ t :: postTables)%list ->
  (forall t', In t' (flat_map expand prePats ++ preTables)%list ->
     exists r rs,
       queryRowsAsRoot p checkTable [TableName.Database t'; TableName.Table t']
       = Ok (r :: rs)) ->
  queryRowsAsRoot p checkTable [TableName.Database t; TableName.Table t] = Ok [] ->
  fst (ShowGrants_constructor n targets columns p s)
  = Err (errUndefinedTable (TableName_String t))
  /\ closed_in (snd (ShowGrants_constructor n targets columns p s))
               (length (containers s))
  /\ trace (snd (ShowGrants_constructor n targets columns p s))
     = (trace s
        ++ map table_probe (flat_map expand prePats ++ preTables ++ [t]))%list.
Proof.
  intros Hdbs Htables Hpre Hnorm Hexp Hall Hmiss.
  assert (Hrun :
    ShowGrants_constructor n targets columns p s
    = (Err (errUndefinedTable (TableName_String t)),
       snd (Close (mkValuesNode columns (length (containers s)))
              (logs (map table_probe (flat_map expand prePats ++ preTables ++ [t]))
                    (set_containers (containers s ++ [mkRowContainer [] false])
                                    s))))).
  { unfold ShowGrants_constructor. rewrite Hdbs, Htables.
    unfold bind at 1. unfold newContainerValuesNode at 1. cbv beta iota.
    unfold bind at 1. unfold ret at 1. cbv beta iota.
    unfold bind at 1. unfold bind at 1.
    rewrite foldM_app. unfold bind at 1.
    rewrite (ShowGrants_tableTargets_run p _ expand prePats Hpre)
      by (intros t' Hin; apply Hall, in_or_app; now left).
    cbv beta iota. cbn [foldM]. unfold bind at 1.
    unfold ShowGrants_tableTarget at 1.
    unfold bind at 1. unfold onErr at 1, lift at 1. rewrite Hnorm. cbv beta iota.
    unfold bind at 1. unfold onErr at 1, lift at 1. rewrite Hexp. cbv beta iota.
    rewrite foldM_app. unfold bind at 1.
    rewrite (ShowGrants_tables_run p _ preTables)
      by (intros t' Hin; apply Hall, in_or_app; now right).
    cbv beta iota. cbn [foldM]. unfold bind at 1.
    rewrite ShowGrants_table_missing by exact Hmiss.
    rewrite !map_app, !logs_app. reflexivity. }
  rewrite Hrun. cbn [fst snd]. split; [reflexivity|]. split.
  - apply Close_closes. rewrite logs_containers.
    cbn [set_containers containers vn_rows]. rewrite length_app. simpl. lia.
  - unfold Close, modify. cbn [snd set_containers trace].
    now rewrite logs_trace.
Qed.

End Claims.

(** ** The claims on the example catalog *)

#[local] Existing Instance Fixture.collaborators.
Import Fixture.

Lemma never_fails_planner0 : never_fails planner0.
Proof. intros rows row. reflexivity. Defined.

Lemma Show_all_and_single_witness :
  (exists d node s',
     Show planner0 (mkShow "all") = Ok d
     /\ dn_columns d = [col "Variable" TypeString; col "Value" TypeString]
     /\ constructor d planner0 s0 = (Ok node, s')
     /\ planRows s' node = ShowAll_rows planner0)
  /\ (exists d node s' value,
        Show planner0 (mkShow "database") = Ok d
        /\ dn_columns d = [col "DATABASE" TypeString]
        /\ constructor d planner0 s0 = (Ok node, s')
        /\ planRows s' node = [[DString value]]
        /\ In [DString "DATABASE"; DString value] (ShowAll_rows planner0)).
Proof.
  destruct (Show_all_and_single planner0 s0 never_fails_planner0)
    as (Hall & _ & _ & _ & _ & Hone).
  split.
  - apply (Hall (mkShow "all")). reflexivity.
  - apply (Hone (mkShow "database") "DATABASE" (fun p => Database (session p)));
      reflexivity.
Defined.

Lemma ShowColumns_checks_witness :
  (exists d,
     ShowColumns planner0 (mkShowColumns "missingdb.t") = Ok d
     /\ constructor d planner0 s0
        = (Err (errUndefinedDatabase "missingdb"),
           log (EvQueryRowsAsRoot checkSchema ["missingdb"]) s0))
  /\ (exists d,
        ShowColumns planner0 (mkShowColumns "test.u") = Ok d
        /\ fst (constructor d planner0 s0) = Err (errUndefinedTable "test.u"))
  /\ (exists d,
        ShowColumns (mk_planner example_catalog bob None) (mkShowColumns "kv") = Ok d
        /\ fst (constructor d (mk_planner example_catalog bob None) s0)
           = Err (errNoPrivileges "bob" "test.kv"))
  /\ (exists d,
        ShowColumns (mk_planner example_catalog bob None)
                    (mkShowColumns "information_schema.tables") = Ok d
        /\ trace (snd (constructor d (mk_planner example_catalog bob None) s0))
           = [ EvQueryRowsAsRoot checkSchema ["information_schema"];
               EvQueryRowsAsRoot checkTable ["information_schema"; "tables"];
               EvGetVirtualTableDesc (TableName.mk "information_schema" "tables");
               EvQueryRows getColumns ["information_schema"; "tables"] ]).
Proof.
  split; [|split; [|split]].
  - destruct (ShowColumns_checks planner0 (mkShowColumns "missingdb.t")
                (TableName.mk "missingdb" "t") s0)
      as (d & Hd & Hdb & _); [reflexivity|].
    exists d. split; [exact Hd|]. apply Hdb. reflexivity.
  - destruct (ShowColumns_checks planner0 (mkShowColumns "test.u")
                (TableName.mk "test" "u") s0)
      as (d & Hd & _ & Htable & _); [reflexivity|].
    exists d. split; [exact Hd|].
    rewrite (Htable [DString "test"] []); reflexivity.
  - destruct (ShowColumns_checks (mk_planner example_catalog bob None)
                (mkShowColumns "kv") (TableName.mk "test" "kv") s0)
      as (d & Hd & _ & _ & Hpriv & _); [reflexivity|].
    exists d. split; [exact Hd|].
    apply (Hpriv [DString "test"] [] [DString "test"] []); reflexivity.
  - destruct (ShowColumns_checks (mk_planner example_catalog bob None)
                (mkShowColumns "information_schema.tables")
                (TableName.mk "information_schema" "tables") s0)
      as (d & Hd & _ & _ & _ & Hvirtual); [reflexivity|].
    exists d. split; [exact Hd|].
    apply (Hvirtual [DString "information_schema"] []
                    [DString "information_schema"] [] virtual_tables);
      reflexivity.
Defined.

Lemma directions_cover_t :
  Forall directions_cover
         (TableDescriptor.PrimaryIndex t_desc :: TableDescriptor.Indexes t_desc).
Proof. repeat constructor. Defined.

Lemma ShowIndex_two_passes_witness :
  (exists d node s',
     ShowIndex planner0 (mkShowIndex "t") = Ok d
     /\ constructor d planner0 s0 = (Ok node, s')
     /\ planRows s' node
        = [ [ DString "t"; DString "primary"; DBool true; DInt 1;
              DString "a"; DString "ASC"; DBool false ];
            [ DString "t"; DString "t_b_c_idx"; DBool true; DInt 1;
              DString "b"; DString "ASC"; DBool false ];
            [ DString "t"; DString "t_b_c_idx"; DBool true; DInt 2;
              DString "c"; DString "DESC"; DBool false ];
            [ DString "t"; DString "t_b_c_idx"; DBool true; DInt 3;
              DString "a"; DString "N/A"; DBool true ] ])
  /\ rows_of (snd (ShowIndex_index planner0 (mkValuesNode ShowIndex_columns 0)
                     (TableName.mk "test" "t") t_b_c_idx
                     (snd (newContainerValuesNode ShowIndex_columns s0))))
             (mkValuesNode ShowIndex_columns 0)
     = [ [ DString "t"; DString "t_b_c_idx"; DBool true; DInt 1;
           DString "b"; DString "ASC"; DBool false ];
         [ DString "t"; DString "t_b_c_idx"; DBool true; DInt 2;
           DString "c"; DString "DESC"; DBool false ];
         [ DString "t"; DString "t_b_c_idx"; DBool true; DInt 3;
           DString "a"; DString "N/A"; DBool true ] ].
Proof.
  destruct (ShowIndex_two_passes planner0 (mkShowIndex "t")
              (TableName.mk "test" "t") t_desc s0)
    as [Hrows Hexample];
    [reflexivity | reflexivity | reflexivity
     | exact never_fails_planner0 | exact directions_cover_t |].
  split.
  - destruct Hrows as (d & node & s' & Hd & Hrun & Hrows).
    exists d, node, s'. split; [exact Hd|]. split; [exact Hrun|].
    rewrite Hrows. reflexivity.
  - rewrite (Hexample t_b_c_idx "b" "c" ASC DESC [] "a"
               (mkValuesNode ShowIndex_columns 0)
               (snd (newContainerValuesNode ShowIndex_columns s0)));
      [reflexivity | reflexivity | reflexivity | reflexivity | simpl; lia].
Defined.

Lemma wf_ancestors_idx_child : wf_ancestors (IndexDescriptor.Ancestors idx_child).
Proof.
  split.
  - repeat constructor; unfold uint32; simpl; lia.
  - simpl; lia.
Defined.

Lemma wf_ancestors_idx_grandchild :
  wf_ancestors (IndexDescriptor.Ancestors idx_grandchild).
Proof.
  split.
  - repeat constructor; unfold uint32; simpl; lia.
  - simpl; lia.
Defined.

Lemma wf_ancestors_idx_spare : wf_ancestors (IndexDescriptor.Ancestors idx_spare).
Proof.
  split.
  - repeat constructor; unfold uint32; simpl; lia.
  - simpl; lia.
Defined.

(** No clause for the primary index of [parent]; the parent and the first
    key column for [idx_child]; for [idx_grandchild], whose two ancestors
    share one column each, the table of the last ancestor (the first one is
    not in the catalog) and the first two of its three key columns; for
    [idx_spare] the three key columns and one entry of the backing array. *)
Lemma showCreateInterleave_clause_witness :
  showCreateInterleave planner0 parent_pk = Ok ""
  /\ showCreateInterleave planner0 idx_child
     = Ok " INTERLEAVE IN PARENT parent (a)"
  /\ (exists e, GetTableDescFromID planner0 49 = Err e)
  /\ showCreateInterleave planner0 idx_grandchild
     = Ok " INTERLEAVE IN PARENT parent (a, b)"
  /\ showCreateInterleave planner0 idx_spare
     = Ok " INTERLEAVE IN PARENT parent (a, b, c, )".
Proof.
  destruct (showCreateInterleave_clause planner0 parent_pk) as [Hnone _].
  destruct (showCreateInterleave_clause planner0 idx_child) as [_ Hchild].
  destruct (showCreateInterleave_clause planner0 idx_grandchild) as [_ Hgrand].
  destruct (showCreateInterleave_clause planner0 idx_spare) as [_ Hspare].
  destruct (Hchild [] (Ancestor.mk 50 1) eq_refl wf_ancestors_idx_child)
    as [_ Hchild'].
  destruct (Hchild' parent_desc eq_refl) as (Hin & _ & _).
  destruct (Hgrand [Ancestor.mk 49 1] (Ancestor.mk 50 1) eq_refl
              wf_ancestors_idx_grandchild) as [_ Hgrand'].
  destruct (Hgrand' parent_desc eq_refl) as (Hin2 & _ & _).
  destruct (Hspare [Ancestor.mk 49 2] (Ancestor.mk 50 2) eq_refl
              wf_ancestors_idx_spare) as [_ Hspare'].
  destruct (Hspare' parent_desc eq_refl) as (_ & Hbeyond & _).
  split; [apply Hnone; reflexivity|].
  split; [rewrite Hin by (simpl; lia); reflexivity|].
  split; [eexists; reflexivity|].
  split; [rewrite Hin2 by (simpl; lia); reflexivity|].
  rewrite Hbeyond by (simpl; lia). reflexivity.
Defined.

(** C4 fails as stated: the key-column slice of [idx_spare] holds the three
    key columns a, b, c and has capacity four; the shared-prefix lengths of
    its two ancestors sum to four; the clause rendered lists four names, the
    last of them the entry of the backing array behind the key columns, and
    so is not the clause over the first four key columns. *)
Lemma showCreateInterleave_beyond_key_columns :
  IndexDescriptor.Ancestors idx_spare = [Ancestor.mk 49 2; Ancestor.mk 50 2]
  /\ elems (IndexDescriptor.ColumnNames idx_spare) = ["a"; "b"; "c"]
  /\ sum_SharedPrefixLen (IndexDescriptor.Ancestors idx_spare) = 4%Z
  /\ spec_interleave_clause "parent"
       (firstn 4 (elems (IndexDescriptor.ColumnNames idx_spare)))
     = " INTERLEAVE IN PARENT parent (a, b, c)"
  /\ showCreateInterleave planner0 idx_spare
     = Ok " INTERLEAVE IN PARENT parent (a, b, c, )"
  /\ showCreateInterleave planner0 idx_spare
     <> Ok (spec_interleave_clause "parent"
              (firstn 4 (elems (IndexDescriptor.ColumnNames idx_spare)))).
Proof.
  repeat split. discriminate.
Qed.

(** C10 fails as stated: the key-column slice of [idx_spare] has three
    elements and capacity four, its two ancestors share two columns each
    (the per-ancestor invariant holds), and the slice expression at their
    sum, four, is in bounds: no panic, although the sum exceeds the number
    of key columns. *)
Lemma showCreateInterleave_spare_capacity :
  IndexDescriptor.Ancestors idx_spare <> []
  /\ wf_ancestors (IndexDescriptor.Ancestors idx_spare)
  /\ per_ancestor_invariant idx_spare
  /\ len (IndexDescriptor.ColumnNames idx_spare) = 3
  /\ cap (IndexDescriptor.ColumnNames idx_spare) = 4
  /\ sum_SharedPrefixLen (IndexDescriptor.Ancestors idx_spare) = 4%Z
  /\ showCreateInterleave planner0 idx_spare
     = Ok " INTERLEAVE IN PARENT parent (a, b, c, )".
Proof.
  split; [discriminate|]. split; [|split].
  - split; [repeat constructor; unfold uint32; simpl; lia | simpl; lia].
  - repeat constructor; simpl; lia.
  - repeat split.
Qed.

Lemma showCreateInterleave_slice_bounds_witness :
  (exists text, showCreateInterleave planner0 idx_child = Ok text)
  /\ per_ancestor_invariant idx_child.
Proof.
  destruct (showCreateInterleave_slice_bounds planner0 idx_child []
              (Ancestor.mk 50 1) parent_desc)
    as (_ & _ & Hsufficient & _);
    [reflexivity | exact wf_ancestors_idx_child | reflexivity |].
  apply Hsufficient. simpl; lia.
Defined.

Lemma ShowCreateTable_primary_key_witness :
  (exists d node s',
     ShowCreateTable planner0 (mkShowCreateTable "t") = Ok d
     /\ constructor d planner0 s0 = (Ok node, s')
     /\ planRows s' node
        = [[ DString "t";
             DString ("CREATE TABLE t ("
                      ++ nl ++ tab ++ "a INT NOT NULL,"
                      ++ nl ++ tab ++ "b INT NULL DEFAULT 5,"
                      ++ nl ++ tab ++ "c STRING NULL,"
                      ++ nl ++ tab ++ "CONSTRAINT primary PRIMARY KEY (a),"
                      ++ nl ++ tab ++ "UNIQUE INDEX t_b_c_idx (b, c) STORING (a),"
                      ++ nl ++ tab ++ "FAMILY primary (a, b, c),"
                      ++ nl ++ tab ++ "CONSTRAINT ck CHECK (a > 0)"
                      ++ nl ++ ")") ]])
  /\ (exists d node s',
        ShowCreateTable planner0 (mkShowCreateTable "kv") = Ok d
        /\ constructor d planner0 s0 = (Ok node, s')
        /\ planRows s' node
           = [[ DString "kv";
                DString ("CREATE TABLE kv ("
                         ++ nl ++ tab ++ "b INT NULL DEFAULT 5,"
                         ++ nl ++ tab ++ "c STRING NULL"
                         ++ nl ++ ")") ]]).
Proof.
  split.
  - destruct (ShowCreateTable_primary_key planner0 (mkShowCreateTable "t")
                (TableName.mk "test" "t") t_desc example_interleave s0)
      as (d & pk & Hd & _ & _ & _ & _ & Hrun & _ & Hexplicit);
      [reflexivity | reflexivity | reflexivity |].
    destruct Hrun as (node & s' & Hrun & Hrows).
    + exact never_fails_planner0.
    + right. discriminate.
    + intros idx [<-|[<-|[]]]; reflexivity.
    + intros fam [<-|[]]. simpl. lia.
    + exists d, node, s'. split; [exact Hd|]. split; [exact Hrun|].
      rewrite Hrows.
      rewrite (Hexplicit colA); [reflexivity | reflexivity | reflexivity |].
      simpl; auto.
  - destruct (ShowCreateTable_primary_key planner0 (mkShowCreateTable "kv")
                (TableName.mk "test" "kv") kv_desc example_interleave s0)
      as (d & pk & Hd & _ & _ & _ & _ & Hrun & Hrowid & _);
      [reflexivity | reflexivity | reflexivity |].
    destruct Hrun as (node & s' & Hrun & Hrows).
    + exact never_fails_planner0.
    + right. discriminate.
    + intros idx [<-|[]]. reflexivity.
    + intros fam [].
    + exists d, node, s'. split; [exact Hd|]. split; [exact Hrun|].
      rewrite Hrows.
      rewrite (Hrowid colRowid); [reflexivity | reflexivity | | reflexivity |].
      * simpl; auto.
      * repeat constructor; simpl; intuition discriminate.
Defined.

(** The text SHOW CREATE TABLE returns for the example table [t]. *)
Example ShowCreateTable_t :
  exists d,
    ShowCreateTable planner0 (mkShowCreateTable "t") = Ok d
    /\ (let (r, s') := constructor d planner0 s0 in
        match r with
        | Ok node => planRows s' node
        | _ => []
        end)
       = [[ DString "t";
            DString ("CREATE TABLE t (" ++ nl ++ tab
                     ++ "a INT NOT NULL," ++ nl ++ tab
                     ++ "b INT NULL DEFAULT 5," ++ nl ++ tab
                     ++ "c STRING NULL," ++ nl ++ tab
                     ++ "CONSTRAINT primary PRIMARY KEY (a)," ++ nl ++ tab
                     ++ "UNIQUE INDEX t_b_c_idx (b, c) STORING (a)," ++ nl ++ tab
                     ++ "FAMILY primary (a, b, c)," ++ nl ++ tab
                     ++ "CONSTRAINT ck CHECK (a > 0)" ++ nl ++ ")") ]].
Proof. eexists. split; reflexivity. Qed.

(** A physical table with a visible column whose primary index lost its key
    columns. *)
Lemma ShowCreateTable_first_key_column_witness :
  fst (ShowCreateTable_constructor (mkShowCreateTable "t")
         (TableDescriptor.mk "t" [colA]
            (IndexDescriptor.mk "primary" true (Go.of_list []) [] [] [] [])
            [] [] [] "" true)
         planner0 s0)
  = Panic "index out of range"
  /\ exists r,
       range_fold (ShowCreateTable_column t_desc) 0
                  (TableDescriptor.VisibleColumns t_desc)
                  ("", "")
       = Ok r.
Proof.
  split.
  - destruct (ShowCreateTable_first_key_column planner0 (mkShowCreateTable "t")
                (TableDescriptor.mk "t" [colA]
                   (IndexDescriptor.mk "primary" true (Go.of_list []) [] [] [] [])
                   [] [] [] "" true) s0)
      as (Hpanic & _ & _); [reflexivity | discriminate |].
    apply Hpanic. reflexivity.
  - destruct (ShowCreateTable_first_key_column planner0 (mkShowCreateTable "t")
                t_desc s0)
      as (_ & Htotal & _); [reflexivity | discriminate |].
    apply Htotal. discriminate.
Defined.

(** SHOW GRANTS ON test.t: the three grants on [t], answered as
    (alice, SELECT), (bob, SELECT), (alice, INSERT), are held in that order
    and returned as alice/INSERT, alice/SELECT, bob/SELECT.
    SHOW GRANTS ON DATABASE test with the table target test.kv: the row of
    the database source is held before the row of the table source, and the
    plan returns them sorted by the object name. *)
Lemma ShowGrants_sorted_concatenation_witness :
  (exists d v sort s',
     ShowGrants planner0
       (mkShowGrants (Some (TargetList.mk None (Some ["test.t"]))) None) = Ok d
     /\ constructor d planner0 s0 = (Ok (PlanSelectTop v sort), s')
     /\ rows_of s' v
        = [ [DString "t"; DString "alice"; DString "SELECT"];
            [DString "t"; DString "bob"; DString "SELECT"];
            [DString "t"; DString "alice"; DString "INSERT"] ]
     /\ planRows s' (PlanSelectTop v sort)
        = [ [DString "t"; DString "alice"; DString "INSERT"];
            [DString "t"; DString "alice"; DString "SELECT"];
            [DString "t"; DString "bob"; DString "SELECT"] ])
  /\ (exists d v sort s',
        ShowGrants planner0
          (mkShowGrants (Some (TargetList.mk (Some ["test"]) (Some ["test.kv"])))
                        None) = Ok d
        /\ constructor d planner0 s0 = (Ok (PlanSelectTop v sort), s')
        /\ rows_of s' v
           = [ [DString "test"; DString "alice"; DString "ALL"];
               [DString "kv"; DString "alice"; DString "SELECT"] ]
        /\ planRows s' (PlanSelectTop v sort)
           = [ [DString "kv"; DString "alice"; DString "SELECT"];
               [DString "test"; DString "alice"; DString "ALL"] ]).
Proof.
  split.
  - destruct (ShowGrants_sorted_concatenation planner0
                (mkShowGrants (Some (TargetList.mk None (Some ["test.t"]))) None)
                (TargetList.mk None (Some ["test.t"])) expand_one
                []
                [ [DString "t"; DString "alice"; DString "SELECT"];
                  [DString "t"; DString "bob"; DString "SELECT"];
                  [DString "t"; DString "alice"; DString "INSERT"] ]
                s0)
      as ((d & v & sort & s' & Hd & Hrun & Hrows & _ & Hplan & _) & _).
    + reflexivity.
    + exact never_fails_planner0.
    + intros dbs db Hdbs. discriminate.
    + intros pats pat Hpats. injection Hpats as <-.
      intros [<-|[]]. eexists; split; reflexivity.
    + intros pats t Hpats. injection Hpats as <-.
      intros [<-|[]]. exists [DString "test"], []. reflexivity.
    + reflexivity.
    + reflexivity.
    + exists d, v, sort, s'. split; [exact Hd|]. split; [exact Hrun|].
      split; [rewrite Hrows; reflexivity | rewrite Hplan; reflexivity].
  - destruct (ShowGrants_sorted_concatenation planner0
                (mkShowGrants
                   (Some (TargetList.mk (Some ["test"]) (Some ["test.kv"]))) None)
                (TargetList.mk (Some ["test"]) (Some ["test.kv"])) expand_one
                [ [DString "test"; DString "alice"; DString "ALL"] ]
                [ [DString "kv"; DString "alice"; DString "SELECT"] ]
                s0)
      as ((d & v & sort & s' & Hd & Hrun & Hrows & _ & Hplan & _) & _).
    + reflexivity.
    + exact never_fails_planner0.
    + intros dbs db Hdbs. injection Hdbs as <-.
      intros [<-|[]]. exists [DString "test"], []. reflexivity.
    + intros pats pat Hpats. injection Hpats as <-.
      intros [<-|[]]. eexists; split; reflexivity.
    + intros pats t Hpats. injection Hpats as <-.
      intros [<-|[]]. exists [DString "test"], []. reflexivity.
    + reflexivity.
    + reflexivity.
    + exists d, v, sort, s'. split; [exact Hd|]. split; [exact Hrun|].
      split; [rewrite Hrows; reflexivity | rewrite Hplan; reflexivity].
Defined.

(** The three grants on [t], stored as (alice, SELECT), (bob, SELECT),
    (alice, INSERT), are returned as alice/INSERT, alice/SELECT, bob/SELECT. *)
Example ShowGrants_t :
  rows_of (snd (constructor_of
                  (ShowGrants planner0
                     (mkShowGrants (Some (TargetList.mk None (Some ["test.t"]))) None))
                  planner0 s0))
          (mkValuesNode [col "Table" TypeString; col "User" TypeString;
                         col "Privileges" TypeString] 0)
  = [ [DString "t"; DString "alice"; DString "SELECT"];
      [DString "t"; DString "bob"; DString "SELECT"];
      [DString "t"; DString "alice"; DString "INSERT"] ]
  /\ run_plan (ShowGrants planner0
                 (mkShowGrants (Some (TargetList.mk None (Some ["test.t"]))) None))
              planner0 s0
     = Ok [ [DString "t"; DString "alice"; DString "INSERT"];
            [DString "t"; DString "alice"; DString "SELECT"];
            [DString "t"; DString "bob"; DString "SELECT"] ].
Proof. split; reflexivity. Qed.

(** C1 fails as stated: on the example catalog, which has no table
    [test.nosuch], the builders of SHOW INDEX, SHOW CREATE TABLE,
    SHOW CONSTRAINTS and SHOW CREATE VIEW fail with the undefined-table error
    at plan-build time, and for bob, who has no privilege on [kv], the
    builder of SHOW INDEX fails with the privilege error: no plan, and no
    callback, is returned. *)
Lemma missing_table_fails_at_build :
  ShowIndex planner0 (mkShowIndex "nosuch") = Err (errUndefinedTable "test.nosuch")
  /\ ShowCreateTable planner0 (mkShowCreateTable "nosuch")
     = Err (errUndefinedTable "test.nosuch")
  /\ ShowConstraints planner0 (mkShowConstraints "nosuch")
     = Err (errUndefinedTable "test.nosuch")
  /\ ShowCreateView planner0 (mkShowCreateView "nosuch")
     = Err (errUndefinedTable "test.nosuch")
  /\ ShowIndex (mk_planner example_catalog bob None) (mkShowIndex "kv")
     = Err (errOther "user bob has no privileges on table kv").
Proof. repeat split. Qed.

Lemma errors_at_build_or_in_callback_witness :
  ShowIndex planner0 (mkShowIndex "nosuch") = Err (errUndefinedTable "test.nosuch")
  /\ (exists d,
        ShowColumns planner0 (mkShowColumns "missingdb.t") = Ok d
        /\ fst (constructor d planner0 s0) = Err (errUndefinedDatabase "missingdb"))
  /\ (exists d,
        ShowTables planner0 (mkShowTables "missingdb") = Ok d
        /\ fst (constructor d planner0 s0) = Err (errUndefinedDatabase "missingdb"))
  /\ (exists d,
        ShowGrants planner0
          (mkShowGrants (Some (TargetList.mk (Some ["missingdb"]) None)) None) = Ok d
        /\ fst (constructor d planner0 s0) = Err (errUndefinedDatabase "missingdb"))
  /\ (exists d,
        ShowCreateView planner0 (mkShowCreateView "broken") = Ok d
        /\ fst (constructor d planner0 s0)
           = Err (errViewParse (errOther "syntax error") "test.broken")).
Proof.
  destruct (errors_at_build_or_in_callback planner0 s0)
    as (Hbuild & Hcolumns & Htables & Hgrants & Hview).
  split; [|split; [|split; [|split]]].
  - destruct (Hbuild "nosuch" (TableName.mk "test" "nosuch")) as (Hmissing & _);
      [reflexivity|].
    apply (Hmissing (errUndefinedTable "test.nosuch")). reflexivity.
  - destruct (Hcolumns (mkShowColumns "missingdb.t") (TableName.mk "missingdb" "t"))
      as (d & Hd & Herr); [reflexivity|].
    exists d. split; [exact Hd|]. apply Herr. reflexivity.
  - destruct (Htables "missingdb") as (d & Hd & Herr); [discriminate|].
    exists d. split; [exact Hd|]. apply Herr. reflexivity.
  - destruct (Hgrants (mkShowGrants (Some (TargetList.mk (Some ["missingdb"]) None)) None)
                      (TargetList.mk (Some ["missingdb"]) None))
      as (d & Hd & Herr); [reflexivity|].
    exists d. split; [exact Hd|]. apply (Herr "missingdb" []); reflexivity.
  - apply (Hview (mkShowCreateView "broken") (TableName.mk "test" "broken")
                 broken_view (errOther "syntax error")); reflexivity.
Defined.

(** C2 fails on the code.  The stored query of the view [unplannable]
    cannot be planned and that of [broken] does not parse: in both cases the
    callback of SHOW CREATE VIEW returns the error and leaves the container
    it allocated open.  So does the callback of SHOW CONSTRAINTS when the
    constraints cannot be read. *)
Theorem early_return_leaks_container :
  (exists d,
     ShowCreateView planner0 (mkShowCreateView "unplannable") = Ok d
     /\ fst (constructor d planner0 s0) = Err (errOther "cannot plan query")
     /\ containers (snd (constructor d planner0 s0)) = [mkRowContainer [] false]
     /\ live (snd (constructor d planner0 s0)) 0)
  /\ (exists d,
        ShowCreateView planner0 (mkShowCreateView "broken") = Ok d
        /\ fst (constructor d planner0 s0)
           = Err (errViewParse (errOther "syntax error") "test.broken")
        /\ containers (snd (constructor d planner0 s0)) = [mkRowContainer [] false]
        /\ live (snd (constructor d planner0 s0)) 0)
  /\ (exists d,
        ShowConstraints (with_failing_constraints planner0 (errOther "read failed"))
                        (mkShowConstraints "t") = Ok d
        /\ fst (constructor d
                  (with_failing_constraints planner0 (errOther "read failed")) s0)
           = Err (errOther "read failed")
        /\ live (snd (constructor d
                        (with_failing_constraints planner0 (errOther "read failed"))
                        s0)) 0).
Proof.
  split; [|split].
  - eexists. split; [reflexivity|]. split; [reflexivity|]. split; [reflexivity|].
    eexists. split; reflexivity.
  - eexists. split; [reflexivity|]. split; [reflexivity|]. split; [reflexivity|].
    eexists. split; reflexivity.
  - eexists. split; [reflexivity|]. split; [reflexivity|].
    eexists. split; reflexivity.
Qed.

(** On the same catalog the callbacks of SHOW CREATE TABLE and of
    SHOW CREATE VIEW itself, failing on a full container, close it before
    returning the error. *)
Example AddRow_failure_closes_container :
  (exists d,
     ShowCreateTable (planner_budget 0) (mkShowCreateTable "t") = Ok d
     /\ fst (constructor d (planner_budget 0) s0)
        = Err (errOther "memory budget exceeded")
     /\ containers (snd (constructor d (planner_budget 0) s0))
        = [mkRowContainer [] true])
  /\ (exists d,
        ShowCreateView (planner_budget 0) (mkShowCreateView "v") = Ok d
        /\ fst (constructor d (planner_budget 0) s0)
           = Err (errOther "memory budget exceeded")
        /\ containers (snd (constructor d (planner_budget 0) s0))
           = [mkRowContainer [] true]).
Proof. split; eexists; repeat split. Qed.

(** The text SHOW CREATE VIEW returns for the view [v]. *)
Example ShowCreateView_v :
  run_plan (ShowCreateView planner0 (mkShowCreateView "v")) planner0 s0
  = Ok [[DString "v"; DString "CREATE VIEW v AS SELECT a FROM test.t"]].
Proof. reflexivity. Qed.


(** ** The further properties on the example catalog *)

Lemma plans_release_on_error_witness :
  exists d s',
    Show planner0 (mkShow "all") = Ok d
    /\ constructor d (planner_budget 3) s0
       = (Err (errOther "memory budget exceeded"), s')
    /\ released_since s0 s'.
Proof.
  eexists _, _. split; [reflexivity|]. split; [reflexivity|].
  eapply (plans_release_on_error planner0 (planner_budget 3)).
  - left. exists (mkShow "all"). reflexivity.
  - reflexivity.
Defined.

Lemma Show_lookup_guarded_witness :
  Show planner0 (mkShow "nosuch") = Err (errUnknownVariable "NOSUCH")
  /\ fst (Show_constructor "NOSUCH" [] planner0 s0) = Panic "call of nil function"
  /\ (exists d,
        Show planner0 (mkShow "database") = Ok d
        /\ forall msg, fst (constructor d (planner_budget 0) s0) <> Panic msg).
Proof.
  split; [reflexivity|]. split.
  - destruct (Show_lookup_guarded planner0 (mkShow "nosuch")) as (_ & H & _).
    destruct (H (errUnknownVariable "NOSUCH")) as [_ Hp]; [reflexivity|].
    apply (Hp [] planner0 s0).
  - eexists. split; [reflexivity|]. intros msg.
    destruct (Show_lookup_guarded planner0 (mkShow "database")) as (_ & _ & H).
    eapply H. reflexivity.
Defined.

Lemma Help_rows_witness :
  (exists d node s',
     Help planner0 (mkHelp "LENGTH") = Ok d
     /\ dn_name d = "HELP length"
     /\ constructor d planner0 s0 = (Ok node, s')
     /\ planRows s' node
        = [ [DString "length"; DString "(string) -> int"; DString "String";
             DString "length of a string"];
            [DString "length"; DString "(bytes) -> int"; DString "String";
             DString "length of a byte array"] ])
  /\ (exists d node s',
        Help planner0 (mkHelp "nosuch") = Ok d
        /\ constructor d planner0 s0 = (Ok node, s')
        /\ planRows s' node = []).
Proof.
  split.
  - destruct (Help_rows planner0 (mkHelp "LENGTH") s0 never_fails_planner0)
      as (d & Hd & Hname & node & s' & Hrun & Hrows).
    exists d, node, s'. auto.
  - destruct (Help_rows planner0 (mkHelp "nosuch") s0 never_fails_planner0)
      as (d & Hd & _ & node & s' & Hrun & Hrows).
    exists d, node, s'. auto.
Defined.

Lemma ShowTables_rows_witness :
  ShowTables (mk_planner example_catalog (mkSession "" "alice" "" "" "" []) None)
             (mkShowTables "") = Err errNoDatabase
  /\ (exists d node s',
        ShowTables planner0 (mkShowTables "information_schema") = Ok d
        /\ dn_name d = "SHOW TABLES FROM information_schema"
        /\ constructor d planner0 s0 = (Ok node, s')
        /\ planRows s' node = [[DString "tables"]]
        /\ evalCtx_Database s' = evalCtx_Database s0).
Proof.
  split.
  - apply (ShowTables_rows
             (mk_planner example_catalog (mkSession "" "alice" "" "" "" []) None)
             (mkShowTables "") s0).
    reflexivity.
  - destruct (ShowTables_rows planner0 (mkShowTables "information_schema") s0)
      as [_ H].
    destruct H as (d & Hd & Hname & _ & Hrun); [discriminate|].
    destruct (Hrun [DString "information_schema"] []) as [Hok _]; [reflexivity|].
    destruct (Hok [[DString "tables"]] never_fails_planner0)
      as (node & s' & H1 & H2 & _ & H3); [reflexivity|].
    exists d, node, s'. auto.
Defined.

Lemma ShowColumns_rows_witness :
  exists node s',
    ShowColumns_constructor (TableName.mk "test" "t") planner0 s0 = (Ok node, s')
    /\ planRows s' node
       = [ [DString "a"; DString "INT"; DBool false; DNull];
           [DString "b"; DString "INT"; DBool true; DString "5"];
           [DString "c"; DString "STRING"; DBool true; DNull] ]
    /\ evalCtx_Database s' = evalCtx_Database s0.
Proof.
  destruct (ShowColumns_rows planner0 (TableName.mk "test" "t") s0) as [Hok _].
  - exists [DString "test"], []. reflexivity.
  - exists [DString "test"], []. reflexivity.
  - right. split; [reflexivity|]. exists (DString "t"), []. reflexivity.
  - apply Hok; [exact never_fails_planner0 | reflexivity].
Defined.

Lemma ShowConstraints_rows_witness :
  (exists node s',
     ShowConstraints_constructor (TableName.mk "test" "t") t_desc planner0 s0
     = (Ok node, s')
     /\ planRows s' node
        = [ [DString "t"; DString "ck"; DString "CHECK (UNVALIDATED)"; DNull;
             DString "a > 0"];
            [DString "t"; DString "primary"; DString "PRIMARY KEY"; DString "a";
             DNull] ])
  /\ sort_by entry_leb (rev (cat_constraints example_catalog))
     = sort_by entry_leb (cat_constraints example_catalog).
Proof.
  destruct (ShowConstraints_rows planner0 (TableName.mk "test" "t") t_desc
              (cat_constraints example_catalog) s0 never_fails_planner0)
    as (Hrun & _ & _ & Horder); [reflexivity|].
  split.
  - exact Hrun.
  - apply Horder.
    + repeat constructor; simpl; intuition discriminate.
    + apply Permutation_rev.
Defined.

Lemma ShowCreateView_text_witness :
  (exists node s',
     ShowCreateView_constructor (mkShowCreateView "w") (TableName.mk "test" "w")
                                renamed_view planner0 s0 = (Ok node, s')
     /\ planRows s' node
        = [[DString "w"; DString "CREATE VIEW w (b) AS SELECT a FROM test.t"]])
  /\ (exists node s',
        ShowCreateView_constructor (mkShowCreateView "v") (TableName.mk "test" "v")
                                   good_view planner0 s0 = (Ok node, s')
        /\ planRows s' node
           = [[DString "v"; DString "CREATE VIEW v AS SELECT a FROM test.t"]])
  /\ fst (ShowCreateView_constructor (mkShowCreateView "stale")
            (TableName.mk "test" "stale") stale_view planner0 s0)
     = Panic "index out of range".
Proof.
  split; [|split].
  - destruct (ShowCreateView_text planner0 (mkShowCreateView "w")
                (TableName.mk "test" "w") renamed_view s0
                "SELECT a FROM test.t" [col "a" TypeString]) as [_ Hok];
      [reflexivity | reflexivity |].
    apply Hok; [exact never_fails_planner0 | left; reflexivity].
  - destruct (ShowCreateView_text planner0 (mkShowCreateView "v")
                (TableName.mk "test" "v") good_view s0
                "SELECT a FROM test.t" [col "a" TypeString]) as [_ Hok];
      [reflexivity | reflexivity |].
    apply Hok; [exact never_fails_planner0 | right; simpl; lia].
  - destruct (ShowCreateView_text planner0 (mkShowCreateView "stale")
                (TableName.mk "test" "stale") stale_view s0
                "SELECT a FROM test.t" [col "a" TypeString]) as [Hpanic _];
      [reflexivity | reflexivity |].
    apply Hpanic; [reflexivity | simpl; lia].
Defined.

(** For a planner whose planning of SELECT refuses alice unless the checks
    are skipped, the callback of SHOW CREATE VIEW on the view [v] succeeds,
    with the checks on when it is called; the planning error of the view
    [unplannable] is the error of its callback. *)
Lemma ShowCreateView_skips_privilege_checks_witness :
  Select_Columns planner_checked false "SELECT a FROM test.t"
  = Err (errOther "user alice does not have SELECT privilege")
  /\ (exists node s',
        ShowCreateView_constructor (mkShowCreateView "v") (TableName.mk "test" "v")
                                   good_view planner_checked s0 = (Ok node, s')
        /\ planRows s' node
           = [[DString "v"; DString "CREATE VIEW v AS SELECT a FROM test.t"]]
        /\ skipSelectPrivilegeChecks s' = false)
  /\ fst (ShowCreateView_constructor (mkShowCreateView "unplannable")
            (TableName.mk "test" "unplannable") unplannable_view planner0
            (set_skipSelectPrivilegeChecks false s0))
     = Err (errOther "cannot plan query").
Proof.
  destruct (ShowCreateView_skips_privilege_checks planner0 s0)
    as (_ & _ & _ & _ & _ & _ & _ & _ & _ & _ & Herr & Honly).
  split; [reflexivity|]. split.
  - unfold planner_checked. rewrite Honly by reflexivity.
    destruct (ShowCreateView_constructor (mkShowCreateView "v")
                (TableName.mk "test" "v") good_view planner0 s0)
      as [[node|e|msg] s'] eqn:Hrun;
      [|vm_compute in Hrun; discriminate|vm_compute in Hrun; discriminate].
    exists node, s'. split; [reflexivity|].
    vm_compute in Hrun. injection Hrun as <- <-. split; reflexivity.
  - apply (Herr (mkShowCreateView "unplannable") (TableName.mk "test" "unplannable")
                unplannable_view "SELECT a FROM test.gone");
      reflexivity.
Defined.

Lemma ShowGrants_database_query_witness :
  trace (snd (ShowGrants_constructor
                (mkShowGrants (Some (TargetList.mk (Some ["test"]) None))
                              (Some ["alice"]))
                (TargetList.mk (Some ["test"]) None)
                [col "Database" TypeString; col "User" TypeString;
                 col "Privileges" TypeString]
                planner0 s0))
  = [ database_probe "test";
      EvQueryRows (schemaGrants_query ["$1"] ++ " AND GRANTEE IN($2)")
                  ["test"; "alice"] ]
  /\ exists node s',
       ShowGrants_constructor
         (mkShowGrants (Some (TargetList.mk (Some ["test"]) None)) (Some ["alice"]))
         (TargetList.mk (Some ["test"]) None)
         [col "Database" TypeString; col "User" TypeString;
          col "Privileges" TypeString]
         planner0 s0
       = (Ok node, s')
       /\ planRows s' node = [[DString "test"; DString "alice"; DString "ALL"]].
Proof.
  destruct (ShowGrants_database_query planner0
              (mkShowGrants (Some (TargetList.mk (Some ["test"]) None))
                            (Some ["alice"]))
              (TargetList.mk (Some ["test"]) None)
              [col "Database" TypeString; col "User" TypeString;
               col "Privileges" TypeString]
              ["test"] s0) as (Ht & Hok & _).
  - reflexivity.
  - reflexivity.
  - intros db [<-|[]]. exists [DString "test"], []. reflexivity.
  - split; [rewrite Ht; reflexivity|].
    destruct (Hok [[DString "test"; DString "alice"; DString "ALL"]]
                  never_fails_planner0) as (node & s' & H1 & H2); [reflexivity|].
    exists node, s'. split; [exact H1|]. rewrite H2. reflexivity.
Defined.

Lemma ShowGrants_missing_database_witness :
  fst (ShowGrants_constructor
         (mkShowGrants
            (Some (TargetList.mk (Some ["test"; "nosuch"; "information_schema"]) None))
            None)
         (TargetList.mk (Some ["test"; "nosuch"; "information_schema"]) None)
         [] planner0 s0)
  = Err (errUndefinedDatabase "nosuch")
  /\ closed_in (snd (ShowGrants_constructor
                       (mkShowGrants
                          (Some (TargetList.mk
                                   (Some ["test"; "nosuch"; "information_schema"])
                                   None))
                          None)
                       (TargetList.mk (Some ["test"; "nosuch"; "information_schema"])
                                      None)
                       [] planner0 s0)) 0
  /\ trace (snd (ShowGrants_constructor
                   (mkShowGrants
                      (Some (TargetList.mk
                               (Some ["test"; "nosuch"; "information_schema"]) None))
                      None)
                   (TargetList.mk (Some ["test"; "nosuch"; "information_schema"])
                                  None)
                   [] planner0 s0))
     = [database_probe "test"; database_probe "nosuch"].
Proof.
  apply (ShowGrants_missing_database planner0 _ _ [] ["test"] "nosuch"
           ["information_schema"] s0).
  - reflexivity.
  - intros db [<-|[]]. exists [DString "test"], []. reflexivity.
  - reflexivity.
Defined.

Lemma ShowGrants_table_query_witness :
  trace (snd (ShowGrants_constructor
                (mkShowGrants (Some (TargetList.mk None (Some ["test.t"; "test.kv"])))
                              None)
                (TargetList.mk None (Some ["test.t"; "test.kv"]))
                [col "Table" TypeString; col "User" TypeString;
                 col "Privileges" TypeString]
                planner0 s0))
  = [ table_probe (TableName.mk "test" "t");
      table_probe (TableName.mk "test" "kv");
      EvQueryRows (tableGrants_query ["($1,$2)"; "($3,$4)"])
                  ["test"; "t"; "test"; "kv"] ]
  /\ exists node s',
       ShowGrants_constructor
         (mkShowGrants (Some (TargetList.mk None (Some ["test.t"; "test.kv"]))) None)
         (TargetList.mk None (Some ["test.t"; "test.kv"]))
         [col "Table" TypeString; col "User" TypeString;
          col "Privileges" TypeString]
         planner0 s0
       = (Ok node, s')
       /\ planRows s' node
          = [ [DString "kv"; DString "alice"; DString "SELECT"];
              [DString "t"; DString "alice"; DString "INSERT"];
              [DString "t"; DString "alice"; DString "SELECT"];
              [DString "t"; DString "bob"; DString "SELECT"] ].
Proof.
  destruct (ShowGrants_table_query planner0
              (mkShowGrants (Some (TargetList.mk None (Some ["test.t"; "test.kv"])))
                            None)
              (TargetList.mk None (Some ["test.t"; "test.kv"]))
              [col "Table" TypeString; col "User" TypeString;
               col "Privileges" TypeString]
              expand_one ["test.t"; "test.kv"] s0) as (Ht & Hok).
  - reflexivity.
  - reflexivity.
  - intros pat [<-|[<-|[]]]; eexists; split; reflexivity.
  - intros t [<-|[<-|[]]]; exists [DString "test"], []; reflexivity.
  - split; [rewrite Ht; reflexivity|].
    destruct (Hok [ [DString "t"; DString "alice"; DString "SELECT"];
                    [DString "t"; DString "bob"; DString "SELECT"];
                    [DString "t"; DString "alice"; DString "INSERT"];
                    [DString "kv"; DString "alice"; DString "SELECT"] ]
                  never_fails_planner0) as (node & s' & H1 & H2); [reflexivity|].
    exists node, s'. split; [exact H1|]. rewrite H2. reflexivity.
Defined.

Lemma ShowCreateTable_family_clause_witness :
  ShowCreateTable_family t_desc 0 fam_dropped ""
  = Ok ("," ++ nl ++ tab ++ "FAMILY g (a, c)")
  /\ ShowCreateTable_family t_desc 0 fam_short "" = Panic "index out of range".
Proof.
  split.
  - rewrite (proj1 (ShowCreateTable_family_clause t_desc fam_dropped 0 ""))
      by (simpl; lia).
    reflexivity.
  - apply (proj2 (ShowCreateTable_family_clause t_desc fam_short 0 "") 1 2%Z).
    + reflexivity.
    + reflexivity.
    + simpl. lia.
Defined.

Lemma ShowCreateTable_statement_witness :
  exists node s',
    ShowCreateTable_constructor (mkShowCreateTable "t") t_desc planner0 s0
    = (Ok node, s')
    /\ planRows s' node
       = [[ DString "t";
            DString ("CREATE TABLE t ("
                     ++ nl ++ tab ++ "a INT NOT NULL,"
                     ++ nl ++ tab ++ "b INT NULL DEFAULT 5,"
                     ++ nl ++ tab ++ "c STRING NULL,"
                     ++ nl ++ tab ++ "CONSTRAINT primary PRIMARY KEY (a),"
                     ++ nl ++ tab ++ "UNIQUE INDEX t_b_c_idx (b, c) STORING (a),"
                     ++ nl ++ tab ++ "FAMILY primary (a, b, c),"
                     ++ nl ++ tab ++ "CONSTRAINT ck CHECK (a > 0)"
                     ++ nl ++ ")") ]].
Proof.
  destruct (ShowCreateTable_statement planner0 (mkShowCreateTable "t") t_desc
              example_interleave s0) as (node & s' & H1 & H2).
  - exact never_fails_planner0.
  - right. discriminate.
  - intros idx [<-|[<-|[]]]; reflexivity.
  - intros fam [<-|[]]. simpl. lia.
  - exists node, s'. split; [exact H1|]. rewrite H2. reflexivity.
Defined.

Lemma ShowIndex_missing_direction_witness :
  fst (ShowIndex_constructor (TableName.mk "test" "short") short_desc planner0 s0)
  = Panic "index out of range".
Proof.
  apply (ShowIndex_missing_direction planner0 (TableName.mk "test" "short")
           short_desc [t_pk] idx_short [] s0).
  - reflexivity.
  - exact never_fails_planner0.
  - repeat constructor.
  - unfold len. simpl. lia.
Defined.

Lemma plan_columns_fixed_at_build_witness :
  exists d node s',
    ShowGrants planner0
      (mkShowGrants (Some (TargetList.mk (Some ["test"]) (Some ["test.t"]))) None)
    = Ok d
    /\ constructor d (mk_planner example_catalog bob None) s0 = (Ok node, s')
    /\ vn_columns (source_of node) = dn_columns d
    /\ dn_columns d = [ col "Table" TypeString; col "User" TypeString;
                        col "Privileges" TypeString ].
Proof.
  destruct (plan_columns_fixed_at_build planner0
              (mk_planner example_catalog bob None)
              (mkDelayedNode "SHOW GRANTS"
                 [ col "Table" TypeString; col "User" TypeString;
                   col "Privileges" TypeString ]
                 (ShowGrants_constructor
                    (mkShowGrants
                       (Some (TargetList.mk (Some ["test"]) (Some ["test.t"]))) None)
                    (TargetList.mk (Some ["test"]) (Some ["test.t"]))
                    [ col "Table" TypeString; col "User" TypeString;
                      col "Privileges" TypeString ])))
    as [Hcols Hgrants].
  - do 5 right. left.
    exists (mkShowGrants (Some (TargetList.mk (Some ["test"]) (Some ["test.t"]))) None).
    reflexivity.
  - destruct (constructor
                (mkDelayedNode "SHOW GRANTS"
                   [ col "Table" TypeString; col "User" TypeString;
                     col "Privileges" TypeString ]
                   (ShowGrants_constructor
                      (mkShowGrants
                         (Some (TargetList.mk (Some ["test"]) (Some ["test.t"])))
                         None)
                      (TargetList.mk (Some ["test"]) (Some ["test.t"]))
                      [ col "Table" TypeString; col "User" TypeString;
                        col "Privileges" TypeString ]))
                (mk_planner example_catalog bob None) s0)
      as [[node|e|msg] s'] eqn:Hrun;
      [|vm_compute in Hrun; discriminate|vm_compute in Hrun; discriminate].
    eexists _, node, s'. split; [reflexivity|]. split; [exact Hrun|]. split.
    + exact (Hcols s0 node s' Hrun).
    + reflexivity.
Defined.

Lemma Show_reads_running_planner_witness :
  exists d node s',
    Show planner0 (mkShow "database") = Ok d
    /\ constructor d (mk_planner example_catalog carol None) s0 = (Ok node, s')
    /\ planRows s' node = [[DString "information_schema"]].
Proof.
  destruct (Show_reads_running_planner planner0
              (mk_planner example_catalog carol None) (mkShow "database")
              (mkDelayedNode "SHOW DATABASE" [col "DATABASE" TypeString]
                 (Show_constructor "DATABASE" [col "DATABASE" TypeString])) s0)
    as (node & s' & Hrun & Hrows).
  - reflexivity.
  - intros rows row. reflexivity.
  - eexists _, node, s'. split; [reflexivity|]. split; [exact Hrun | exact Hrows].
Defined.

Lemma varNames_independent_of_map_order_witness :
  sort_Strings (rev (map fst varGen)) = varNames
  /\ map (fun vName => [DString vName; DString (var_value planner0 vName)])
         (sort_Strings (rev (map fst varGen)))
     = ShowAll_rows planner0.
Proof.
  apply (varNames_independent_of_map_order planner0 (rev (map fst varGen))).
  apply Permutation_sym, Permutation_rev.
Defined.

Lemma ShowCreateTable_parent_unreadable_witness :
  showCreateInterleave planner0 idx_orphan = Err (errOther "descriptor not found")
  /\ fst (ShowCreateTable_constructor (mkShowCreateTable "o") orphan_desc planner0 s0)
     = Err (errOther "descriptor not found")
  /\ containers (snd (ShowCreateTable_constructor (mkShowCreateTable "o")
                        orphan_desc planner0 s0))
     = [mkRowContainer [] true].
Proof.
  apply (ShowCreateTable_parent_unreadable planner0 (mkShowCreateTable "o")
           orphan_desc example_interleave [t_b_c_idx] idx_orphan [] []
           (Ancestor.mk 99 7) (errOther "descriptor not found") s0).
  - right. discriminate.
  - reflexivity.
  - intros idx [<-|[]]. reflexivity.
  - reflexivity.
  - reflexivity.
Defined.

Lemma ShowGrants_missing_table_witness :
  fst (ShowGrants_constructor
         (mkShowGrants (Some (TargetList.mk None (Some ["test.t"; "test.gone"])))
                       None)
         (TargetList.mk None (Some ["test.t"; "test.gone"]))
         [] planner0 s0)
  = Err (errUndefinedTable "test.gone")
  /\ closed_in (snd (ShowGrants_constructor
                       (mkShowGrants
                          (Some (TargetList.mk None (Some ["test.t"; "test.gone"])))
                          None)
                       (TargetList.mk None (Some ["test.t"; "test.gone"]))
                       [] planner0 s0)) 0
  /\ trace (snd (ShowGrants_constructor
                   (mkShowGrants
                      (Some (TargetList.mk None (Some ["test.t"; "test.gone"])))
                      None)
                   (TargetList.mk None (Some ["test.t"; "test.gone"]))
                   [] planner0 s0))
     = [ table_probe (TableName.mk "test" "t");
         table_probe (TableName.mk "test" "gone") ].
Proof.
  destruct (ShowGrants_missing_table planner0
              (mkShowGrants
                 (Some (TargetList.mk None (Some ["test.t"; "test.gone"]))) None)
              (TargetList.mk None (Some ["test.t"; "test.gone"]))
              [] expand_one
              ["test.t"] "test.gone" [] "test.gone" []
              (TableName.mk "test" "gone") [] s0) as (H1 & H2 & H3).
  - reflexivity.
  - reflexivity.
  - intros pat [<-|[]]. eexists. split; reflexivity.
  - reflexivity.
  - reflexivity.
  - intros t [<-|[]]. exists [DString "test"], []. reflexivity.
  - reflexivity.
  - split; [exact H1|]. split; [exact H2|]. rewrite H3. reflexivity.
Defined.

(** A callback run in a state that already has a container: the plan reads
    from the new one, which is open, and the old one is untouched. *)
Lemma callbacks_hand_over_container_witness :
  exists node s',
    ShowConstraints_constructor (TableName.mk "test" "t") t_desc planner0
      (mkPstate "test" false [mkRowContainer [[DString "x"]] false] [])
    = (Ok node, s')
    /\ vn_rows (source_of node) = 1
    /\ length (containers s') = 2
    /\ live s' 1
    /\ nth_error (containers s') 0 = Some (mkRowContainer [[DString "x"]] false).
Proof.
  destruct (ShowConstraints_constructor (TableName.mk "test" "t") t_desc planner0
              (mkPstate "test" false [mkRowContainer [[DString "x"]] false] []))
    as [[node|e|msg] s'] eqn:Hrun;
    [|vm_compute in Hrun; discriminate|vm_compute in Hrun; discriminate].
  destruct (callbacks_hand_over_container planner0)
    as (_ & _ & _ & _ & _ & _ & _ & H & _).
  destruct (H (TableName.mk "test" "t") t_desc _ node s' Hrun)
    as (H1 & H2 & H3 & H4).
  exists node, s'. split; [reflexivity|]. split; [exact H1|]. split; [exact H2|].
  split; [exact H3|]. apply (H4 0). simpl. lia.
Defined.

